(** * lookit-api accounts: demographic data, choice catalogs and display projection

    A shallow embedding of [accounts/models.py]: the choice catalogs of
    [DemographicData], the framework accessor [get_FOO_display] they are read
    through, and [DemographicData.to_display]; followed by a model of the
    record store (create / get / latest_for / history_for) that the repository
    keeps outside [accounts/models.py]. *)

From Stdlib Require Import ZArith NArith String Ascii List Lia.
From stdpp Require Import base option list gmap strings sorting.

Local Open Scope string_scope.
Set Warnings "-register-all".

(** ** Python text formatting used by [isoformat] and [UUID.hex] *)

Module PyFormat.

(** One digit of ["0123456789abcdef"]. *)
Definition digit_char (d : N) : ascii :=
  match d with
  | 0 => "0" | 1 => "1" | 2 => "2" | 3 => "3" | 4 => "4"
  | 5 => "5" | 6 => "6" | 7 => "7" | 8 => "8" | 9 => "9"
  | 10 => "a" | 11 => "b" | 12 => "c" | 13 => "d" | 14 => "e"
  | _ => "f"
  end%N%char.

(** Most significant digit first; [acc] holds the digits already produced. *)
Fixpoint digits_aux (base : N) (fuel : nat) (n : N) (acc : string) : string :=
  match fuel with
  | O => acc
  | S fuel' =>
      let acc' := String (digit_char (n mod base)) acc in
      if (n / base =? 0)%N then acc' else digits_aux base fuel' (n / base) acc'
  end.

(** The digits of [n] in base [base] (2 <= base <= 16); ["0"] for zero.
    A number has at most [log2 n + 1] digits in any such base. *)
Definition digits (base n : N) : string :=
  digits_aux base (S (N.to_nat (N.log2 n))) n EmptyString.

Fixpoint zeros (k : nat) : string :=
  match k with
  | O => EmptyString
  | S k' => String "0"%char (zeros k')
  end.

(** Left padding with ['0'] up to [width] characters; never truncates. *)
Definition zfill (width : nat) (s : string) : string :=
  zeros (width - String.length s) ++ s.

(** ['%0<width>d' % z] *)
Definition format_d (width : nat) (z : Z) : string :=
  if (z <? 0)%Z
  then "-" ++ zfill (width - 1) (digits 10 (Z.to_N (- z)))
  else zfill width (digits 10 (Z.to_N z)).

(** ['%0<width>x' % n] for a non-negative [n] *)
Definition format_x (width : nat) (n : N) : string :=
  zfill width (digits 16 n).

End PyFormat.

(** ** Values held by the model's fields *)

(** [datetime.date]: year, month, day. *)
Record Date := mkDate { year : Z; month : Z; day : Z }.

(** [datetime.datetime]; [utcoffset] is the zone offset in whole minutes,
    [None] for a naive value. *)
Record DateTime := mkDateTime {
  dt_date : Date;
  hour : Z;
  minute : Z;
  second : Z;
  microsecond : Z;
  utcoffset : option Z
}.

(** [uuid.UUID]: a 128-bit integer. *)
Record UUID := mkUUID { uuid_int : N }.

(** JSON-like Python values: what [to_display] puts in its dict and what the
    [extra] blob holds.  Numbers are kept to integers. *)
Inductive PyValue :=
| PyNone
| PyBool (b : bool)
| PyInt (z : Z)
| PyStr (s : string)
| PyList (l : list PyValue)
| PyDict (items : list (string * PyValue)).

(** [date.isoformat()]: ["%04d-%02d-%02d" % (year, month, day)] *)
Definition date_isoformat (d : Date) : string :=
  PyFormat.format_d 4 (year d) ++ "-" ++
  PyFormat.format_d 2 (month d) ++ "-" ++
  PyFormat.format_d 2 (day d).

(** [_format_time] with [timespec='auto']: microseconds only when non-zero. *)
Definition format_time (hh mm ss us : Z) : string :=
  PyFormat.format_d 2 hh ++ ":" ++ PyFormat.format_d 2 mm ++ ":" ++
  PyFormat.format_d 2 ss ++
  (if (us =? 0)%Z then EmptyString else "." ++ PyFormat.format_d 6 us).

(** [datetime.isoformat()] with the default separator ['T']. *)
Definition datetime_isoformat (t : DateTime) : string :=
  date_isoformat (dt_date t) ++ "T" ++
  format_time (hour t) (minute t) (second t) (microsecond t) ++
  match utcoffset t with
  | None => EmptyString
  | Some off =>
      let sign := if (off <? 0)%Z then "-" else "+" in
      let a := Z.abs off in
      sign ++ PyFormat.format_d 2 (a / 60) ++ ":" ++ PyFormat.format_d 2 (a mod 60)
  end.

(** [UUID.hex]: ['%032x' % self.int] *)
Definition uuid_hex (u : UUID) : string := PyFormat.format_x 32 (uuid_int u).

(** ** Python [dict] built from (key, value) pairs *)

(** [dict(pairs)]: pairs are inserted left to right, so a later pair with the
    same key replaces an earlier one. *)
Definition dict_of {V : Type} (pairs : list (string * V)) : gmap string V :=
  fold_left (fun m kv => <[kv.1 := kv.2]> m) pairs ∅.

(** [d.get(key, default)] *)
Definition dict_get {V : Type} (d : gmap string V) (key : string) (dflt : V) : V :=
  match d !! key with
  | Some v => v
  | None => dflt
  end.

(** ** The users a record belongs to *)

(** [User]: [user_pk] is the database primary key ([id]), [uuid] the
    identifier generated by [uuid.uuid4]. *)
Record User := mkUser {
  user_pk : nat;
  uuid : UUID;
  username : string;
  given_name : string;
  middle_name : string;
  family_name : string
}.

(** [User.get_full_name] *)
Definition get_full_name (u : User) : string :=
  given_name u ++ " " ++ middle_name u ++ " " ++ family_name u.

(** ** The choice catalogs of [DemographicData] *)

Definition Choices := list (string * string).

Definition RACE_CHOICES : Choices := [
  ("white", "White");
  ("hisp", "Hispanic, Latino, or Spanish origin");
  ("black", "Black or African American");
  ("asian", "Asian");
  ("native", "American Indian or Alaska Native");
  ("mideast-naf", "Middle Eastern or North African");
  ("hawaiian-pac-isl", "Native Hawaiian or Other Pacific Islander");
  ("other", "Another race, ethnicity, or origin")
].

Definition GENDER_CHOICES : Choices := [
  ("m", "male");
  ("f", "female");
  ("o", "other");
  ("na", "prefer not to answer")
].

Definition EDUCATION_CHOICES : Choices := [
  ("some", "some or attending high school");
  ("hs", "high school diploma or GED");
  ("col", "some or attending college");
  ("assoc", "2-year college degree");
  ("bach", "4-year college degree");
  ("grad", "some or attending graduate or professional school");
  ("prof", "graduate or professional degree")
].

Definition SPOUSE_EDUCATION_CHOICES : Choices := [
  ("some", "some or attending high school");
  ("hs", "high school diploma or GED");
  ("col", "some or attending college");
  ("assoc", "2-year college degree");
  ("bach", "4-year college degree");
  ("grad", "some or attending graduate or professional school");
  ("prof", "graduate or professional degree");
  ("na", "not applicable - no spouse or partner")
].

Definition NO_CHILDREN_CHOICES : Choices := [
  ("0", "0");
  ("1", "1");
  ("2", "2");
  ("3", "3");
  ("4", "4");
  ("5", "5");
  ("6", "6");
  ("7", "7");
  ("8", "8");
  ("9", "9");
  ("10", "10");
  (">10", "More than 10")
].

Definition AGE_CHOICES : Choices := [
  ("<18", "under 18");
  ("18-21", "18-21");
  ("22-24", "22-24");
  ("25-29", "25-29");
  ("30-34", "30-34");
  ("35-39", "35-39");
  ("40-44", "40-44");
  ("45-59", "45-49");
  ("50s", "50-59");
  ("60s", "60-69");
  (">70", "70 or over")
].

Definition GUARDIAN_CHOICES : Choices := [
  ("1", "1");
  ("2", "2");
  ("3>", "3 or more");
  ("varies", "varies")
].

Definition INCOME_CHOICES : Choices := [
  ("0", "0");
  ("5000", "5000");
  ("10000", "10000");
  ("15000", "15000");
  ("20000", "20000");
  ("30000", "30000");
  ("40000", "40000");
  ("50000", "50000");
  ("60000", "60000");
  ("70000", "70000");
  ("80000", "80000");
  ("90000", "90000");
  ("100000", "100000");
  ("110000", "110000");
  ("120000", "120000");
  ("130000", "130000");
  ("140000", "140000");
  ("150000", "150000");
  ("160000", "160000");
  ("170000", "170000");
  ("180000", "180000");
  ("190000", "190000");
  (">200000", "over 200000");
  ("na", "prefer not to answer")
].

Definition DENSITY_CHOICES : Choices := [
  ("urban", "urban");
  ("suburban", "suburban");
  ("rural", "rural")
].

(** The codes and the labels of a catalog, in catalog order. *)
Definition codes (c : Choices) : list string := c.*1.
Definition labels (c : Choices) : list string := c.*2.

(** ** The model *)

(** One row of [DemographicData].  [pk] is the primary key, [previous] the
    primary key of the row it supersedes ([previous_id]), [extra] is
    [PyNone] when the column is NULL. *)
Record DemographicData := mkDemographicData {
  pk : nat;
  user : User;
  created_at : DateTime;
  previous : option nat;
  number_of_children : string;
  child_birthdays : list Date;
  languages_spoken_at_home : string;
  number_of_guardians : string;
  number_of_guardians_explanation : string;
  race_identification : string;
  age : string;
  gender : string;
  education_level : string;
  spouse_education_level : string;
  annual_income : string;
  number_of_books : Z;
  additional_comments : string;
  country : string;
  state : string;
  density : string;
  extra : PyValue
}.

(** The framework's accessor behind every [get_FOO_display] of a field
    declared with [choices]: Django's [Model._get_FIELD_display],
    [force_text(dict(field.flatchoices).get(value, value), strings_only=True)].
    The catalogs here are flat and hold plain strings, so [flatchoices] is the
    catalog itself and [force_text] returns its argument. *)
Definition get_FIELD_display (choices : Choices) (value : string) : string :=
  dict_get (dict_of choices) value value.

Definition get_number_of_children_display (self : DemographicData) : string :=
  get_FIELD_display NO_CHILDREN_CHOICES (number_of_children self).
Definition get_number_of_guardians_display (self : DemographicData) : string :=
  get_FIELD_display GUARDIAN_CHOICES (number_of_guardians self).
Definition get_race_identification_display (self : DemographicData) : string :=
  get_FIELD_display RACE_CHOICES (race_identification self).
Definition get_age_display (self : DemographicData) : string :=
  get_FIELD_display AGE_CHOICES (age self).
Definition get_gender_display (self : DemographicData) : string :=
  get_FIELD_display GENDER_CHOICES (gender self).
Definition get_education_level_display (self : DemographicData) : string :=
  get_FIELD_display EDUCATION_CHOICES (education_level self).
Definition get_spouse_education_level_display (self : DemographicData) : string :=
  get_FIELD_display SPOUSE_EDUCATION_CHOICES (spouse_education_level self).
Definition get_annual_income_display (self : DemographicData) : string :=
  get_FIELD_display INCOME_CHOICES (annual_income self).
Definition get_density_display (self : DemographicData) : string :=
  get_FIELD_display DENSITY_CHOICES (density self).

Section Display.

(** [USStateField] installs the state table of the [localflavor] package as
    the field's choices, whatever [choices] argument it is given; the table
    is not part of this repository. *)
Variable STATE_CHOICES : Choices.

Definition get_state_display (self : DemographicData) : string :=
  get_FIELD_display STATE_CHOICES (state self).

(** The keyword arguments of [dict(...)] in [to_display], in source order.
    [str(self.country)] is the country code held by the field. *)
Definition to_display_items (self : DemographicData) : list (string * PyValue) := [
  ("user", PyStr (uuid_hex (uuid (user self))));
  ("created_at", PyStr (datetime_isoformat (created_at self)));
  ("number_of_children", PyStr (get_number_of_children_display self));
  ("child_birthdays",
     PyList (map (fun birthday => PyStr (date_isoformat birthday)) (child_birthdays self)));
  ("languages_spoken_at_home", PyStr (languages_spoken_at_home self));
  ("number_of_guardians", PyStr (get_number_of_guardians_display self));
  ("number_of_guardians_explanation", PyStr (number_of_guardians_explanation self));
  ("race_identification", PyStr (get_race_identification_display self));
  ("age", PyStr (get_age_display self));
  ("gender", PyStr (get_gender_display self));
  ("education_level", PyStr (get_education_level_display self));
  ("spouse_education_level", PyStr (get_spouse_education_level_display self));
  ("annual_income", PyStr (get_annual_income_display self));
  ("number_of_books", PyInt (number_of_books self));
  ("additional_comments", PyStr (additional_comments self));
  ("country", PyStr (country self));
  ("state", PyStr (get_state_display self));
  ("density", PyStr (get_density_display self));
  ("extra", extra self)
].

(** [DemographicData.to_display] *)
Definition to_display (self : DemographicData) : gmap string PyValue :=
  dict_of (to_display_items self).

End Display.

(** ** The coded fields, one per catalog *)

(** The fields of [DemographicData] declared with one of the catalogs above,
    in declaration order. *)
Inductive CodedField :=
| NumberOfChildren
| NumberOfGuardians
| RaceIdentification
| Age
| Gender
| EducationLevel
| SpouseEducationLevel
| AnnualIncome
| Density.

#[export] Instance CodedField_eq_dec : EqDecision CodedField.
Proof. solve_decision. Defined.

Definition coded_fields : list CodedField :=
  [NumberOfChildren; NumberOfGuardians; RaceIdentification; Age; Gender;
   EducationLevel; SpouseEducationLevel; AnnualIncome; Density].

Definition field_name (f : CodedField) : string :=
  match f with
  | NumberOfChildren => "number_of_children"
  | NumberOfGuardians => "number_of_guardians"
  | RaceIdentification => "race_identification"
  | Age => "age"
  | Gender => "gender"
  | EducationLevel => "education_level"
  | SpouseEducationLevel => "spouse_education_level"
  | AnnualIncome => "annual_income"
  | Density => "density"
  end.

(** The [choices=] argument of the field's declaration. *)
Definition catalog (f : CodedField) : Choices :=
  match f with
  | NumberOfChildren => NO_CHILDREN_CHOICES
  | NumberOfGuardians => GUARDIAN_CHOICES
  | RaceIdentification => RACE_CHOICES
  | Age => AGE_CHOICES
  | Gender => GENDER_CHOICES
  | EducationLevel => EDUCATION_CHOICES
  | SpouseEducationLevel => SPOUSE_EDUCATION_CHOICES
  | AnnualIncome => INCOME_CHOICES
  | Density => DENSITY_CHOICES
  end.

(** The code a row stores in the field. *)
Definition stored_code (f : CodedField) (self : DemographicData) : string :=
  match f with
  | NumberOfChildren => number_of_children self
  | NumberOfGuardians => number_of_guardians self
  | RaceIdentification => race_identification self
  | Age => age self
  | Gender => gender self
  | EducationLevel => education_level self
  | SpouseEducationLevel => spouse_education_level self
  | AnnualIncome => annual_income self
  | Density => density self
  end.

(** The field's display accessor. *)
Definition get_display (f : CodedField) (self : DemographicData) : string :=
  match f with
  | NumberOfChildren => get_number_of_children_display self
  | NumberOfGuardians => get_number_of_guardians_display self
  | RaceIdentification => get_race_identification_display self
  | Age => get_age_display self
  | Gender => get_gender_display self
  | EducationLevel => get_education_level_display self
  | SpouseEducationLevel => get_spouse_education_level_display self
  | AnnualIncome => get_annual_income_display self
  | Density => get_density_display self
  end.

(** ** Reading an age bracket such as ["45-59"] *)

Module Bracket.

Definition digit_value (c : ascii) : option nat :=
  let n := nat_of_ascii c in
  if (48 <=? n)%nat && (n <=? 57)%nat then Some (n - 48)%nat else None.

(** A non-empty run of decimal digits, read as a number. *)
Fixpoint number_aux (acc : nat) (s : string) : option nat :=
  match s with
  | EmptyString => Some acc
  | String c s' =>
      match digit_value c with
      | Some d => number_aux (10 * acc + d) s'
      | None => None
      end
  end.

Definition number (s : string) : option nat :=
  match s with
  | EmptyString => None
  | _ => number_aux 0 s
  end.

(** Splits at the first ['-']. *)
Fixpoint split_dash (s : string) : option (string * string) :=
  match s with
  | EmptyString => None
  | String c s' =>
      if Ascii.eqb c "-"%char then Some (EmptyString, s')
      else match split_dash s' with
           | Some (a, b) => Some (String c a, b)
           | None => None
           end
  end.

(** ["lo-hi"] read as the pair of its bounds; [None] for text of another
    shape. *)
Definition bounds (s : string) : option (nat * nat) :=
  match split_dash s with
  | Some (a, b) =>
      match number a, number b with
      | Some lo, Some hi => Some (lo, hi)
      | _, _ => None
      end
  | None => None
  end.

End Bracket.

(** ** Ordering creation times *)

(** [datetime] orders two values by the instant they denote; the functions
    below are those of Python's [datetime] module. *)
Module PyTime.

Local Open Scope Z_scope.

Definition is_leap (y : Z) : bool :=
  (y mod 4 =? 0) && (negb (y mod 100 =? 0) || (y mod 400 =? 0)).

Definition days_before_year (y : Z) : Z :=
  let y' := y - 1 in y' * 365 + y' / 4 - y' / 100 + y' / 400.

Definition DAYS_BEFORE_MONTH : list Z :=
  [-1; 0; 31; 59; 90; 120; 151; 181; 212; 243; 273; 304; 334].

Definition days_before_month (y m : Z) : Z :=
  nth (Z.to_nat m) DAYS_BEFORE_MONTH 0 +
  (if (2 <? m) && is_leap y then 1 else 0).

(** [date.toordinal()] *)
Definition toordinal (d : Date) : Z :=
  days_before_year (year d) + days_before_month (year d) (month d) + day d.

(** Microseconds from the start of ordinal day 0 to the instant of [t] in
    UTC; a naive value is read with offset zero. *)
Definition instant (t : DateTime) : Z :=
  let secs := second t + minute t * 60 + hour t * 3600 in
  let off := match utcoffset t with Some m => m | None => 0 end in
  (toordinal (dt_date t) * 86400 + secs - off * 60) * 1000000 + microsecond t.

End PyTime.

(** ** The record store *)

Module RecordStore.

Local Open Scope list_scope.

(** Modelled from the spec: the error conditions of the store, which is not
    in [accounts/models.py]; [InvalidFieldValue] names the field and the
    value it was given. *)
Inductive StoreError :=
| InvalidFieldValue (field : string) (value : option string)
| NotFound (id : nat)
| BrokenChain.

(** Modelled from the spec: an operation returns a value or fails with one
    of the store's errors. *)
Inductive Result (A : Type) :=
| Ok (a : A)
| Err (e : StoreError).
Arguments Ok {A} a.
Arguments Err {A} e.

#[export] Instance Result_ret : MRet Result := fun A a => Ok a.
#[export] Instance Result_bind : MBind Result := fun A B f m =>
  match m with
  | Ok a => f a
  | Err e => Err e
  end.

(** Modelled from the spec: the field assignment handed to [create]; the
    view that collects it is not in [accounts/models.py].  A coded field is
    [None] when the assignment leaves it out. *)
Record Fields := mkFields {
  f_number_of_children : option string;
  f_child_birthdays : list Date;
  f_languages_spoken_at_home : string;
  f_number_of_guardians : option string;
  f_number_of_guardians_explanation : string;
  f_race_identification : option string;
  f_age : option string;
  f_gender : option string;
  f_education_level : option string;
  f_spouse_education_level : option string;
  f_annual_income : option string;
  f_number_of_books : Z;
  f_additional_comments : string;
  f_country : string;
  f_state : string;
  f_density : option string;
  f_extra : PyValue
}.

(** Modelled from the spec: the value an assignment gives a coded field. *)
Definition supplied (f : CodedField) (fields : Fields) : option string :=
  match f with
  | NumberOfChildren => f_number_of_children fields
  | NumberOfGuardians => f_number_of_guardians fields
  | RaceIdentification => f_race_identification fields
  | Age => f_age fields
  | Gender => f_gender fields
  | EducationLevel => f_education_level fields
  | SpouseEducationLevel => f_spouse_education_level fields
  | AnnualIncome => f_annual_income fields
  | Density => f_density fields
  end.

(** Modelled from the spec: the store, the rows in insertion order; a row's
    identity is its position. *)
Abbreviation Store := (list DemographicData).

(** Modelled from the spec: "validates every coded field against its
    Enumeration Catalog (fails with InvalidFieldValue if
    absent/unrecognized, identifying which field and value)". *)
Definition validate_code (f : CodedField) (fields : Fields) : Result string :=
  match supplied f fields with
  | None => Err (InvalidFieldValue (field_name f) None)
  | Some c =>
      if bool_decide (c ∈ codes (catalog f)) then Ok c
      else Err (InvalidFieldValue (field_name f) (Some c))
  end.

(** A field assignment gives the coded field [f] a code of its catalog. *)
Definition valid_code (f : CodedField) (fields : Fields) : Prop :=
  match supplied f fields with
  | Some c => c ∈ codes (catalog f)
  | None => False
  end.

#[export] Instance valid_code_dec f fields : Decision (valid_code f fields).
Proof. unfold valid_code. destruct (supplied f fields); apply _. Defined.

(** Modelled from the spec: the row [create] builds once every coded field
    has passed validation, with [created_at] the current time. *)
Definition validated (now : DateTime) (owner : User) (fields : Fields)
    (prev : option nat) (id : nat) : Result DemographicData :=
  children ← validate_code NumberOfChildren fields;
  guardians ← validate_code NumberOfGuardians fields;
  race ← validate_code RaceIdentification fields;
  age_code ← validate_code Age fields;
  gender_code ← validate_code Gender fields;
  education ← validate_code EducationLevel fields;
  spouse_education ← validate_code SpouseEducationLevel fields;
  income ← validate_code AnnualIncome fields;
  density_code ← validate_code Density fields;
  mret {|
    pk := id;
    user := owner;
    created_at := now;
    previous := prev;
    number_of_children := children;
    child_birthdays := f_child_birthdays fields;
    languages_spoken_at_home := f_languages_spoken_at_home fields;
    number_of_guardians := guardians;
    number_of_guardians_explanation := f_number_of_guardians_explanation fields;
    race_identification := race;
    age := age_code;
    gender := gender_code;
    education_level := education;
    spouse_education_level := spouse_education;
    annual_income := income;
    number_of_books := f_number_of_books fields;
    additional_comments := f_additional_comments fields;
    country := f_country fields;
    state := f_state fields;
    density := density_code;
    extra := f_extra fields
  |}.

(** Modelled from the spec: [create(owner, fields, previous=None)], with
    the current time [now] read from the clock; returns the new row's
    identity and the store after the call.  On failure nothing is written. *)
Definition create (now : DateTime) (owner : User) (fields : Fields)
    (prev : option nat) (s : Store) : Result nat * Store :=
  let id := length s in
  match validated now owner fields prev id with
  | Ok r => (Ok id, s ++ [r])
  | Err e => (Err e, s)
  end.

(** Modelled from the spec: [get(id)]. *)
Definition get (s : Store) (id : nat) : Result DemographicData :=
  match s !! id with
  | Some r => Ok r
  | None => Err (NotFound id)
  end.

(** Modelled from the spec: a row belongs to [owner] when its [user]
    reference is [owner]'s primary key. *)
Definition owned_by (owner : User) (r : DemographicData) : Prop :=
  user_pk (user r) = user_pk owner.

#[export] Instance owned_by_dec owner r : Decision (owned_by owner r).
Proof. unfold owned_by. apply _. Defined.


(** Modelled from the spec: of two rows, the one created later; the second
    when both carry the same time. *)
Definition later_of (a b : DemographicData) : DemographicData :=
  if (PyTime.instant (created_at a) <=? PyTime.instant (created_at b))%Z
  then b else a.

(** Modelled from the spec: [latest_for(owner)], "the most recently
    created Record for that owner, or None". *)
Definition latest_for (s : Store) (owner : User) : option DemographicData :=
  fold_left
    (fun best r =>
       if decide (owned_by owner r)
       then match best with
            | Some b => Some (later_of b r)
            | None => Some r
            end
       else best)
    s None.

(** Modelled from the spec: the traversal behind [history_for].  [cur] is
    the reference to follow next, [visited] the identities already
    yielded; the result is the rows yielded, each with its identity, and
    how the traversal ended ([None]: it reached a row whose [previous] is
    unset).  [fuel] bounds the number of rows yielded. *)
Fixpoint walk (s : Store) (owner : User) (fuel : nat) (visited : list nat)
    (cur : option nat)
    : option (list (nat * DemographicData) * option StoreError) :=
  match cur with
  | None => Some ([], None)
  | Some i =>
      match fuel with
      | O => None
      | S fuel' =>
          if decide (i ∈ visited) then Some ([], Some BrokenChain)
          else match s !! i with
               | None => Some ([], Some (NotFound i))
               | Some r =>
                   if decide (owned_by owner r)
                   then match walk s owner fuel' (i :: visited) (previous r) with
                        | Some (rest, e) => Some ((i, r) :: rest, e)
                        | None => None
                        end
                   else Some ([], Some BrokenChain)
               end
      end
  end.

(** Modelled from the spec: the traversal from [latest_for(owner)]; a
    store of [n] rows can yield at most [n] of them before a row repeats. *)
Definition trace_for (s : Store) (owner : User)
    : option (list (nat * DemographicData) * option StoreError) :=
  walk s owner (S (length s)) [] (pk <$> latest_for s owner).

(** Modelled from the spec: [history_for(owner)], the rows from most
    recent to oldest and the error the sequence ends with, if any. *)
Definition history_for (s : Store) (owner : User)
    : option (list DemographicData * option StoreError) :=
  match trace_for s owner with
  | Some (tr, e) => Some (tr.*2, e)
  | None => None
  end.




(** Modelled from the spec: the caller's protocol, "a new record is created
    referencing the user's current latest record as previous". *)
Definition submit (now : DateTime) (owner : User) (fields : Fields) (s : Store)
    : Result nat * Store :=
  create now owner fields (pk <$> latest_for s owner) s.

(** Modelled from the spec: "current time"; the clock reads [now] after
    every row of [s] was created. *)
Definition clock_after (s : Store) (now : DateTime) : Prop :=
  Forall (fun r => (PyTime.instant (created_at r) < PyTime.instant now)%Z) s.

(** [a] was created strictly before [b]. *)
Definition created_before (a b : DemographicData) : Prop :=
  (PyTime.instant (created_at a) < PyTime.instant (created_at b))%Z.

(** Rows at lower positions were created strictly earlier. *)
Definition ordered (s : Store) : Prop :=
  forall i j a b,
    i < j -> s !! i = Some a -> s !! j = Some b -> created_before a b.

(** Modelled from the spec: "a chain of N records created in sequence (each
    supplying the previous latest as previous)"; the stores filled by
    [submit] from the empty store, the clock advancing between two calls. *)
Inductive in_sequence : Store -> Prop :=
| seq_empty : in_sequence []
| seq_submit s now owner fields id s' :
    in_sequence s ->
    clock_after s now ->
    submit now owner fields s = (Ok id, s') ->
    in_sequence s'.

(** Modelled from the spec: the operations of the store and the projector. *)
Inductive Op :=
| OpCreate (now : DateTime) (owner : User) (fields : Fields) (prev : option nat)
| OpGet (id : nat)
| OpLatestFor (owner : User)
| OpHistoryFor (owner : User)
| OpProject (id : nat).

(** Modelled from the spec: the store after one operation; only [create]
    writes, the other operations read. *)
Definition exec (op : Op) (s : Store) : Store :=
  match op with
  | OpCreate now owner fields prev => (create now owner fields prev s).2
  | OpGet _ | OpLatestFor _ | OpHistoryFor _ | OpProject _ => s
  end.

(** Modelled from the spec: the store after a sequence of operations. *)
Definition run (ops : list Op) (s : Store) : Store :=
  fold_left (fun st op => exec op st) ops s.

(** Every [create] among [ops] reads the clock after the rows already in
    the store were created. *)
Fixpoint clock_advances (ops : list Op) (s : Store) : Prop :=
  match ops with
  | [] => True
  | op :: rest =>
      match op with
      | OpCreate now _ _ _ => clock_after s now
      | _ => True
      end /\ clock_advances rest (exec op s)
  end.

(** The clock readings handed to the [create] calls among [ops], in call
    order. *)
Definition readings (ops : list Op) : list DateTime :=
  omap (fun op => match op with
                  | OpCreate now _ _ _ => Some now
                  | _ => None
                  end) ops.

(** Every [create] among [ops] reads the clock strictly later than every
    [create] before it did. *)
Definition clock_increasing (ops : list Op) : Prop :=
  StronglySorted (fun a b => (PyTime.instant a < PyTime.instant b)%Z) (readings ops).

End RecordStore.

(** ** Reading [to_display] *)

(** The attributes [to_display] reads from a row and its owner. *)
Definition displayed_attributes (self : DemographicData) :=
  (uuid (user self), created_at self, number_of_children self,
   child_birthdays self, languages_spoken_at_home self,
   number_of_guardians self, number_of_guardians_explanation self,
   race_identification self, age self, gender self, education_level self,
   spouse_education_level self, annual_income self, number_of_books self,
   additional_comments self, country self, state self, density self,
   extra self).

(** Two calls in a row on one instance.  The method assigns no attribute, so
    the second call finds the instance as the first one did. *)
Definition to_display_twice (STATE_CHOICES : Choices) (self : DemographicData)
    : gmap string PyValue * gmap string PyValue :=
  let first := to_display STATE_CHOICES self in
  let second := to_display STATE_CHOICES self in
  (first, second).

(** The row [self] under other primary keys: its own, its owner's and the
    one it refers to as [previous]. *)
Definition with_internal_ids (record_pk owner_pk : nat) (prev : option nat)
    (self : DemographicData) : DemographicData :=
  let u := user self in
  {| pk := record_pk;
     user := {| user_pk := owner_pk; uuid := uuid u; username := username u;
                given_name := given_name u; middle_name := middle_name u;
                family_name := family_name u |};
     created_at := created_at self;
     previous := prev;
     number_of_children := number_of_children self;
     child_birthdays := child_birthdays self;
     languages_spoken_at_home := languages_spoken_at_home self;
     number_of_guardians := number_of_guardians self;
     number_of_guardians_explanation := number_of_guardians_explanation self;
     race_identification := race_identification self;
     age := age self;
     gender := gender self;
     education_level := education_level self;
     spouse_education_level := spouse_education_level self;
     annual_income := annual_income self;
     number_of_books := number_of_books self;
     additional_comments := additional_comments self;
     country := country self;
     state := state self;
     density := density self;
     extra := extra self |}.

(** [to_display] puts a label of the field's catalog under the field's name. *)
Definition renders_catalog_label (STATE_CHOICES : Choices)
    (self : DemographicData) (f : CodedField) : Prop :=
  exists label,
    label ∈ labels (catalog f) /\
    to_display STATE_CHOICES self !! field_name f = Some (PyStr label).

(** ** Sample data *)

Module Sample.

Definition alice : User :=
  {| user_pk := 7;
     uuid := mkUUID 24197857161011715162171839636988778104%N;
     username := "alice@example.org";
     given_name := "Alice"; middle_name := EmptyString; family_name := "Liddell" |}.

Definition bob : User :=
  {| user_pk := 9;
     uuid := mkUUID 255%N;
     username := "bob@example.org";
     given_name := "Bob"; middle_name := "B"; family_name := "Builder" |}.

Definition noon : DateTime :=
  {| dt_date := mkDate 2017 5 24; hour := 14; minute := 36; second := 0;
     microsecond := 0; utcoffset := Some 0%Z |}.

Definition later : DateTime :=
  {| dt_date := mkDate 2017 5 24; hour := 14; minute := 36; second := 1;
     microsecond := 250; utcoffset := Some 0%Z |}.

Definition record : DemographicData :=
  {| pk := 3; user := alice; created_at := noon; previous := None;
     number_of_children := "2";
     child_birthdays := [mkDate 1990 1 1; mkDate 1992 6 15];
     languages_spoken_at_home := "English";
     number_of_guardians := "2";
     number_of_guardians_explanation := EmptyString;
     race_identification := "white";
     age := "45-59";
     gender := "f";
     education_level := "bach";
     spouse_education_level := "bach";
     annual_income := "50000";
     number_of_books := 40;
     additional_comments := EmptyString;
     country := "US";
     state := "MA";
     density := "urban";
     extra := PyNone |}.

(** The same row with a gender code outside [GENDER_CHOICES]. *)
Definition record_xx : DemographicData :=
  {| pk := 3; user := alice; created_at := noon; previous := None;
     number_of_children := "2";
     child_birthdays := [mkDate 1990 1 1; mkDate 1992 6 15];
     languages_spoken_at_home := "English";
     number_of_guardians := "2";
     number_of_guardians_explanation := EmptyString;
     race_identification := "white";
     age := "45-59";
     gender := "xx";
     education_level := "bach";
     spouse_education_level := "bach";
     annual_income := "50000";
     number_of_books := 40;
     additional_comments := EmptyString;
     country := "US";
     state := "MA";
     density := "urban";
     extra := PyNone |}.

Definition states : Choices := [("MA", "Massachusetts"); ("NY", "New York")].

Definition fields : RecordStore.Fields :=
  {| RecordStore.f_number_of_children := Some "2";
     RecordStore.f_child_birthdays := [mkDate 1990 1 1; mkDate 1992 6 15];
     RecordStore.f_languages_spoken_at_home := "English";
     RecordStore.f_number_of_guardians := Some "2";
     RecordStore.f_number_of_guardians_explanation := EmptyString;
     RecordStore.f_race_identification := Some "white";
     RecordStore.f_age := Some "30-34";
     RecordStore.f_gender := Some "f";
     RecordStore.f_education_level := Some "bach";
     RecordStore.f_spouse_education_level := Some "na";
     RecordStore.f_annual_income := Some "50000";
     RecordStore.f_number_of_books := 40;
     RecordStore.f_additional_comments := EmptyString;
     RecordStore.f_country := "US";
     RecordStore.f_state := "MA";
     RecordStore.f_density := Some "urban";
     RecordStore.f_extra := PyNone |}.

(** [fields] with the gender code ["xx"]. *)
Definition fields_xx : RecordStore.Fields :=
  {| RecordStore.f_number_of_children := Some "2";
     RecordStore.f_child_birthdays := [mkDate 1990 1 1; mkDate 1992 6 15];
     RecordStore.f_languages_spoken_at_home := "English";
     RecordStore.f_number_of_guardians := Some "2";
     RecordStore.f_number_of_guardians_explanation := EmptyString;
     RecordStore.f_race_identification := Some "white";
     RecordStore.f_age := Some "30-34";
     RecordStore.f_gender := Some "xx";
     RecordStore.f_education_level := Some "bach";
     RecordStore.f_spouse_education_level := Some "na";
     RecordStore.f_annual_income := Some "50000";
     RecordStore.f_number_of_books := 40;
     RecordStore.f_additional_comments := EmptyString;
     RecordStore.f_country := "US";
     RecordStore.f_state := "MA";
     RecordStore.f_density := Some "urban";
     RecordStore.f_extra := PyNone |}.

(** Two rows submitted in sequence by one owner. *)
Definition store1 : list DemographicData :=
  (RecordStore.submit noon alice fields []).2.

Definition store2 : list DemographicData :=
  (RecordStore.submit later alice fields store1).2.

(** A row whose [previous] is a row of another owner. *)
Definition store_cross_owner : list DemographicData :=
  (RecordStore.create later alice fields (Some 0)
     (RecordStore.create noon bob fields None []).2).2.

(** Two creations by one owner with a projection in between. *)
Definition ops : list RecordStore.Op :=
  [RecordStore.OpCreate noon alice fields None;
   RecordStore.OpProject 0;
   RecordStore.OpCreate later alice fields (Some 0)].

(** Two creations by one owner, the clock set back in between. *)
Definition ops_clock_back : list RecordStore.Op :=
  [RecordStore.OpCreate later alice fields None;
   RecordStore.OpCreate noon alice fields (Some 0)].

(** A row that is its own [previous]. *)
Definition store_cycle : list DemographicData :=
  (RecordStore.create noon alice fields (Some 0) []).2.

End Sample.

(** * The rest of [accounts/models.py], the routes and migration 0009 *)

(** ** Reading formatted numbers back *)

Module PyRead.

(** The value of a character of ["0123456789abcdef"]; [None] for any other
    character. *)
Definition digit_of (c : ascii) : option N :=
  let n := N_of_ascii c in
  if ((48 <=? n) && (n <=? 57))%N then Some (n - 48)%N
  else if ((97 <=? n) && (n <=? 102))%N then Some (n - 87)%N
  else None.

(** The number written in base [base], most significant digit first, after
    the digits already read gave [acc]; [None] when a character is not a
    digit of that base. *)
Fixpoint read_from (base acc : N) (s : string) : option N :=
  match s with
  | EmptyString => Some acc
  | String c s' =>
      match digit_of c with
      | Some d => if (d <? base)%N then read_from base (acc * base + d) s' else None
      | None => None
      end
  end.

Definition read (base : N) (s : string) : option N := read_from base 0 s.

(** Every character of [s] passes the test [p]. *)
Fixpoint all_chars (p : ascii -> bool) (s : string) : bool :=
  match s with
  | EmptyString => true
  | String c s' => p c && all_chars p s'
  end.

(** A character of ["0123456789abcdef"]. *)
Definition is_hex_digit (c : ascii) : bool :=
  match digit_of c with
  | Some _ => true
  | None => false
  end.

(** [s] without its ['-'] characters. *)
Fixpoint remove_dashes (s : string) : string :=
  match s with
  | EmptyString => EmptyString
  | String c s' =>
      if Ascii.eqb c "-"%char then remove_dashes s' else String c (remove_dashes s')
  end.

End PyRead.

(** [UUID.__str__]: the hex digits in groups of 8, 4, 4, 4 and 12. *)
Definition uuid_str (u : UUID) : string :=
  let hex := uuid_hex u in
  substring 0 8 hex ++ "-" ++ substring 8 4 hex ++ "-" ++
  substring 12 4 hex ++ "-" ++ substring 16 4 hex ++ "-" ++
  substring 20 (String.length hex - 20) hex.

(** [User.get_short_name] *)
Definition get_short_name (self : User) : UUID := uuid self.

(** [User.__str__] *)
Definition User_str (self : User) : string :=
  "<User: " ++ uuid_str (uuid self) ++ ">".

(** A date [datetime.date] accepts, the day checked against the longest
    month only. *)
Definition date_in_range (d : Date) : Prop :=
  (1 <= year d <= 9999)%Z /\ (1 <= month d <= 12)%Z /\ (1 <= day d <= 31)%Z.


(** ** The identicon colours *)

(** [range(start, stop, step)] for a positive [step]: CPython's length
    [1 + (stop - 1 - start) // step] when [start < stop], else none. *)
Definition py_range (start stop step : Z) : list Z :=
  let n := if (start <? stop)%Z then (1 + (stop - 1 - start) / step)%Z else 0%Z in
  map (fun t => (start + step * Z.of_nat t)%Z) (seq 0 (Z.to_nat n)).

(** [str(z)] of an [int], as an f-string field renders it. *)
Definition py_str_int (z : Z) : string := PyFormat.format_d 0 z.

(** [f'rgb({i},{j},{k})'] *)
Definition rgb (i j k : Z) : string :=
  "rgb(" ++ py_str_int i ++ "," ++ py_str_int j ++ "," ++ py_str_int k ++ ")".

(** [User._make_rainbow]: the three nested loops append in this order. *)
Definition _make_rainbow : list string :=
  flat_map (fun i =>
    flat_map (fun j =>
      map (fun k => rgb i j k) (py_range 0 255 10))
      (py_range 0 255 10))
    (py_range 0 255 10).


(** ** Organizations and their permission groups *)

(** [str.upper] and [str.lower] on ASCII characters; other characters are
    left alone, and the properties below are about ASCII text. *)
Definition ascii_upper (c : ascii) : ascii :=
  let n := nat_of_ascii c in
  if (97 <=? n)%nat && (n <=? 122)%nat then ascii_of_nat (n - 32) else c.

Definition ascii_lower (c : ascii) : ascii :=
  let n := nat_of_ascii c in
  if (65 <=? n)%nat && (n <=? 90)%nat then ascii_of_nat (n + 32) else c.

Fixpoint py_upper (s : string) : string :=
  match s with
  | EmptyString => EmptyString
  | String c s' => String (ascii_upper c) (py_upper s')
  end.

Fixpoint py_lower (s : string) : string :=
  match s with
  | EmptyString => EmptyString
  | String c s' => String (ascii_lower c) (py_lower s')
  end.

(** The Python objects compared in [organization_post_save]: text and
    pairs. *)
Inductive PyObject :=
| ObjStr (s : string)
| ObjTuple (a b : PyObject).

(** [x == y]: a [str] equals a [str] with the same characters, a tuple
    equals a tuple with equal components, and a [str] never equals a
    tuple. *)
Fixpoint py_eq (x y : PyObject) : bool :=
  match x, y with
  | ObjStr a, ObjStr b => String.eqb a b
  | ObjTuple a b, ObjTuple c d => py_eq a c && py_eq b d
  | _, _ => false
  end.

(** [Organization]: [org_pk] is the primary key. *)
Record Organization := mkOrganization {
  org_pk : nat;
  name : string;
  url : string
}.

(** [Organization.__str__] *)
Definition Organization_str (self : Organization) : string :=
  "<Organization: " ++ name self ++ ">".

(** [Organization.Meta.permissions] *)
Definition Organization_permissions : list (string * string) := [
  ("can_view", "Can View");
  ("can_edit", "Can Edit");
  ("can_create", "Can Create");
  ("can_remove", "Can Remove")
].

(** [User.Meta.permissions] *)
Definition User_permissions : list (string * string) := [
  ("can_create", "Can Create");
  ("can_view", "Can View");
  ("can_edit", "Can Edit");
  ("can_remove", "Can Remove");
  ("can_view_permissions", "Can View Permissions");
  ("can_edit_permissions", "Can Edit Permissions")
].

(** A permission pair as the Python tuple it is. *)
Definition as_tuple (perm : string * string) : PyObject :=
  ObjTuple (ObjStr perm.1) (ObjStr perm.2).

(** What [organization_post_save] writes: the groups, which the framework
    keys by their unique name, and the object permissions the permissions
    package holds, each a group name, a permission codename and the primary
    key of the organization. *)
Record AuthState := mkAuthState {
  groups : list string;
  group_object_permissions : list (string * string * nat)
}.

(** [Group.objects.get_or_create(name=...)]: the group of that name, made
    when there is none. *)
Definition get_or_create_group (group_name : string) (st : AuthState) : AuthState :=
  if decide (group_name ∈ groups st) then st
  else {| groups := (groups st ++ [group_name])%list;
          group_object_permissions := group_object_permissions st |}.

(** [assign_perm(perm, group, obj=organization)] of the permissions package:
    the object permission is fetched or created, so assigning twice leaves
    one. *)
Definition assign_perm (perm : string) (group : string) (obj : Organization)
    (st : AuthState) : AuthState :=
  if decide ((group, perm, org_pk obj) ∈ group_object_permissions st) then st
  else {| groups := groups st;
          group_object_permissions :=
            (group_object_permissions st ++ [(group, perm, org_pk obj)])%list |}.

Section OrganizationSignal.

(** [django.utils.text.slugify], not part of this repository. *)
Variable slugify : string -> string.

(** [f'{slugify(organization.name)}-ORG_{group}'.upper()] *)
Definition org_group_name (organization : Organization) (group : string) : string :=
  py_upper (slugify (name organization) ++ "-ORG_" ++ group).

(** The inner loop over [Organization._meta.permissions]; [continue] leaves
    the state as it is. *)
Definition assign_group_permissions (organization : Organization)
    (group group_instance : string) (st : AuthState) : AuthState :=
  fold_left
    (fun st perm =>
       if String.eqb group "read" && negb (py_eq (as_tuple perm) (ObjStr "can_view"))
       then st
       else assign_perm perm.1 group_instance organization st)
    Organization_permissions st.

(** [organization_post_save], the [post_save] receiver of [Organization],
    with [kwargs['instance']] and [kwargs['created']]. *)
Definition organization_post_save (organization : Organization) (created : bool)
    (st : AuthState) : AuthState :=
  if created
  then fold_left
         (fun st group =>
            let group_instance := org_group_name organization group in
            assign_group_permissions organization group group_instance
              (get_or_create_group group_instance st))
         ["read"; "admin"] st
  else st.

End OrganizationSignal.

(** The identity function, standing for [slugify] on a name that is its own
    slug. *)
Definition sample_slugify (s : string) : string := s.

Definition sample_org : Organization :=
  {| org_pk := 5; name := "lab"; url := "https://lab.example.org" |}.

(** A state in which the read group was given 'can_view' by hand. *)
Definition sample_auth : AuthState :=
  {| groups := ["LAB-ORG_READ"];
     group_object_permissions := [("LAB-ORG_READ", "can_view", 5)] |}.


(** ** User accounts: [UserManager] and the identicon *)

Module Accounts.

Local Open Scope list_scope.

(** The exceptions raised on these paths: [ValueError] by [create_user],
    [IntegrityError] by the database for a second row with a [username]
    already stored ([unique=True]). *)
Inductive Error :=
| ValueError (message : string)
| IntegrityError.

Inductive Result (A : Type) :=
| Ok (a : A)
| Err (e : Error).
Arguments Ok {A} a.
Arguments Err {A} e.

(** A [User] instance with the columns [create_user], [create_superuser]
    and [identicon] touch; [id] is [None] until the first [save]. *)
Record UserRow := mkUserRow {
  id : option nat;
  password : string;
  is_superuser : bool;
  uuid : UUID;
  username : string;
  given_name : string;
  middle_name : string;
  family_name : string;
  organization : option nat;
  _identicon : string;
  is_active : bool;
  is_staff : bool
}.

(** The user table, rows in insertion order. *)
Abbreviation Table := (list UserRow).

(** The stored row [r] is the row of the instance whose primary key is
    [self_id]; an instance without key has no row yet. *)
Definition same_row (self_id : option nat) (r : UserRow) : bool :=
  match self_id with
  | Some i => bool_decide (id r = Some i)
  | None => false
  end.

(** A row other than the instance's own holds [name]. *)
Definition username_taken (name : string) (self_id : option nat) (db : Table) : bool :=
  existsb (fun r => String.eqb (username r) name && negb (same_row self_id r)) db.

(** The primary key the database gives the next inserted row. *)
Definition next_id (db : Table) : nat :=
  S (foldr Nat.max 0 (omap id db)).

Definition with_id (i : nat) (self : UserRow) : UserRow :=
  {| id := Some i; password := password self; is_superuser := is_superuser self;
     uuid := uuid self; username := username self; given_name := given_name self;
     middle_name := middle_name self; family_name := family_name self;
     organization := organization self; _identicon := _identicon self;
     is_active := is_active self; is_staff := is_staff self |}.

(** [Model.save()]: a row without primary key is inserted and receives
    one; a row with a primary key replaces the stored row of that key, or is
    inserted when there is none.  The unique [username] is enforced by the
    database.  Returns the instance, which now has its key, and the table. *)
Definition save (self : UserRow) (db : Table) : Result (UserRow * Table) :=
  if username_taken (username self) (id self) db then Err IntegrityError
  else match id self with
       | None =>
           let self' := with_id (next_id db) self in
           Ok (self', db ++ [self'])
       | Some i =>
           if existsb (same_row (Some i)) db
           then Ok (self, map (fun r => if same_row (Some i) r then self else r) db)
           else Ok (self, db ++ [self])
       end.

Section Manager.

(** [BaseUserManager.normalize_email] and the framework's password hasher
    [make_password], neither part of this repository. *)
Variable normalize_email : string -> string.
Variable make_password : option string -> string.

(** [self.model(username=..., is_active=True)]: the other columns take
    their defaults, [uuid] the value [uuid.uuid4()] draws. *)
Definition new_user (fresh_uuid : UUID) (name : string) : UserRow :=
  {| id := None; password := EmptyString; is_superuser := false;
     uuid := fresh_uuid; username := name; given_name := EmptyString;
     middle_name := EmptyString; family_name := EmptyString;
     organization := None; _identicon := EmptyString;
     is_active := true; is_staff := false |}.

(** [AbstractBaseUser.set_password] *)
Definition set_password (raw : option string) (self : UserRow) : UserRow :=
  {| id := id self; password := make_password raw; is_superuser := is_superuser self;
     uuid := uuid self; username := username self; given_name := given_name self;
     middle_name := middle_name self; family_name := family_name self;
     organization := organization self; _identicon := _identicon self;
     is_active := is_active self; is_staff := is_staff self |}.

(** [UserManager.create_user(username, password=None)]; [not username]
    holds for [None] and for the empty text. *)
Definition create_user (fresh_uuid : UUID) (name : option string)
    (raw_password : option string) (db : Table) : Result (UserRow * Table) :=
  match name with
  | None | Some EmptyString => Err (ValueError "Users must have a username")
  | Some n =>
      let user := new_user fresh_uuid (normalize_email n) in
      let user := set_password raw_password user in
      save user db
  end.

(** The three assignments of [create_superuser]. *)
Definition make_superuser (self : UserRow) : UserRow :=
  {| id := id self; password := password self; is_superuser := true;
     uuid := uuid self; username := username self; given_name := given_name self;
     middle_name := middle_name self; family_name := family_name self;
     organization := organization self; _identicon := _identicon self;
     is_active := true; is_staff := true |}.

(** [UserManager.create_superuser(username, password)] *)
Definition create_superuser (fresh_uuid : UUID) (name : option string)
    (raw_password : string) (db : Table) : Result (UserRow * Table) :=
  match create_user fresh_uuid name (Some raw_password) db with
  | Err e => Err e
  | Ok (user, db') => save (make_superuser user) db'
  end.

End Manager.

Section Identicon.

(** The image the identicon package draws for a text with the given
    foreground colours, as the base64 text of its PNG; the package and the
    encoder are not part of this repository. *)
Variable identicon_png_base64 : list string -> string -> string.

Definition with_identicon (data : string) (self : UserRow) : UserRow :=
  {| id := id self; password := password self; is_superuser := is_superuser self;
     uuid := uuid self; username := username self; given_name := given_name self;
     middle_name := middle_name self; family_name := family_name self;
     organization := organization self; _identicon := data;
     is_active := is_active self; is_staff := is_staff self |}.

(** The property [User.identicon]: the value, the instance and the table
    after the access. *)
Definition identicon (self : UserRow) (db : Table)
    : Result (string * UserRow * Table) :=
  match _identicon self with
  | EmptyString =>
      let rbw := _make_rainbow in
      let b64_png := identicon_png_base64 rbw (uuid_str (uuid self)) in
      let self := with_identicon ("data:image/png;base64," ++ b64_png)%string self in
      match save self db with
      | Ok (self, db') => Ok (_identicon self, self, db')
      | Err e => Err e
      end
  | data => Ok (data, self, db)
  end.

End Identicon.

(** [User.get_full_name] on an instance. *)
Definition get_full_name (self : UserRow) : string :=
  (given_name self ++ " " ++ middle_name self ++ " " ++ family_name self)%string.

End Accounts.

(** Stand-ins for the framework functions, for the examples: an address
    that is already normal, and a hasher that returns one text. *)
Definition sample_normalize_email (email : string) : string := email.
Definition sample_make_password (raw : option string) : string := "pbkdf2$hash".
Definition sample_identicon_png (colours : list string) (text : string) : string := text.

Definition sample_table : Accounts.Table :=
  [ {| Accounts.id := Some 1; Accounts.password := "pbkdf2$hash";
       Accounts.is_superuser := false; Accounts.uuid := mkUUID 255;
       Accounts.username := "bob@example.org"; Accounts.given_name := "Bob";
       Accounts.middle_name := EmptyString; Accounts.family_name := "Builder";
       Accounts.organization := None; Accounts._identicon := EmptyString;
       Accounts.is_active := true; Accounts.is_staff := false |} ].

Definition sample_row : Accounts.UserRow :=
  {| Accounts.id := Some 1; Accounts.password := "pbkdf2$hash";
     Accounts.is_superuser := false; Accounts.uuid := mkUUID 255;
     Accounts.username := "bob@example.org"; Accounts.given_name := "Bob";
     Accounts.middle_name := EmptyString; Accounts.family_name := "Builder";
     Accounts.organization := None; Accounts._identicon := EmptyString;
     Accounts.is_active := true; Accounts.is_staff := false |}.


(** ** Column widths, the dict's keys and timestamps *)

(** [max_length] of the column of each coded field. *)
Definition max_length (f : CodedField) : nat :=
  match f with
  | NumberOfChildren => 3
  | NumberOfGuardians => 6
  | RaceIdentification => 16
  | Age => 5
  | Gender => 2
  | EducationLevel => 5
  | SpouseEducationLevel => 5
  | AnnualIncome => 7
  | Density => 8
  end.

(** Migration 0009: the [gender] column of [Profile], its [choices] and
    its [max_length]. *)
Definition Profile_gender_choices : Choices := [
  ("m", "male");
  ("f", "female");
  ("o", "other");
  ("na", "prefer not to answer")
].
Definition Profile_gender_max_length : nat := 2.

(** The keys of the dict [to_display] returns, in source order. *)
Definition to_display_keys : list string := [
  "user"; "created_at"; "number_of_children"; "child_birthdays";
  "languages_spoken_at_home"; "number_of_guardians";
  "number_of_guardians_explanation"; "race_identification"; "age"; "gender";
  "education_level"; "spouse_education_level"; "annual_income";
  "number_of_books"; "additional_comments"; "country"; "state"; "density";
  "extra"
].

(** A [datetime] the class accepts, the day checked against the longest
    month only and the offset a whole number of minutes within a day. *)
Definition datetime_in_range (t : DateTime) : Prop :=
  date_in_range (dt_date t) /\
  (0 <= hour t <= 23)%Z /\ (0 <= minute t <= 59)%Z /\ (0 <= second t <= 59)%Z /\
  (0 <= microsecond t <= 999999)%Z /\
  match utcoffset t with
  | Some off => (-1440 < off < 1440)%Z
  | None => True
  end.


(** ** The routes of [web/urls.py] *)

Module Urls.

(** The regular expressions of the routes: text, character classes,
    [r?], [r{n}], a named group and [$]. *)
Inductive Regex :=
| Eps
| Chr (c : ascii)
| Class (p : ascii -> bool)
| Seq (r1 r2 : Regex)
| Opt (r : Regex)
| Rep (n : nat) (r : Regex)
| Group (group_name : string) (r : Regex)
| Dollar.

(** The named groups matched so far, latest first. *)
Abbreviation Groups := (list (string * string)).

(** The text of one line feed. *)
Definition newline : string := String "010"%char EmptyString.

(** [s[:len(s) - len(rest)]]: what was matched of [s] when [rest] is left. *)
Definition consumed (s rest : string) : string :=
  substring 0 (String.length s - String.length rest) s.

(** The backtracking matcher of Python's [re]: [run r s groups k] matches
    [r] at the start of [s] and hands the rest of the text to [k], which
    matches what follows; [r?] first tries [r], then nothing.  [$] matches
    at the end of the text and just before a newline that ends it. *)
Fixpoint run (r : Regex) (s : string) (groups : Groups)
    (k : string -> Groups -> option (Groups * string)) : option (Groups * string) :=
  match r with
  | Eps => k s groups
  | Chr c =>
      match s with
      | String c' s' => if Ascii.eqb c' c then k s' groups else None
      | EmptyString => None
      end
  | Class p =>
      match s with
      | String c' s' => if p c' then k s' groups else None
      | EmptyString => None
      end
  | Seq r1 r2 => run r1 s groups (fun s' groups' => run r2 s' groups' k)
  | Opt r' =>
      match run r' s groups k with
      | Some m => Some m
      | None => k s groups
      end
  | Rep n r' =>
      (fix rep (n : nat) (s : string) (groups : Groups) : option (Groups * string) :=
         match n with
         | O => k s groups
         | S n' => run r' s groups (rep n')
         end) n s groups
  | Group group_name r' =>
      run r' s groups
        (fun s' groups' => k s' ((group_name, consumed s s') :: groups'))
  | Dollar =>
      match s with
      | EmptyString => k s groups
      | String c EmptyString => if Ascii.eqb c "010"%char then k s groups else None
      | _ => None
      end
  end.

(** [regex.search(path)] for a pattern that starts with [^]: the groups
    and the text after the match, [path[match.end():]]. *)
Definition search (r : Regex) (path : string) : option (Groups * string) :=
  run r path [] (fun rest groups => Some (groups, rest)).

(** The regular expression of a text. *)
Fixpoint lit (s : string) : Regex :=
  match s with
  | EmptyString => Eps
  | String c s' => Seq (Chr c) (lit s')
  end.

Definition in_range (lo hi : nat) (c : ascii) : bool :=
  (lo <=? nat_of_ascii c)%nat && (nat_of_ascii c <=? hi)%nat.

(** [[0-9a-fA-F]] *)
Definition hex (c : ascii) : bool :=
  in_range 48 57 c || in_range 97 102 c || in_range 65 70 c.

(** [[1-5]] *)
Definition one_to_five (c : ascii) : bool := in_range 49 53 c.

(** [[89ab]] *)
Definition variant (c : ascii) : bool :=
  Ascii.eqb c "8" || Ascii.eqb c "9" || Ascii.eqb c "a" || Ascii.eqb c "b".

(** [^word/?$] *)
Definition optional_slash (word : string) : Regex :=
  Seq (lit word) (Seq (Opt (Chr "/")) Dollar).

(** [[0-9a-fA-F]{8}-[0-9a-fA-F]{4}-[1-5][0-9a-fA-F]{3}-[89ab][0-9a-fA-F]{3}-[0-9a-fA-F]{12}] *)
Definition uuid_regex : Regex :=
  Seq (Rep 8 (Class hex)) (Seq (Chr "-")
  (Seq (Rep 4 (Class hex)) (Seq (Chr "-")
  (Seq (Class one_to_five) (Seq (Rep 3 (Class hex)) (Seq (Chr "-")
  (Seq (Class variant) (Seq (Rep 3 (Class hex)) (Seq (Chr "-")
  (Rep 12 (Class hex))))))))))).

(** [^studies/(?P<uuid>...)/$] *)
Definition study_detail_regex : Regex :=
  Seq (lit "studies/") (Seq (Group "uuid" uuid_regex) (Seq (Chr "/") Dollar)).

(** What a route leads to: a view, or the routes of another module. *)
Inductive Target :=
| View (view : string)
| Include (urlconf : string).

(** One [url(regex, view, kwargs, name=...)]. *)
Record Pattern := mkPattern {
  regex : Regex;
  target : Target;
  default_args : list (string * string);
  url_name : option string
}.

(** [urlpatterns], in source order. *)
Definition urlpatterns : list Pattern := [
  mkPattern (optional_slash "signup") (View "ParticipantSignupView") []
            (Some "participant-signup");
  mkPattern (optional_slash "demographic_data") (View "DemographicDataCreateView") []
            (Some "demographic-data-create");
  mkPattern (optional_slash "studies") (View "StudiesListView") []
            (Some "studies-list");
  mkPattern study_detail_regex (View "StudyDetailView") []
            (Some "public-study-detail");
  mkPattern (optional_slash "faq") (View "flatpage") [("url", "/faq/")]
            (Some "faq");
  mkPattern (optional_slash "scientists") (View "flatpage") [("url", "/scientists/")]
            (Some "scientists");
  mkPattern (optional_slash "resources") (View "flatpage") [("url", "/resources/")]
            (Some "resources");
  mkPattern (optional_slash "contact_us") (View "flatpage") [("url", "/contact_us/")]
            (Some "contact_us");
  mkPattern Eps (Include "django.contrib.auth.urls") [] None;
  mkPattern Dollar (View "flatpage") [("url", "/")] (Some "home")
].

(** [ResolverMatch]: the view, its keyword arguments and the route's name. *)
Record ResolverMatch := mkResolverMatch {
  func : string;
  kwargs : gmap string string;
  matched_name : option string
}.

Section Resolver.

(** The routes of [django.contrib.auth.urls], not part of this repository:
    the match for a path, or [None] when they raise [Resolver404]. *)
Variable auth_urls : string -> option ResolverMatch.

(** The resolver's loop over the patterns: the first pattern whose regex
    matches and whose target resolves wins.  A view gets the named groups
    updated with the route's own arguments; an include resolves the text
    after the match, and the loop goes on when it finds nothing. *)
Fixpoint resolve_in (patterns : list Pattern) (path : string) : option ResolverMatch :=
  match patterns with
  | [] => None
  | p :: rest =>
      match search (regex p) path with
      | Some (groups, new_path) =>
          match target p with
          | View v =>
              Some (mkResolverMatch v (dict_of (rev groups ++ default_args p)%list) (url_name p))
          | Include _ =>
              match auth_urls new_path with
              | Some m => Some m
              | None => resolve_in rest path
              end
          end
      | None => resolve_in rest path
      end
  end.

(** Resolving a path against [urlpatterns]; [None] is [Resolver404]. *)
Definition resolve (path : string) : option ResolverMatch :=
  resolve_in urlpatterns path.

End Resolver.

End Urls.

(** [(u.int >> shift) & 0xf]: four bits of a UUID.  [UUID.version] is this
    number at bit 76; the two variant bits are the top of the one at bit 60,
    [10] for the identifiers [uuid.uuid4] makes. *)
Definition uuid_bits (u : UUID) (shift : N) : N :=
  N.land (N.shiftr (uuid_int u) shift) 15.


(** * Properties *)

(** ** Formatting *)

Example format_examples :
  PyFormat.format_d 4 1990 = "1990" /\ PyFormat.format_d 2 6 = "06" /\
  PyFormat.format_d 2 0 = "00" /\ PyFormat.format_x 4 255 = "00ff" /\
  PyFormat.format_d 4 (-5) = "-005" /\ PyFormat.format_d 2 123 = "123".
Proof. repeat split; reflexivity. Qed.

Example isoformat_examples :
  datetime_isoformat Sample.noon = "2017-05-24T14:36:00+00:00" /\
  datetime_isoformat Sample.later = "2017-05-24T14:36:01.000250+00:00" /\
  uuid_hex (uuid Sample.alice) = "12345678123456781234567812345678" /\
  uuid_hex (uuid Sample.bob) = "000000000000000000000000000000ff".
Proof. repeat split; reflexivity. Qed.

(** Decimal digits read back give the number, checked on the numbers below
    200. *)
Lemma digits_read_back :
  forallb (fun n => match Bracket.number (PyFormat.digits 10 (N.of_nat n)) with
                    | Some m => Nat.eqb m n
                    | None => false
                    end)
          (seq 0 200) = true.
Proof. vm_compute. reflexivity. Qed.

(** ** Dictionaries built from pairs *)

Section DictFacts.

Context {V : Type}.
Implicit Types (l : list (string * V)) (m : gmap string V).

Lemma fold_insert_Some l m k v :
  fold_left (fun m kv => <[kv.1 := kv.2]> m) l m !! k = Some v ->
  (k, v) ∈ l \/ m !! k = Some v.
Proof.
  revert m. induction l as [|[k' v'] l IH]; intros m H; simpl in *.
  - by right.
  - destruct (IH _ H) as [Hin | Hm].
    + left. by right.
    + destruct (decide (k' = k)) as [->|Hne].
      * rewrite lookup_insert_eq in Hm. injection Hm as ->. left. by left.
      * right. by rewrite lookup_insert_ne in Hm.
Qed.

Lemma fold_insert_None l m k :
  fold_left (fun m kv => <[kv.1 := kv.2]> m) l m !! k = None <->
  (k ∉ l.*1) /\ m !! k = None.
Proof.
  revert m. induction l as [|[k' v'] l IH]; intros m; simpl.
  - split; [intros H; split; [apply not_elem_of_nil | done] | by intros [_ H]].
  - rewrite IH, not_elem_of_cons. split.
    + intros [Hl Hm]. destruct (decide (k' = k)) as [->|Hne].
      * by rewrite lookup_insert_eq in Hm.
      * rewrite lookup_insert_ne in Hm by exact Hne. auto.
    + intros [[Hne Hl] Hm]. split; [done|].
      by rewrite lookup_insert_ne.
Qed.

Lemma dict_of_Some l k v : dict_of l !! k = Some v -> (k, v) ∈ l.
Proof.
  intros H. destruct (fold_insert_Some _ _ _ _ H) as [?|Hm]; [done|].
  by rewrite lookup_empty in Hm.
Qed.

Lemma dict_of_None l k : dict_of l !! k = None <-> k ∉ l.*1.
Proof.
  unfold dict_of. rewrite fold_insert_None, lookup_empty. tauto.
Qed.

End DictFacts.

(** What the framework accessor returns: the label paired with the code, or
    the code itself when the catalog does not list it. *)
Lemma get_FIELD_display_cases (choices : Choices) (value : string) :
  (exists label, (value, label) ∈ choices /\ get_FIELD_display choices value = label) \/
  ((value ∉ codes choices) /\ get_FIELD_display choices value = value).
Proof.
  unfold get_FIELD_display, dict_get.
  destruct (dict_of choices !! value) as [label|] eqn:E.
  - left. exists label. split; [by apply dict_of_Some | done].
  - right. split; [by apply dict_of_None | done].
Qed.

(** ** The catalogs *)

Lemma catalog_codes_NoDup (f : CodedField) : NoDup (codes (catalog f)).
Proof. destruct f; compute_done. Qed.

(** C3, as stated: with an income catalog of 23 codes the sizes do not hold. *)
Lemma catalog_sizes_with_23_incomes_fail :
  ~ (length (codes RACE_CHOICES) = 8 /\
     length (codes GENDER_CHOICES) = 4 /\
     length (codes EDUCATION_CHOICES) = 7 /\
     length (codes SPOUSE_EDUCATION_CHOICES) = 8 /\
     codes NO_CHILDREN_CHOICES =
       ["0"; "1"; "2"; "3"; "4"; "5"; "6"; "7"; "8"; "9"; "10"; ">10"] /\
     length (codes AGE_CHOICES) = 11 /\
     length (codes GUARDIAN_CHOICES) = 4 /\ "varies" ∈ codes GUARDIAN_CHOICES /\
     length (codes INCOME_CHOICES) = 23 /\
     ("na", "prefer not to answer") ∈ INCOME_CHOICES /\
     length (codes DENSITY_CHOICES) = 3).
Proof. intros (_ & _ & _ & _ & _ & _ & _ & _ & H & _). vm_compute in H. discriminate H. Qed.

(** C3, amended: the catalogs hold 8 race codes, 4 gender codes, 7 education
    and 8 spouse-education codes, the children codes 0 to 10 and ">10", 11
    age codes, 4 guardian codes with "varies", 24 income codes with the
    sentinel "na" for "prefer not to answer", and 3 density codes; no
    catalog lists a code twice. *)
Theorem catalog_sizes :
  length (codes RACE_CHOICES) = 8 /\
  length (codes GENDER_CHOICES) = 4 /\
  length (codes EDUCATION_CHOICES) = 7 /\
  length (codes SPOUSE_EDUCATION_CHOICES) = 8 /\
  codes EDUCATION_CHOICES <> codes SPOUSE_EDUCATION_CHOICES /\
  codes NO_CHILDREN_CHOICES =
    ["0"; "1"; "2"; "3"; "4"; "5"; "6"; "7"; "8"; "9"; "10"; ">10"] /\
  length (codes AGE_CHOICES) = 11 /\
  length (codes GUARDIAN_CHOICES) = 4 /\ "varies" ∈ codes GUARDIAN_CHOICES /\
  length (codes INCOME_CHOICES) = 24 /\
  ("na", "prefer not to answer") ∈ INCOME_CHOICES /\
  length (codes DENSITY_CHOICES) = 3 /\
  Forall (fun f => NoDup (codes (catalog f))) coded_fields.
Proof.
  repeat split; try reflexivity; try discriminate; compute_done.
Qed.


(** ** The display projection *)

(** Each coded field's entry of the dict is what its accessor returns. *)
Lemma to_display_coded ST (r : DemographicData) (f : CodedField) :
  to_display ST r !! field_name f = Some (PyStr (get_display f r)).
Proof. destruct f; reflexivity. Qed.

Lemma get_display_unfold (f : CodedField) (r : DemographicData) :
  get_display f r = get_FIELD_display (catalog f) (stored_code f r).
Proof. by destruct f. Qed.

(** C1, as stated: the row with the gender code "xx" is not rendered with a
    label of the gender catalog (and [to_display] has no failing outcome). *)
Lemma unknown_gender_not_rendered_as_label :
  ~ renders_catalog_label Sample.states Sample.record_xx Gender.
Proof.
  intros (label & Hin & Hshow).
  rewrite to_display_coded in Hshow. vm_compute in Hshow.
  injection Hshow as <-. revert Hin. compute_done.
Qed.

(** C1, amended: every coded field of a row is rendered, under the field's
    name, as the label its catalog pairs with the stored code when the
    catalog lists that code, and as the stored code itself, unchanged, when
    it does not; no failure is raised. *)
Theorem coded_field_rendered_label_or_code ST (r : DemographicData) (f : CodedField) :
  exists shown,
    to_display ST r !! field_name f = Some (PyStr shown) /\
    (((stored_code f r, shown) ∈ catalog f /\ shown ∈ labels (catalog f)) \/
     ((stored_code f r ∉ codes (catalog f)) /\ shown = stored_code f r)).
Proof.
  exists (get_display f r). split; [apply to_display_coded|].
  rewrite get_display_unfold.
  destruct (get_FIELD_display_cases (catalog f) (stored_code f r))
    as [(label & Hin & ->) | [Hnot ->]].
  - left. split; [done|].
    unfold labels. apply list_elem_of_fmap. by exists (stored_code f r, label).
  - by right.
Qed.

(** C5: two calls of [to_display] on an instance return equal dicts, and so
    do calls on instances whose displayed attributes are equal. *)
Theorem to_display_idempotent ST (r : DemographicData) :
  (to_display_twice ST r).1 = (to_display_twice ST r).2 /\
  (to_display_twice ST r).1 = to_display ST r /\
  forall r', displayed_attributes r' = displayed_attributes r ->
             to_display ST r' = to_display ST r.
Proof.
  split; [reflexivity|]. split; [reflexivity|].
  intros r' Hsame. unfold displayed_attributes in Hsame.
  unfold to_display, to_display_items, get_number_of_children_display,
    get_number_of_guardians_display, get_race_identification_display,
    get_age_display, get_gender_display, get_education_level_display,
    get_spouse_education_level_display, get_annual_income_display,
    get_state_display, get_density_display.
  congruence.
Qed.

Lemma to_display_idempotent_witness :
  displayed_attributes (with_internal_ids 11 12 (Some 4) Sample.record) =
    displayed_attributes Sample.record /\
  to_display Sample.states (with_internal_ids 11 12 (Some 4) Sample.record) =
    to_display Sample.states Sample.record.
Proof.
  split; [reflexivity|].
  apply (to_display_idempotent Sample.states Sample.record). reflexivity.
Defined.

(** C7: [child_birthdays] is rendered as the list of the stored dates' ISO
    texts, one per date and in the stored order; the dates 1990-01-01 and
    1992-06-15 give "1990-01-01" and "1992-06-15". *)
Theorem child_birthdays_rendered_in_order ST (r : DemographicData) :
  let shown := date_isoformat <$> child_birthdays r in
  to_display ST r !! "child_birthdays" = Some (PyList (PyStr <$> shown)) /\
  length shown = length (child_birthdays r) /\
  (forall i, shown !! i = date_isoformat <$> (child_birthdays r !! i)) /\
  date_isoformat <$> [mkDate 1990 1 1; mkDate 1992 6 15] =
    ["1990-01-01"; "1992-06-15"] /\
  to_display ST Sample.record !! "child_birthdays" =
    Some (PyList [PyStr "1990-01-01"; PyStr "1992-06-15"]).
Proof.
  simpl. repeat split.
  - unfold to_display, to_display_items.
    change (dict_of ?items !! "child_birthdays") with
      (Some (PyList (map (fun b => PyStr (date_isoformat b)) (child_birthdays r)))).
    do 2 f_equal. induction (child_birthdays r) as [|d l IHl]; simpl; [done|].
    by rewrite IHl.
  - apply length_fmap.
  - intros i. apply list_lookup_fmap.
Qed.

(** C9: the age catalog pairs the code "45-59" with the label "45-49", so a
    row storing "45-59" is rendered "45-49"; read as brackets the code ends
    at 59 and the label at 49, and no pair of the catalog has both its code
    and its label read 45 to 59 (no label does). *)
Theorem age_45_59_rendered_45_49 ST (r : DemographicData) :
  ("45-59", "45-49") ∈ AGE_CHOICES /\
  (age r = "45-59" -> to_display ST r !! "age" = Some (PyStr "45-49")) /\
  Bracket.bounds "45-59" = Some (45, 59) /\
  Bracket.bounds "45-49" = Some (45, 49) /\
  Forall (fun pair => ~ (Bracket.bounds pair.1 = Some (45, 59) /\
                         Bracket.bounds pair.2 = Some (45, 59))) AGE_CHOICES /\
  Forall (fun pair => Bracket.bounds pair.2 <> Some (45, 59)) AGE_CHOICES.
Proof.
  split; [compute_done|]. split.
  - intros Hage.
    transitivity (Some (PyStr (get_display Age r)));
      [exact (to_display_coded ST r Age)|].
    simpl. unfold get_age_display. rewrite Hage. reflexivity.
  - repeat split; try reflexivity; compute_done.
Qed.

Lemma age_45_59_rendered_45_49_witness :
  age Sample.record = "45-59" /\
  to_display Sample.states Sample.record !! "age" = Some (PyStr "45-49").
Proof.
  split; [reflexivity|].
  apply (age_45_59_rendered_45_49 Sample.states Sample.record). reflexivity.
Defined.

(** ** The record store: [create] *)

Import RecordStore.
Local Open Scope list_scope.

Lemma validate_code_cases (f : CodedField) (fields : Fields) :
  (exists c, supplied f fields = Some c /\ c ∈ codes (catalog f) /\
             validate_code f fields = Ok c) \/
  (~ valid_code f fields /\
   validate_code f fields = Err (InvalidFieldValue (field_name f) (supplied f fields))).
Proof.
  unfold validate_code, valid_code.
  destruct (supplied f fields) as [c|]; [|right; split; [tauto | reflexivity]].
  case_bool_decide; [left; exists c; by repeat split | right; by split].
Qed.

Ltac validate_step F fields :=
  destruct (validate_code_cases F fields) as [(? & ? & ? & ->) | [? ->]];
  [ cbn [mbind Result_bind]
  | right; exists F; by split ].

(** [create] either appends the row built from the assignment, or reports the
    first coded field without a valid code and leaves the store alone. *)
Lemma create_cases now owner fields prev (s : Store) :
  (exists r,
      (forall f, valid_code f fields) /\
      create now owner fields prev s = (Ok (length s), s ++ [r]) /\
      pk r = length s /\ user r = owner /\ created_at r = now /\
      previous r = prev) \/
  (exists f,
      ~ valid_code f fields /\
      create now owner fields prev s =
        (Err (InvalidFieldValue (field_name f) (supplied f fields)), s)).
Proof.
  unfold create, validated.
  validate_step NumberOfChildren fields.
  validate_step NumberOfGuardians fields.
  validate_step RaceIdentification fields.
  validate_step Age fields.
  validate_step Gender fields.
  validate_step EducationLevel fields.
  validate_step SpouseEducationLevel fields.
  validate_step AnnualIncome fields.
  validate_step Density fields.
  left. eexists. split; [|by repeat split].
  intros f. unfold valid_code. destruct f;
    match goal with H : supplied ?g fields = Some _ |- context [supplied ?g fields] =>
      rewrite H end; assumption.
Qed.

(** C2: [create] succeeds exactly when every coded field of the assignment
    holds a code of its catalog; when some coded field does not (the gender
    field, and the gender value "xx" in particular) it fails with
    [InvalidFieldValue] and returns the store unchanged, and it names the
    gender field and its value when the other coded fields are valid. *)
Theorem create_validates_coded_fields now owner fields prev (s : Store) :
  ((forall f, valid_code f fields) <->
   exists id s', create now owner fields prev s = (Ok id, s')) /\
  (forall f, ~ valid_code f fields ->
     exists field value,
       create now owner fields prev s = (Err (InvalidFieldValue field value), s)) /\
  (f_gender fields = Some "xx" ->
     exists field value,
       create now owner fields prev s = (Err (InvalidFieldValue field value), s)) /\
  (~ valid_code Gender fields ->
   (forall f, f <> Gender -> valid_code f fields) ->
     create now owner fields prev s =
       (Err (InvalidFieldValue "gender" (f_gender fields)), s)).
Proof.
  assert (Hbad : forall f, ~ valid_code f fields ->
     exists field value,
       create now owner fields prev s = (Err (InvalidFieldValue field value), s)).
  { intros f Hf.
    destruct (create_cases now owner fields prev s)
      as [(r & Hall & _) | (g & _ & Hg)]; [by destruct (Hf (Hall f)) | eauto]. }
  split; [|split; [exact Hbad|split]].
  - split.
    + intros Hall.
      destruct (create_cases now owner fields prev s)
        as [(r & _ & Hr & _) | (g & Hg & _)]; [eauto | by destruct (Hg (Hall g))].
    + intros (id & s' & Hok) f.
      destruct (decide (valid_code f fields)) as [|Hf]; [done|].
      destruct (Hbad f Hf) as (? & ? & Herr). congruence.
  - intros Hxx. apply (Hbad Gender).
    unfold valid_code. simpl. rewrite Hxx. compute_done.
  - intros Hgender Hothers.
    destruct (create_cases now owner fields prev s)
      as [(r & Hall & _) | (g & Hg & Herr)]; [by destruct (Hgender (Hall Gender))|].
    destruct (decide (g = Gender)) as [->|Hne]; [exact Herr|].
    by destruct (Hg (Hothers g Hne)).
Qed.

Lemma create_validates_coded_fields_witness :
  f_gender Sample.fields_xx = Some "xx" /\
  ~ valid_code Gender Sample.fields_xx /\
  (forall f, f <> Gender -> valid_code f Sample.fields_xx) /\
  create Sample.noon Sample.alice Sample.fields_xx None [] =
    (Err (InvalidFieldValue "gender" (Some "xx")), []).
Proof.
  assert (Hgender : ~ valid_code Gender Sample.fields_xx) by compute_done.
  assert (Hothers : forall f, f <> Gender -> valid_code f Sample.fields_xx).
  { intros f Hf. destruct f; try (by destruct Hf); compute_done. }
  split; [reflexivity|]. split; [exact Hgender|]. split; [exact Hothers|].
  apply (create_validates_coded_fields Sample.noon Sample.alice Sample.fields_xx None []);
    assumption.
Defined.

Lemma create_Ok_inv now owner fields prev (s : Store) id s' :
  create now owner fields prev s = (Ok id, s') ->
  id = length s /\
  exists r, s' = s ++ [r] /\ pk r = length s /\ user r = owner /\
            created_at r = now /\ previous r = prev.
Proof.
  intros Hok.
  destruct (create_cases now owner fields prev s)
    as [(r & _ & Hr & Hrest) | (g & _ & Hg)]; [|congruence].
  rewrite Hr in Hok. injection Hok as <- <-. split; [done|]. by exists r.
Qed.

(** The store after [create]: the old one, or the old one and one more row
    stamped with the clock reading. *)
Lemma create_store now owner fields prev (s : Store) :
  (create now owner fields prev s).2 = s \/
  exists r, (create now owner fields prev s).2 = s ++ [r] /\ created_at r = now.
Proof.
  destruct (create_cases now owner fields prev s)
    as [(r & _ & -> & _ & _ & Hnow & _) | (g & _ & ->)]; [right|left]; eauto.
Qed.

(** ** The record store: rows are never rewritten *)

Lemma exec_lookup op (s : Store) id r :
  s !! id = Some r -> exec op s !! id = Some r.
Proof.
  intros Hr. destruct op as [now owner fields prev| | | |]; simpl; try done.
  destruct (create_store now owner fields prev s) as [-> | (r' & -> & _)]; [done|].
  by apply lookup_app_l_Some.
Qed.

Lemma run_lookup ops (s : Store) id r :
  s !! id = Some r -> run ops s !! id = Some r.
Proof.
  revert s. induction ops as [|op ops IHops]; intros s Hr; simpl; [done|].
  apply IHops. by apply exec_lookup.
Qed.

Lemma ordered_snoc (s : Store) r :
  ordered s -> clock_after s (created_at r) -> ordered (s ++ [r]).
Proof.
  intros Hs Hclock i j a b Hij Ha Hb.
  apply lookup_snoc_Some in Hb as [[Hj Hb] | [-> <-]];
    apply lookup_snoc_Some in Ha as [[Hi Ha] | [-> _]]; try lia.
  - exact (Hs i j a b Hij Ha Hb).
  - unfold clock_after in Hclock. rewrite Forall_forall in Hclock.
    apply Hclock. by eapply list_elem_of_lookup_2.
Qed.

Lemma exec_ordered op (s : Store) :
  ordered s -> clock_advances [op] s -> ordered (exec op s).
Proof.
  intros Hs [Hclock _]. destruct op as [now owner fields prev| | | |]; simpl; try done.
  destruct (create_store now owner fields prev s) as [-> | (r & -> & Hnow)]; [done|].
  apply ordered_snoc; [done|]. by rewrite Hnow.
Qed.

Lemma run_ordered ops (s : Store) :
  ordered s -> clock_advances ops s -> ordered (run ops s).
Proof.
  revert s. induction ops as [|op ops IHops]; intros s Hs Hclock; simpl; [done|].
  destruct Hclock as [Hop Hrest]. apply IHops; [|done].
  apply exec_ordered; [done|]. by split.
Qed.

Lemma run_cons op ops (s : Store) : run (op :: ops) s = run ops (exec op s).
Proof. reflexivity. Qed.

(** The stamps of the rows a run adds are clock readings of its [create]
    calls, in call order. *)
Lemma run_stamps ops (s : Store) :
  exists new, created_at <$> run ops s = (created_at <$> s) ++ new /\
              new `sublist_of` readings ops.
Proof.
  revert s. induction ops as [|op ops IH]; intros s.
  - exists []. by rewrite app_nil_r.
  - destruct (IH (exec op s)) as (new & Hrun & Hsub). rewrite run_cons.
    destruct op as [now owner fields prev| | | |];
      try (exists new; split; [exact Hrun | exact Hsub]).
    cbn [readings omap]. fold (readings ops). cbn [exec] in Hrun |- *.
    destruct (create_store now owner fields prev s) as [Hs | (r & Hs & Hnow)];
      rewrite Hs in Hrun |- *.
    + exists new. split; [exact Hrun | by apply sublist_cons].
    + exists (now :: new). split; [|by apply sublist_skip].
      rewrite Hrun, fmap_app, <- app_assoc. cbn. by rewrite Hnow.
Qed.

Lemma clock_increasing_advances ops (s : Store) :
  StronglySorted (fun a b => (PyTime.instant a < PyTime.instant b)%Z) (readings ops) ->
  Forall (fun r => Forall (fun t => (PyTime.instant (created_at r) < PyTime.instant t)%Z)
                     (readings ops)) s ->
  clock_advances ops s.
Proof.
  revert s. induction ops as [|op ops IH]; intros s Hsorted Hs; [done|].
  destruct op as [now owner fields prev| | | |];
    try (split; [done|]; by apply IH).
  cbn [readings omap] in Hsorted, Hs. fold (readings ops) in Hsorted, Hs.
  apply StronglySorted_inv in Hsorted as [Hsorted Hnow].
  split.
  - unfold clock_after. eapply Forall_impl; [exact Hs|].
    intros r Hr. by apply Forall_inv in Hr.
  - apply IH; [done|]. cbn [exec].
    destruct (create_store now owner fields prev s) as [-> | (r & -> & Hr)].
    + eapply Forall_impl; [exact Hs|]. intros r Hr. by apply Forall_inv_tail in Hr.
    + apply Forall_app. split.
      * eapply Forall_impl; [exact Hs|]. intros r' Hr'. by apply Forall_inv_tail in Hr'.
      * apply Forall_singleton. by rewrite Hr.
Qed.

(** C8, as stated: a row created later does not always carry a later
    [created_at].  [create] stamps a row with the clock reading it is given
    and compares it with nothing; when the clock is set back between two
    calls, the second row, created later and referring to the first as its
    [previous], carries the earlier [created_at]. *)
Lemma created_at_earlier_after_clock_set_back :
  (exists a b,
      run Sample.ops_clock_back [] !! 0 = Some a /\
      run Sample.ops_clock_back [] !! 1 = Some b /\
      previous b = Some 0 /\
      created_at a = Sample.later /\ created_at b = Sample.noon /\
      created_before b a /\ ~ created_before a b) /\
  ~ (forall ops i j a b,
       i < j -> run ops [] !! i = Some a -> run ops [] !! j = Some b ->
       created_before a b).
Proof.
  assert (Hback : ~ (PyTime.instant Sample.later < PyTime.instant Sample.noon)%Z)
    by (vm_compute; discriminate).
  split.
  - eexists. eexists.
    split; [reflexivity|]. split; [reflexivity|]. split; [reflexivity|].
    split; [reflexivity|]. split; [reflexivity|].
    split; [unfold created_before; cbn [created_at]; by vm_compute | exact Hback].
  - intros Hlater.
    apply Hback.
    exact (Hlater Sample.ops_clock_back 0 1 _ _ ltac:(lia) eq_refl eq_refl).
Qed.

(** C8, amended: [create] stamps the new row, which did not exist before,
    with the clock reading; no sequence of store and projector operations
    changes a row already stored, so its [created_at] stays what it was; the
    stamps in the store are clock readings of the [create] calls, in call
    order; and a row created later carries a strictly later [created_at]
    when every [create] reads the clock later than the stamps already
    stored, as it does when the clock reads strictly later at every call. *)
Theorem created_at_assigned_once_and_monotone :
  (forall now owner fields prev (s : Store) id s',
      create now owner fields prev s = (Ok id, s') ->
      s !! id = None /\
      exists r, s' !! id = Some r /\ created_at r = now) /\
  (forall ops (s : Store) id r,
      s !! id = Some r ->
      run ops s !! id = Some r /\
      exists r', run ops s !! id = Some r' /\ created_at r' = created_at r) /\
  (forall ops i j a b,
      clock_advances ops [] ->
      i < j -> run ops [] !! i = Some a -> run ops [] !! j = Some b ->
      created_before a b) /\
  (forall ops, (created_at <$> run ops []) `sublist_of` readings ops) /\
  (forall ops i j a b,
      clock_increasing ops ->
      i < j -> run ops [] !! i = Some a -> run ops [] !! j = Some b ->
      created_before a b).
Proof.
  assert (Hordered : forall ops, clock_advances ops [] -> ordered (run ops [])).
  { intros ops Hclock. apply (run_ordered ops []); [|done].
    intros i' j' a' b' _ Ha'. by rewrite lookup_nil in Ha'. }
  split; [|split; [|split; [|split]]].
  - intros now owner fields prev s id s' Hok.
    destruct (create_Ok_inv _ _ _ _ _ _ _ Hok)
      as (-> & r & -> & _ & _ & Hnow & _).
    split; [by apply lookup_ge_None_2|].
    exists r. split; [|done]. by apply list_lookup_middle.
  - intros ops s id r Hr. split; [by apply run_lookup|].
    exists r. split; [by apply run_lookup | done].
  - intros ops i j a b Hclock. by apply Hordered.
  - intros ops. destruct (run_stamps ops []) as (new & -> & Hsub). exact Hsub.
  - intros ops i j a b Hclock. apply Hordered.
    by apply clock_increasing_advances.
Qed.

Lemma created_at_assigned_once_and_monotone_witness :
  clock_advances Sample.ops [] /\
  exists a b, run Sample.ops [] !! 0 = Some a /\ run Sample.ops [] !! 1 = Some b /\
              created_at a = Sample.noon /\ created_at b = Sample.later /\
              created_before a b.
Proof.
  assert (Hclock : clock_advances Sample.ops []).
  { repeat split; try apply Forall_nil; unfold clock_after;
      repeat constructor. }
  split; [exact Hclock|].
  eexists. eexists.
  split; [reflexivity|]. split; [reflexivity|].
  split; [reflexivity|]. split; [reflexivity|].
  apply (proj1 (proj2 (proj2 created_at_assigned_once_and_monotone)) Sample.ops 0 1);
    [exact Hclock | lia | reflexivity | reflexivity].
Defined.

(** ** The record store: [latest_for] *)






(** ** The record store: the traversal *)








Lemma walk_same_owner (s : Store) o o' fuel visited cur :
  user_pk o = user_pk o' ->
  walk s o fuel visited cur = walk s o' fuel visited cur.
Proof.
  intros Hpk. revert visited cur.
  induction fuel as [|fuel IHfuel]; intros visited [i|]; simpl; try done.
  case_decide; [done|]. destruct (s !! i) as [r|]; [|done].
  rewrite IHfuel. repeat case_decide; unfold owned_by in *; congruence.
Qed.

(** ** The record store: rows submitted in sequence *)

Lemma submit_inv now owner fields (s : Store) id s' :
  submit now owner fields s = (Ok id, s') ->
  exists r, s' = s ++ [r] /\ pk r = length s /\ user r = owner /\
            created_at r = now /\ previous r = pk <$> latest_for s owner.
Proof.
  intros Hok. apply create_Ok_inv in Hok as (_ & r & ? & ? & ? & ? & ?).
  by exists r.
Qed.

Lemma in_sequence_pk (s : Store) :
  in_sequence s -> forall i r, s !! i = Some r -> pk r = i.
Proof.
  induction 1 as [|s now owner fields id s' _ IHs _ Hsubmit]; intros i r Hr.
  - by rewrite lookup_nil in Hr.
  - apply submit_inv in Hsubmit as (r' & -> & Hpk & _).
    apply lookup_snoc_Some in Hr as [[_ Hr] | [-> <-]]; [by apply IHs | done].
Qed.





(** ** The record store: [history_for] *)



(** The scenarios of the specification, run on the model. *)
Example history_scenarios :
  history_for Sample.store2 Sample.alice =
    Some (reverse Sample.store2, None) /\
  pk <$> latest_for Sample.store2 Sample.alice = Some 1 /\
  (exists r, history_for Sample.store_cross_owner Sample.alice =
               Some ([r], Some BrokenChain) /\ previous r = Some 0) /\
  (exists r, history_for Sample.store_cycle Sample.alice =
               Some ([r], Some BrokenChain) /\ previous r = Some 0) /\
  history_for Sample.store2 Sample.bob = Some ([], None).
Proof.
  split; [reflexivity|]. split; [reflexivity|].
  split; [eexists; split; reflexivity|].
  split; [eexists; split; reflexivity|]. reflexivity.
Qed.

(** * Further properties *)

Local Open Scope string_scope.

(** ** Text *)

Lemma append_cons (c : ascii) (a b : string) :
  String c a ++ b = String c (a ++ b).
Proof. reflexivity. Qed.

Lemma append_nil_r (s : string) : s ++ EmptyString = s.
Proof. induction s as [|c s IHs]; [done|]. by rewrite append_cons, IHs. Qed.

Lemma append_assoc (a b c : string) : (a ++ b) ++ c = a ++ (b ++ c).
Proof. induction a as [|x a IHa]; [done|]. by rewrite !append_cons, IHa. Qed.

Lemma length_append (a b : string) :
  String.length (a ++ b) = String.length a + String.length b.
Proof.
  induction a as [|x a IHa]; [done|]. rewrite append_cons. cbn. by rewrite IHa.
Qed.

Lemma append_inj_length (a a' b b' : string) :
  String.length a = String.length a' -> a ++ b = a' ++ b' -> a = a' /\ b = b'.
Proof.
  revert a'. induction a as [|x a IHa]; intros [|x' a'] Hlen Heq;
    try discriminate; [done|].
  rewrite !append_cons in Heq. injection Heq as -> Heq. injection Hlen as Hlen.
  destruct (IHa a' Hlen Heq) as [-> ->]. done.
Qed.

Lemma substring_append_l (a b : string) :
  substring 0 (String.length a) (a ++ b) = a.
Proof.
  induction a as [|x a IHa]; [by destruct b|].
  rewrite append_cons. cbn. by rewrite IHa.
Qed.

Lemma substring_append_r (a b : string) n :
  substring (String.length a) n (a ++ b) = substring 0 n b.
Proof.
  induction a as [|x a IHa]; [done|]. rewrite append_cons. cbn. by rewrite IHa.
Qed.

(** ** Digits *)

Lemma digit_of_digit_char (d : N) :
  (d < 16)%N -> PyRead.digit_of (PyFormat.digit_char d) = Some d.
Proof.
  intros Hd.
  assert (Hcases : In d [0; 1; 2; 3; 4; 5; 6; 7; 8; 9; 10; 11; 12; 13; 14; 15]%N).
  { simpl. lia. }
  simpl in Hcases.
  repeat (destruct Hcases as [<-|Hcases]; [reflexivity|]). done.
Qed.

Lemma read_from_append base acc (a b : string) :
  PyRead.read_from base acc (a ++ b) =
    PyRead.read_from base acc a ≫= fun v => PyRead.read_from base v b.
Proof.
  revert acc. induction a as [|c a IHa]; intros acc; [done|].
  rewrite append_cons. cbn. destruct (PyRead.digit_of c) as [d|]; [|done].
  destruct (d <? base)%N; [apply IHa | done].
Qed.

Lemma digits_aux_S base fuel n acc :
  PyFormat.digits_aux base (S fuel) n acc =
    if (n / base =? 0)%N
    then String (PyFormat.digit_char (n mod base)) acc
    else PyFormat.digits_aux base fuel (n / base)
           (String (PyFormat.digit_char (n mod base)) acc).
Proof. reflexivity. Qed.

(** With enough fuel, [digits_aux] puts before [acc] the digits of [n]: they
    read back as [n], there is at least one, and no more than [n] needs. *)
Lemma digits_aux_spec (base : N) (fuel : nat) (n : N) (acc : string) :
  (2 <= base <= 16)%N -> (n < 2 ^ N.of_nat (S fuel))%N ->
  exists s,
    PyFormat.digits_aux base (S fuel) n acc = s ++ acc /\
    (forall v, PyRead.read_from base v s =
               Some (v * base ^ N.of_nat (String.length s) + n)%N) /\
    1 <= String.length s /\
    (n < base ^ N.of_nat (String.length s))%N /\
    (String.length s = 1 \/ (base ^ N.of_nat (String.length s - 1) <= n)%N).
Proof.
  intros Hbase. revert n acc.
  induction fuel as [|fuel IHfuel]; intros n acc Hn.
  - assert (n / base = 0)%N as Hq.
    { apply N.div_small. change (2 ^ N.of_nat 1)%N with 2%N in Hn. lia. }
    rewrite digits_aux_S, Hq. cbn [N.eqb].
    assert (n mod base = n)%N as -> by (apply N.mod_small; change (2 ^ N.of_nat 1)%N with 2%N in Hn; lia).
    exists (String (PyFormat.digit_char n) EmptyString).
    split; [done|]. split; [|split; [cbn; lia|split; [|by left]]].
    + intros v. cbn. rewrite digit_of_digit_char by (change (2 ^ N.of_nat 1)%N with 2%N in Hn; lia).
      assert ((n <? base)%N = true) as -> by (apply N.ltb_lt; change (2 ^ N.of_nat 1)%N with 2%N in Hn; lia).
      f_equal. change (N.of_nat 1) with 1%N. rewrite N.pow_1_r. lia.
    + cbn [String.length]. change (N.of_nat 1) with 1%N. rewrite N.pow_1_r.
      change (2 ^ N.of_nat 1)%N with 2%N in Hn. lia.
  - rewrite digits_aux_S.
    destruct (n / base =? 0)%N eqn:Hq.
    + apply N.eqb_eq in Hq.
      assert (n < base)%N as Hlt.
      { destruct (N.lt_ge_cases n base) as [|Hge]; [done|].
        assert (1 <= n / base)%N; [|lia].
        apply N.div_le_lower_bound; lia. }
      rewrite (N.mod_small n base) by done.
      exists (String (PyFormat.digit_char n) EmptyString).
      split; [done|]. split; [|split; [cbn; lia|split; [|by left]]].
      * intros v. cbn. rewrite digit_of_digit_char by lia.
        assert ((n <? base)%N = true) as -> by (by apply N.ltb_lt).
        f_equal. change (N.of_nat 1) with 1%N. rewrite N.pow_1_r. lia.
      * cbn [String.length]. change (N.of_nat 1) with 1%N. by rewrite N.pow_1_r.
    + apply N.eqb_neq in Hq.
      assert (n / base < 2 ^ N.of_nat (S fuel))%N as Hn'.
      { apply N.Div0.div_lt_upper_bound.
        rewrite (Nat2N.inj_succ (S fuel)), N.pow_succ_r' in Hn. nia. }
      destruct (IHfuel (n / base)%N
                  (String (PyFormat.digit_char (n mod base)) acc) Hn')
        as (s & Hs & Hread & Hlen & Hupper & Hlower).
      exists (s ++ String (PyFormat.digit_char (n mod base)) EmptyString).
      assert (Hmod : (n mod base < base)%N) by (apply N.mod_lt; lia).
      assert (Hdiv : (n = base * (n / base) + n mod base)%N)
        by (apply N.div_mod; lia).
      rewrite length_append. cbn [String.length].
      replace (String.length s + 1) with (S (String.length s)) by lia.
      rewrite Nat2N.inj_succ, N.pow_succ_r'.
      split; [by rewrite Hs, append_assoc|].
      split; [|split; [lia|split]].
      * intros v. rewrite read_from_append, Hread. cbn.
        rewrite digit_of_digit_char by lia.
        assert ((n mod base <? base)%N = true) as -> by (by apply N.ltb_lt).
        f_equal. nia.
      * nia.
      * right. replace (S (String.length s) - 1) with (String.length s) by lia.
        destruct Hlower as [Hone | Hlow].
        -- rewrite Hone. change (N.of_nat 1) with 1%N. rewrite N.pow_1_r.
           destruct (N.lt_ge_cases n base) as [Hsmall|]; [|done].
           apply N.div_small in Hsmall. lia.
        -- destruct (String.length s) as [|k] eqn:Hk; [lia|].
           replace (S k - 1) with k in Hlow by lia.
           rewrite Nat2N.inj_succ, N.pow_succ_r'.
           apply N.le_trans with (base * (n / base))%N;
             [by apply N.mul_le_mono_l | apply N.Div0.mul_div_le].
Qed.

Lemma digits_spec (base n : N) :
  (2 <= base <= 16)%N ->
  exists s,
    PyFormat.digits base n = s /\
    (forall v, PyRead.read_from base v s =
               Some (v * base ^ N.of_nat (String.length s) + n)%N) /\
    1 <= String.length s /\
    (n < base ^ N.of_nat (String.length s))%N /\
    (String.length s = 1 \/ (base ^ N.of_nat (String.length s - 1) <= n)%N).
Proof.
  intros Hbase. unfold PyFormat.digits.
  destruct (digits_aux_spec base (N.to_nat (N.log2 n)) n EmptyString Hbase)
    as (s & Hs & Hrest).
  - rewrite Nat2N.inj_succ, N2Nat.id.
    destruct (N.eq_dec n 0%N) as [->|Hpos]; [done|].
    apply N.log2_spec. lia.
  - exists s. split; [by rewrite Hs, append_nil_r | done].
Qed.

(** The digits of a number read back as the number. *)
Lemma read_digits (base n : N) :
  (2 <= base <= 16)%N -> PyRead.read base (PyFormat.digits base n) = Some n.
Proof.
  intros Hbase. destruct (digits_spec base n Hbase) as (s & -> & Hread & _).
  unfold PyRead.read. rewrite Hread. f_equal; lia.
Qed.

Lemma length_digits_le (base n : N) (k : nat) :
  (2 <= base <= 16)%N -> 1 <= k -> (n < base ^ N.of_nat k)%N ->
  1 <= String.length (PyFormat.digits base n) <= k.
Proof.
  intros Hbase Hk Hn.
  destruct (digits_spec base n Hbase) as (s & -> & _ & Hlen & _ & Hlower).
  split; [done|]. destruct Hlower as [->|Hlow]; [done|].
  assert (base ^ N.of_nat (String.length s - 1) < base ^ N.of_nat k)%N as Hpow
    by lia.
  apply N.pow_lt_mono_r_iff in Hpow; lia.
Qed.

Lemma length_zeros (k : nat) : String.length (PyFormat.zeros k) = k.
Proof. induction k as [|k IHk]; [done|]. cbn. by rewrite IHk. Qed.

Lemma length_zfill (w : nat) (s : string) :
  String.length (PyFormat.zfill w s) = Nat.max w (String.length s).
Proof. unfold PyFormat.zfill. rewrite length_append, length_zeros. lia. Qed.

Lemma read_from_zeros (base : N) (k : nat) (s : string) :
  (0 < base)%N ->
  PyRead.read_from base 0 (PyFormat.zeros k ++ s) = PyRead.read_from base 0 s.
Proof.
  intros Hbase. induction k as [|k IHk]; [done|].
  cbn [PyFormat.zeros]. rewrite append_cons. cbn [PyRead.read_from].
  change (PyRead.digit_of "0"%char) with (Some 0%N). cbn beta iota.
  assert ((0 <? base)%N = true) as -> by (by apply N.ltb_lt).
  by rewrite N.mul_0_l, N.add_0_r.
Qed.

Lemma read_zfill (base : N) (w : nat) (s : string) :
  (0 < base)%N -> PyRead.read base (PyFormat.zfill w s) = PyRead.read base s.
Proof. intros Hbase. by apply read_from_zeros. Qed.

(** ['%0<w>x'] reads back as the number, whatever the width. *)
Lemma read_format_x (w : nat) (n : N) :
  PyRead.read 16 (PyFormat.format_x w n) = Some n.
Proof.
  unfold PyFormat.format_x. rewrite read_zfill by lia.
  apply read_digits. lia.
Qed.

Lemma length_format_x (w : nat) (n : N) :
  1 <= w -> (n < 16 ^ N.of_nat w)%N ->
  String.length (PyFormat.format_x w n) = w.
Proof.
  intros Hw Hn. unfold PyFormat.format_x. rewrite length_zfill.
  pose proof (length_digits_le 16 n w). lia.
Qed.

(** ['%0<w>d'] of a number that is not negative. *)
Lemma read_format_d (w : nat) (z : Z) :
  (0 <= z)%Z -> PyRead.read 10 (PyFormat.format_d w z) = Some (Z.to_N z).
Proof.
  intros Hz. unfold PyFormat.format_d.
  assert ((z <? 0)%Z = false) as -> by lia.
  rewrite read_zfill by lia. apply read_digits. lia.
Qed.

Lemma length_format_d (w : nat) (z : Z) :
  1 <= w -> (0 <= z < 10 ^ Z.of_nat w)%Z ->
  String.length (PyFormat.format_d w z) = w.
Proof.
  intros Hw Hz. unfold PyFormat.format_d.
  assert ((z <? 0)%Z = false) as -> by lia.
  rewrite length_zfill.
  assert (Z.to_N z < 10 ^ N.of_nat w)%N as Hn.
  { apply N2Z.inj_lt. rewrite N2Z.inj_pow, Z2N.id, nat_N_Z by lia. simpl. lia. }
  pose proof (length_digits_le 10 (Z.to_N z) w). lia.
Qed.

(** ** Identifiers and dates as text *)

Lemma all_chars_append p (a b : string) :
  PyRead.all_chars p (a ++ b) = PyRead.all_chars p a && PyRead.all_chars p b.
Proof.
  induction a as [|c a IHa]; [done|].
  rewrite append_cons. cbn. by rewrite IHa, andb_assoc.
Qed.

Lemma all_chars_substring p (s : string) n m :
  PyRead.all_chars p s = true -> PyRead.all_chars p (substring n m s) = true.
Proof.
  revert n m. induction s as [|c s IHs]; intros n m Hs.
  - by destruct n, m.
  - cbn in Hs. apply andb_true_iff in Hs as [Hc Hs].
    destruct n as [|n]; [destruct m as [|m]; [done|]|]; cbn.
    + by rewrite Hc, IHs.
    + by apply IHs.
Qed.

Lemma read_from_hex_digits base v (s : string) x :
  PyRead.read_from base v s = Some x ->
  PyRead.all_chars PyRead.is_hex_digit s = true.
Proof.
  revert v. induction s as [|c s IHs]; intros v Hread; [done|].
  cbn [PyRead.read_from] in Hread. cbn [PyRead.all_chars].
  unfold PyRead.is_hex_digit at 1.
  destruct (PyRead.digit_of c) as [d|]; [|done].
  destruct (d <? base)%N; [|done]. exact (IHs _ Hread).
Qed.

Lemma remove_dashes_append (a b : string) :
  PyRead.remove_dashes (a ++ b) = PyRead.remove_dashes a ++ PyRead.remove_dashes b.
Proof.
  induction a as [|c a IHa]; [done|].
  rewrite append_cons. cbn. destruct (Ascii.eqb c "-"); [done|].
  by rewrite append_cons, IHa.
Qed.

Lemma remove_dashes_hex (s : string) :
  PyRead.all_chars PyRead.is_hex_digit s = true -> PyRead.remove_dashes s = s.
Proof.
  induction s as [|c s IHs]; [done|]. cbn. intros [Hc Hs]%andb_true_iff.
  destruct (Ascii.eqb_spec c "-") as [->|_]; [done|]. by rewrite IHs.
Qed.

(** Consecutive slices put together give the longer slice. *)
Lemma substring_split (s : string) n m k :
  substring n m s ++ substring (n + m) k s = substring n (m + k) s.
Proof.
  revert n m. induction s as [|c s IHs]; intros n m.
  - destruct n, m, k; reflexivity.
  - destruct n as [|n]; cbn.
    + destruct m as [|m]; cbn; [done|]. rewrite append_cons. f_equal. apply (IHs 0).
    + apply IHs.
Qed.

Lemma substring_all (s : string) : substring 0 (String.length s) s = s.
Proof. induction s as [|c s IHs]; [done|]. cbn. by rewrite IHs. Qed.

Lemma length_substring (s : string) n m :
  n + m <= String.length s -> String.length (substring n m s) = m.
Proof.
  revert n m. induction s as [|c s IHs]; intros n m Hlen; cbn in Hlen.
  - assert (n = 0 /\ m = 0) as [-> ->] by lia. done.
  - destruct n as [|n]; cbn.
    + destruct m as [|m]; [done|]. cbn. rewrite IHs; lia.
    + apply IHs. lia.
Qed.

Lemma append_inj_r (a b c : string) : a ++ c = b ++ c -> a = b.
Proof.
  intros Heq. assert (String.length a = String.length b) as Hlen.
  { apply (f_equal String.length) in Heq. rewrite !length_append in Heq. lia. }
  by destruct (append_inj_length _ _ _ _ Hlen Heq).
Qed.

Lemma uuid_hex_read (u : UUID) : PyRead.read 16 (uuid_hex u) = Some (uuid_int u).
Proof. apply read_format_x. Qed.

Lemma uuid_hex_inj (u v : UUID) : uuid_hex u = uuid_hex v -> u = v.
Proof.
  intros Heq. pose proof (uuid_hex_read u) as Hu. rewrite Heq, uuid_hex_read in Hu.
  destruct u, v. simpl in Hu. congruence.
Qed.

Lemma uuid_hex_digits (u : UUID) :
  PyRead.all_chars PyRead.is_hex_digit (uuid_hex u) = true.
Proof. eapply read_from_hex_digits, uuid_hex_read. Qed.

Lemma uuid_hex_length_ge (u : UUID) : 32 <= String.length (uuid_hex u).
Proof. unfold uuid_hex, PyFormat.format_x. rewrite length_zfill. lia. Qed.

Lemma uuid_hex_length (u : UUID) :
  (uuid_int u < 2 ^ 128)%N -> String.length (uuid_hex u) = 32.
Proof. intros Hu. apply length_format_x; [lia | exact Hu]. Qed.

Lemma remove_dashes_group (a rest : string) :
  PyRead.all_chars PyRead.is_hex_digit a = true ->
  PyRead.remove_dashes (a ++ "-" ++ rest) = a ++ PyRead.remove_dashes rest.
Proof.
  intros Ha. rewrite remove_dashes_append, (remove_dashes_hex a Ha).
  by rewrite append_cons.
Qed.

Lemma uuid_str_remove_dashes (u : UUID) :
  PyRead.remove_dashes (uuid_str u) = uuid_hex u.
Proof.
  unfold uuid_str. cbv zeta.
  pose proof (uuid_hex_digits u) as Hhex.
  pose proof (uuid_hex_length_ge u) as Hlen.
  rewrite !remove_dashes_group by (by apply all_chars_substring).
  rewrite remove_dashes_hex by (by apply all_chars_substring).
  rewrite <- !append_assoc.
  rewrite (substring_split _ 0 8 4), (substring_split _ 0 12 4),
    (substring_split _ 0 16 4), (substring_split _ 0 20).
  replace (20 + (String.length (uuid_hex u) - 20))
    with (String.length (uuid_hex u)) by lia.
  apply substring_all.
Qed.

Lemma uuid_str_inj (u v : UUID) : uuid_str u = uuid_str v -> u = v.
Proof.
  intros Heq. apply uuid_hex_inj. by rewrite <- !uuid_str_remove_dashes, Heq.
Qed.

Lemma uuid_str_length (u : UUID) :
  (uuid_int u < 2 ^ 128)%N -> String.length (uuid_str u) = 36.
Proof.
  intros Hu. pose proof (uuid_hex_length u Hu) as Hlen.
  unfold uuid_str. cbv zeta. rewrite !length_append, !length_substring by lia.
  rewrite Hlen. reflexivity.
Qed.

(** X1: the "user" entry of [to_display] is the owner's UUID as hex digits
    [0-9a-f], 32 of them for a 128-bit UUID, and it determines the UUID: two
    rows show the same "user" exactly when their owners have the same UUID. *)
Theorem to_display_user_identifies_owner ST (r1 r2 : DemographicData) :
  (to_display ST r1 !! "user" = to_display ST r2 !! "user" <->
   uuid (user r1) = uuid (user r2)) /\
  PyRead.read 16 (uuid_hex (uuid (user r1))) = Some (uuid_int (uuid (user r1))) /\
  PyRead.all_chars PyRead.is_hex_digit (uuid_hex (uuid (user r1))) = true /\
  ((uuid_int (uuid (user r1)) < 2 ^ 128)%N ->
   String.length (uuid_hex (uuid (user r1))) = 32).
Proof.
  split; [|split; [apply uuid_hex_read | split; [apply uuid_hex_digits|apply uuid_hex_length]]].
  change (to_display ST r1 !! "user") with (Some (PyStr (uuid_hex (uuid (user r1))))).
  change (to_display ST r2 !! "user") with (Some (PyStr (uuid_hex (uuid (user r2))))).
  split; [|by intros ->].
  intros [= Heq]. by apply uuid_hex_inj.
Qed.

Lemma to_display_user_identifies_owner_witness :
  (uuid_int (uuid (user Sample.record)) < 2 ^ 128)%N /\
  String.length (uuid_hex (uuid (user Sample.record))) = 32.
Proof.
  assert (Hu : (uuid_int (uuid (user Sample.record)) < 2 ^ 128)%N) by reflexivity.
  split; [exact Hu|].
  exact (proj2 (proj2 (proj2
    (to_display_user_identifies_owner Sample.states Sample.record Sample.record))) Hu).
Defined.

(** X2: [User.__str__] shows the UUID and nothing else of the user: two
    users print alike exactly when their UUIDs are equal.  The text in the
    brackets is [str(uuid)]: the hex digits of [uuid.hex] with dashes put in,
    36 characters for a 128-bit UUID. *)
Theorem User_str_shows_uuid_only (a b : User) :
  (User_str a = User_str b <-> get_short_name a = get_short_name b) /\
  PyRead.remove_dashes (uuid_str (uuid a)) = uuid_hex (uuid a) /\
  ((uuid_int (uuid a) < 2 ^ 128)%N ->
   String.length (uuid_str (uuid a)) = 36 /\
   String.length (User_str a) = 44 /\
   String.get 8 (uuid_str (uuid a)) = Some "-"%char /\
   String.get 13 (uuid_str (uuid a)) = Some "-"%char /\
   String.get 18 (uuid_str (uuid a)) = Some "-"%char /\
   String.get 23 (uuid_str (uuid a)) = Some "-"%char).
Proof.
  split; [|split; [apply uuid_str_remove_dashes|]].
  - unfold User_str, get_short_name. split; [|by intros ->].
    intros Heq. apply String.app_inj in Heq. apply append_inj_r in Heq.
    by apply uuid_str_inj.
  - intros Hu. pose proof (uuid_hex_length _ Hu) as Hlen.
    split; [by apply uuid_str_length|].
    split; [unfold User_str; rewrite !length_append, uuid_str_length by done; reflexivity|].
    unfold uuid_str. cbv zeta.
    destruct (uuid_hex (uuid a)) as [|c0 [|c1 [|c2 [|c3 [|c4 [|c5 [|c6 [|c7
      [|c8 [|c9 [|c10 [|c11 [|c12 [|c13 [|c14 [|c15 [|c16 [|c17 [|c18 [|c19
      [|c20 h]]]]]]]]]]]]]]]]]]]]]; try discriminate Hlen.
    repeat split; vm_compute; reflexivity.
Qed.

Lemma User_str_shows_uuid_only_witness :
  (uuid_int (uuid Sample.alice) < 2 ^ 128)%N /\
  String.length (User_str Sample.alice) = 44 /\
  User_str Sample.alice = "<User: 12345678-1234-5678-1234-567812345678>".
Proof.
  assert (Hu : (uuid_int (uuid Sample.alice) < 2 ^ 128)%N) by reflexivity.
  split; [exact Hu|]. split; [|reflexivity].
  apply (proj2 (proj2 (User_str_shows_uuid_only Sample.alice Sample.bob)) Hu).
Defined.

Lemma date_isoformat_parts (d : Date) :
  date_in_range d ->
  String.length (PyFormat.format_d 4 (year d)) = 4 /\
  String.length (PyFormat.format_d 2 (month d)) = 2 /\
  String.length (PyFormat.format_d 2 (day d)) = 2.
Proof.
  intros (Hy & Hm & Hd).
  repeat split; apply length_format_d; simpl; lia.
Qed.

Lemma date_isoformat_length (d : Date) :
  date_in_range d -> String.length (date_isoformat d) = 10.
Proof.
  intros Hd. destruct (date_isoformat_parts d Hd) as (Hy & Hm & Hday).
  unfold date_isoformat. rewrite !length_append, Hy, Hm, Hday. reflexivity.
Qed.

Lemma format_d_inj (w : nat) (x y : Z) :
  (0 <= x)%Z -> (0 <= y)%Z -> PyFormat.format_d w x = PyFormat.format_d w y -> x = y.
Proof.
  intros Hx Hy Heq. pose proof (read_format_d w x Hx) as Hr.
  rewrite Heq, (read_format_d w y Hy) in Hr. injection Hr as Hr. lia.
Qed.

Lemma date_isoformat_inj (d1 d2 : Date) :
  date_in_range d1 -> date_in_range d2 ->
  date_isoformat d1 = date_isoformat d2 -> d1 = d2.
Proof.
  intros H1 H2 Heq.
  destruct (date_isoformat_parts d1 H1) as (Hy1 & Hm1 & Hd1).
  destruct (date_isoformat_parts d2 H2) as (Hy2 & Hm2 & Hd2).
  destruct H1 as (? & ? & ?), H2 as (? & ? & ?).
  unfold date_isoformat in Heq.
  apply append_inj_length in Heq as [Hy Heq]; [|congruence].
  apply String.app_inj in Heq.
  apply append_inj_length in Heq as [Hm Heq]; [|congruence].
  apply String.app_inj in Heq.
  apply format_d_inj in Hy, Hm, Heq; try lia.
  destruct d1, d2; simpl in *; congruence.
Qed.

(** X3: a birthday in the range of [datetime.date] is rendered in exactly
    10 characters, and the rendering loses nothing: rows with different
    lists of birthdays have different "child_birthdays" entries. *)
Theorem child_birthdays_rendering_lossless ST (r1 r2 : DemographicData) :
  Forall date_in_range (child_birthdays r1) ->
  Forall date_in_range (child_birthdays r2) ->
  Forall (fun d => String.length (date_isoformat d) = 10) (child_birthdays r1) /\
  (to_display ST r1 !! "child_birthdays" = to_display ST r2 !! "child_birthdays" ->
   child_birthdays r1 = child_birthdays r2).
Proof.
  intros H1 H2. split.
  - eapply Forall_impl; [exact H1|]. apply date_isoformat_length.
  - change (to_display ST r1 !! "child_birthdays") with
      (Some (PyList (map (fun b => PyStr (date_isoformat b)) (child_birthdays r1)))).
    change (to_display ST r2 !! "child_birthdays") with
      (Some (PyList (map (fun b => PyStr (date_isoformat b)) (child_birthdays r2)))).
    intros [= Heq]. revert H1 H2 Heq.
    generalize (child_birthdays r1) (child_birthdays r2).
    induction l as [|d1 l1 IHl]; intros [|d2 l2] H1 H2 Heq; try discriminate; [done|].
    simpl in Heq. injection Heq as Hd Heq.
    apply Forall_cons in H1 as [Hd1 H1]. apply Forall_cons in H2 as [Hd2 H2].
    f_equal; [by apply date_isoformat_inj | by apply IHl].
Qed.

Lemma child_birthdays_rendering_lossless_witness :
  Forall date_in_range (child_birthdays Sample.record) /\
  Forall (fun d => String.length (date_isoformat d) = 10)
         (child_birthdays Sample.record).
Proof.
  assert (H : Forall date_in_range (child_birthdays Sample.record)).
  { repeat constructor; simpl; lia. }
  split; [exact H|].
  exact (proj1 (child_birthdays_rendering_lossless Sample.states
                  Sample.record Sample.record H H)).
Defined.

(** ** The identicon colours *)

Local Open Scope list_scope.

Lemma length_flat_map_uniform {A B} (f : A -> list B) (l : list A) (k : nat) :
  (forall x, x ∈ l -> length (f x) = k) -> length (flat_map f l) = length l * k.
Proof.
  induction l as [|x l IHl]; intros Hk; [done|]. simpl.
  rewrite length_app, Hk by (by left). rewrite IHl; [lia|].
  intros y Hy. apply Hk. by right.
Qed.

Lemma lookup_flat_map_uniform {A B} (f : A -> list B) (l : list A) (k i j : nat) x :
  (forall y, y ∈ l -> length (f y) = k) ->
  l !! i = Some x -> j < k ->
  flat_map f l !! (i * k + j) = f x !! j.
Proof.
  revert i. induction l as [|y l IHl]; intros i Hk Hi Hj; [done|].
  simpl. destruct i as [|i]; simpl in Hi.
  - injection Hi as ->. rewrite lookup_app_l; [done|]. rewrite Hk by (by left). lia.
  - rewrite lookup_app_r by (rewrite Hk by (by left); lia).
    rewrite Hk by (by left).
    replace (S i * k + j - k) with (i * k + j) by lia.
    apply IHl; [|done..]. intros z Hz. apply Hk. by right.
Qed.

Lemma py_range_0_255_10 :
  py_range 0 255 10 = map (fun t => (10 * Z.of_nat t)%Z) (seq 0 26).
Proof. reflexivity. Qed.

Lemma py_range_lookup (t : nat) :
  t < 26 -> py_range 0 255 10 !! t = Some (10 * Z.of_nat t)%Z.
Proof.
  intros Ht. rewrite py_range_0_255_10.
  change (map ?f ?l) with (f <$> l).
  rewrite list_lookup_fmap, lookup_seq_lt by done. done.
Qed.

Lemma py_range_length : length (py_range 0 255 10) = 26.
Proof. reflexivity. Qed.

(** The colour at each position of the rainbow. *)
Lemma rainbow_lookup (a b c : nat) :
  a < 26 -> b < 26 -> c < 26 ->
  _make_rainbow !! (a * 676 + b * 26 + c) =
    Some (rgb (10 * Z.of_nat a) (10 * Z.of_nat b) (10 * Z.of_nat c)).
Proof.
  intros Ha Hb Hc. unfold _make_rainbow.
  assert (Hinner : forall i j, length (map (fun k => rgb i j k) (py_range 0 255 10)) = 26).
  { intros i j. by rewrite length_map. }
  assert (Hmid : forall i, length (flat_map (fun j =>
      map (fun k => rgb i j k) (py_range 0 255 10)) (py_range 0 255 10)) = 676).
  { intros i. rewrite (length_flat_map_uniform _ _ 26); [done|]. intros; apply Hinner. }
  rewrite <- Nat.add_assoc.
  rewrite (lookup_flat_map_uniform _ _ 676 a (b * 26 + c) (10 * Z.of_nat a)%Z);
    [| intros; apply Hmid | by apply py_range_lookup | lia].
  rewrite (lookup_flat_map_uniform _ _ 26 b c (10 * Z.of_nat b)%Z);
    [| intros; apply Hinner | by apply py_range_lookup | lia].
  change (map ?f ?l) with (f <$> l).
  by rewrite list_lookup_fmap, py_range_lookup.
Qed.

Lemma rainbow_length : length _make_rainbow = 26 * 26 * 26.
Proof.
  unfold _make_rainbow.
  rewrite (length_flat_map_uniform _ _ 676); [done|]. intros i _.
  rewrite (length_flat_map_uniform _ _ 26); [done|]. intros j _.
  by rewrite length_map.
Qed.

Local Open Scope string_scope.

(** Two texts that agree up to a separator neither holds before it. *)
Lemma split_at_separator (p : ascii -> bool) (sep : ascii) (a a' r r' : string) :
  p sep = false ->
  PyRead.all_chars p a = true -> PyRead.all_chars p a' = true ->
  a ++ String sep r = a' ++ String sep r' -> a = a' /\ r = r'.
Proof.
  intros Hsep. revert a'.
  induction a as [|c a IHa]; intros [|c' a'] Ha Ha' Heq;
    rewrite ?append_cons in Heq; cbn in Ha, Ha'.
  - by injection Heq as ->.
  - injection Heq as <- _. apply andb_true_iff in Ha' as [Hc _]. congruence.
  - injection Heq as -> _. apply andb_true_iff in Ha as [Hc _]. congruence.
  - injection Heq as -> Heq.
    apply andb_true_iff in Ha as [_ Ha]. apply andb_true_iff in Ha' as [_ Ha'].
    destruct (IHa a' Ha Ha' Heq) as [-> ->]. done.
Qed.

Lemma py_str_int_digits (z : Z) :
  (0 <= z)%Z -> PyRead.all_chars PyRead.is_hex_digit (py_str_int z) = true.
Proof.
  intros Hz. eapply read_from_hex_digits. exact (read_format_d 0 z Hz).
Qed.

Lemma rgb_inj (i j k i' j' k' : Z) :
  (0 <= i)%Z -> (0 <= j)%Z -> (0 <= k)%Z ->
  (0 <= i')%Z -> (0 <= j')%Z -> (0 <= k')%Z ->
  rgb i j k = rgb i' j' k' -> i = i' /\ j = j' /\ k = k'.
Proof.
  intros Hi Hj Hk Hi' Hj' Hk' Heq. unfold rgb in Heq.
  apply String.app_inj in Heq.
  apply (split_at_separator PyRead.is_hex_digit) in Heq as [Hii Heq];
    [|done|by apply py_str_int_digits..].
  apply (split_at_separator PyRead.is_hex_digit) in Heq as [Hjj Heq];
    [|done|by apply py_str_int_digits..].
  apply append_inj_r in Heq.
  unfold py_str_int in *. apply format_d_inj in Hii, Hjj, Heq; done.
Qed.

Local Open Scope list_scope.

Lemma rainbow_elem (s : string) :
  s ∈ _make_rainbow <->
  exists a b c, a < 26 /\ b < 26 /\ c < 26 /\
    s = rgb (10 * Z.of_nat a) (10 * Z.of_nat b) (10 * Z.of_nat c).
Proof.
  split.
  - intros [n Hn]%list_elem_of_lookup_1.
    pose proof (lookup_lt_Some _ _ _ Hn) as Hlt. rewrite rainbow_length in Hlt.
    exists (n / 676), (n / 26 mod 26), (n mod 26).
    assert (n / 676 < 26) by (apply Nat.Div0.div_lt_upper_bound; lia).
    assert (n / 26 mod 26 < 26) by (apply Nat.mod_upper_bound; lia).
    assert (n mod 26 < 26) by (apply Nat.mod_upper_bound; lia).
    repeat split; try done.
    assert (n = n / 676 * 676 + n / 26 mod 26 * 26 + n mod 26) as Hdecomp.
    { pose proof (Nat.div_mod_eq n 26). pose proof (Nat.div_mod_eq (n / 26) 26).
      rewrite Nat.Div0.div_div in *. simpl (26 * 26) in *. lia. }
    rewrite Hdecomp, rainbow_lookup in Hn by done. by apply (inj Some) in Hn.
  - intros (a & b & c & Ha & Hb & Hc & ->).
    eapply list_elem_of_lookup_2, rainbow_lookup; done.
Qed.

Lemma rainbow_NoDup : NoDup _make_rainbow.
Proof.
  apply NoDup_alt. intros n m s Hn Hm.
  pose proof (lookup_lt_Some _ _ _ Hn) as Hnlt. rewrite rainbow_length in Hnlt.
  pose proof (lookup_lt_Some _ _ _ Hm) as Hmlt. rewrite rainbow_length in Hmlt.
  assert (Hdecomp : forall n, n = n / 676 * 676 + n / 26 mod 26 * 26 + n mod 26).
  { intros k. pose proof (Nat.div_mod_eq k 26). pose proof (Nat.div_mod_eq (k / 26) 26).
    rewrite Nat.Div0.div_div in *. simpl (26 * 26) in *. lia. }
  assert (Hbounds : forall n, n < 26 * 26 * 26 ->
            n / 676 < 26 /\ n / 26 mod 26 < 26 /\ n mod 26 < 26).
  { intros k Hk. split; [apply Nat.Div0.div_lt_upper_bound; lia|].
    split; apply Nat.mod_upper_bound; lia. }
  destruct (Hbounds n Hnlt) as (? & ? & ?), (Hbounds m Hmlt) as (? & ? & ?).
  rewrite (Hdecomp n), rainbow_lookup in Hn by done.
  rewrite (Hdecomp m), rainbow_lookup in Hm by done.
  pose proof (eq_trans Hn (eq_sym Hm)) as Heq. apply (inj Some) in Heq.
  apply rgb_inj in Heq as (Ha & Hb & Hc); try lia.
  rewrite (Hdecomp n), (Hdecomp m). lia.
Qed.

(** X4: [_make_rainbow] returns 26 x 26 x 26 colours, none twice: exactly
    the texts [rgb(i,j,k)] whose three components are multiples of 10 from
    0 to 250, from "rgb(0,0,0)" to "rgb(250,250,250)"; so a component of 255,
    as in white, never occurs. *)
Theorem make_rainbow_colours :
  length _make_rainbow = 26 * 26 * 26 /\
  NoDup _make_rainbow /\
  (forall s, s ∈ _make_rainbow <->
     exists a b c, a < 26 /\ b < 26 /\ c < 26 /\
       s = rgb (10 * Z.of_nat a) (10 * Z.of_nat b) (10 * Z.of_nat c)) /\
  head _make_rainbow = Some "rgb(0,0,0)"%string /\
  last _make_rainbow = Some "rgb(250,250,250)"%string /\
  ("rgb(255,255,255)"%string ∉ _make_rainbow).
Proof.
  split; [apply rainbow_length|]. split; [apply rainbow_NoDup|].
  split; [apply rainbow_elem|]. split; [|split].
  - rewrite head_lookup. exact (rainbow_lookup 0 0 0 ltac:(lia) ltac:(lia) ltac:(lia)).
  - rewrite last_lookup, rainbow_length.
    exact (rainbow_lookup 25 25 25 ltac:(lia) ltac:(lia) ltac:(lia)).
  - intros (a & b & c & Ha & Hb & Hc & Heq)%rainbow_elem.
    change "rgb(255,255,255)"%string with (rgb 255 255 255) in Heq.
    apply rgb_inj in Heq as (Heq & _); lia.
Qed.

Local Open Scope string_scope.

(** ** Organizations *)

Local Open Scope list_scope.

Lemma py_upper_append (a b : string) :
  py_upper (a ++ b)%string = (py_upper a ++ py_upper b)%string.
Proof.
  induction a as [|c a IHa]; [done|]. rewrite append_cons. cbn.
  by rewrite IHa, append_cons.
Qed.

Lemma elem_of_assign_perm perm group obj st x :
  x ∈ group_object_permissions (assign_perm perm group obj st) <->
  x ∈ group_object_permissions st \/ x = (group, perm, org_pk obj).
Proof.
  unfold assign_perm. case_decide as Hin; simpl.
  - split; [by left | by intros [?| ->]].
  - rewrite elem_of_app, list_elem_of_singleton. done.
Qed.

Lemma groups_assign_perm perm group obj st :
  groups (assign_perm perm group obj st) = groups st.
Proof. unfold assign_perm. by case_decide. Qed.

Lemma assign_perm_present perm group obj st :
  (group, perm, org_pk obj) ∈ group_object_permissions st ->
  assign_perm perm group obj st = st.
Proof. intros Hin. unfold assign_perm. by rewrite decide_True. Qed.

Lemma get_or_create_group_present group_name st :
  group_name ∈ groups st -> get_or_create_group group_name st = st.
Proof. intros Hin. unfold get_or_create_group. by rewrite decide_True. Qed.

Lemma elem_of_get_or_create_group group_name st x :
  x ∈ groups (get_or_create_group group_name st) <->
  x ∈ groups st \/ x = group_name.
Proof.
  unfold get_or_create_group. case_decide as Hin; simpl.
  - split; [by left | by intros [?| ->]].
  - by rewrite elem_of_app, list_elem_of_singleton.
Qed.

(** The loop for the "read" group skips every permission: a pair is never
    equal to the text 'can_view'. *)
Lemma assign_group_permissions_read organization group_instance st :
  assign_group_permissions organization "read" group_instance st = st.
Proof. reflexivity. Qed.

Lemma assign_group_permissions_admin organization group_instance st :
  assign_group_permissions organization "admin" group_instance st =
    assign_perm "can_remove" group_instance organization
      (assign_perm "can_create" group_instance organization
         (assign_perm "can_edit" group_instance organization
            (assign_perm "can_view" group_instance organization st))).
Proof. reflexivity. Qed.

Lemma organization_post_save_created slugify organization st :
  organization_post_save slugify organization true st =
    assign_group_permissions organization "admin"
      (org_group_name slugify organization "admin")
      (get_or_create_group (org_group_name slugify organization "admin")
         (get_or_create_group (org_group_name slugify organization "read") st)).
Proof. reflexivity. Qed.

Lemma org_group_names_differ slugify organization :
  org_group_name slugify organization "read" <>
  org_group_name slugify organization "admin".
Proof.
  unfold org_group_name. rewrite !py_upper_append.
  intros Heq. apply String.app_inj in Heq. discriminate Heq.
Qed.

Lemma organization_post_save_permissions slugify organization st g p o :
  (g, p, o) ∈ group_object_permissions
                (organization_post_save slugify organization true st) <->
  (g, p, o) ∈ group_object_permissions st \/
  (g = org_group_name slugify organization "admin" /\
   o = org_pk organization /\ p ∈ Organization_permissions.*1).
Proof.
  rewrite organization_post_save_created, assign_group_permissions_admin.
  rewrite !elem_of_assign_perm.
  assert (Hgoc : forall n st0, group_object_permissions (get_or_create_group n st0) =
                               group_object_permissions st0).
  { intros n st0. unfold get_or_create_group. by case_decide. }
  rewrite !Hgoc. simpl.
  rewrite !elem_of_cons, elem_of_nil.
  split.
  - intros [[[[Hold | Heq] | Heq] | Heq] | Heq]; [by left|..];
      injection Heq as -> -> ->; right; tauto.
  - intros [Hold | (-> & -> & [-> | [-> | [-> | [-> | []]]]])]; tauto.
Qed.

Lemma organization_post_save_group_names slugify organization st g :
  g ∈ groups (organization_post_save slugify organization true st) <->
  g ∈ groups st \/ g = org_group_name slugify organization "read" \/
  g = org_group_name slugify organization "admin".
Proof.
  rewrite organization_post_save_created, assign_group_permissions_admin.
  rewrite !groups_assign_perm, !elem_of_get_or_create_group. tauto.
Qed.

Lemma organization_post_save_again slugify organization st :
  let st' := organization_post_save slugify organization true st in
  organization_post_save slugify organization true st' = st'.
Proof.
  intros st'.
  assert (Hperm : forall p, p ∈ Organization_permissions.*1 ->
    (org_group_name slugify organization "admin", p, org_pk organization)
      ∈ group_object_permissions st').
  { intros p Hp. apply organization_post_save_permissions. right. done. }
  rewrite organization_post_save_created, assign_group_permissions_admin.
  rewrite (get_or_create_group_present (org_group_name slugify organization "read") st')
    by (apply organization_post_save_group_names; tauto).
  rewrite (get_or_create_group_present (org_group_name slugify organization "admin") st')
    by (apply organization_post_save_group_names; tauto).
  rewrite (assign_perm_present "can_view" _ organization st')
    by (apply Hperm; simpl; rewrite !elem_of_cons; tauto).
  rewrite (assign_perm_present "can_edit" _ organization st')
    by (apply Hperm; simpl; rewrite !elem_of_cons; tauto).
  rewrite (assign_perm_present "can_create" _ organization st')
    by (apply Hperm; simpl; rewrite !elem_of_cons; tauto).
  rewrite (assign_perm_present "can_remove" _ organization st')
    by (apply Hperm; simpl; rewrite !elem_of_cons; tauto).
  done.
Qed.

(** X5: when an organization is created, [organization_post_save] makes
    sure the two groups named SLUG-ORG_READ and SLUG-ORG_ADMIN exist and gives
    the admin group the four object permissions on the organization; the
    read group is given none, not even 'can_view', because the loop compares
    each permission pair with the text 'can_view'.  Saving an existing
    organization changes nothing, and running the receiver again changes
    nothing more. *)
Theorem organization_post_save_grants slugify organization st :
  let read := org_group_name slugify organization "read" in
  let admin := org_group_name slugify organization "admin" in
  let st' := organization_post_save slugify organization true st in
  organization_post_save slugify organization false st = st /\
  read = (py_upper (slugify (name organization)) ++ "-ORG_READ")%string /\
  admin = (py_upper (slugify (name organization)) ++ "-ORG_ADMIN")%string /\
  read <> admin /\
  (forall g, g ∈ groups st' <-> g ∈ groups st \/ g = read \/ g = admin) /\
  (forall g p o,
      (g, p, o) ∈ group_object_permissions st' <->
      (g, p, o) ∈ group_object_permissions st \/
      (g = admin /\ o = org_pk organization /\
       p ∈ ["can_view"; "can_edit"; "can_create"; "can_remove"]%string)) /\
  (forall p, (read, p, org_pk organization) ∈ group_object_permissions st' ->
             (read, p, org_pk organization) ∈ group_object_permissions st) /\
  organization_post_save slugify organization true st' = st'.
Proof.
  intros read admin st'.
  split; [reflexivity|].
  split; [unfold read, org_group_name; by rewrite py_upper_append|].
  split; [unfold admin, org_group_name; by rewrite py_upper_append|].
  split; [apply org_group_names_differ|].
  split; [apply organization_post_save_group_names|].
  split; [apply organization_post_save_permissions|].
  split; [|apply organization_post_save_again].
  intros p [Hold | (Heq & _)]%organization_post_save_permissions; [done|].
  by destruct (org_group_names_differ slugify organization).
Qed.

Lemma organization_post_save_grants_witness :
  ("LAB-ORG_READ"%string, "can_view"%string, 5) ∈
    group_object_permissions
      (organization_post_save sample_slugify sample_org true sample_auth) /\
  ("LAB-ORG_READ"%string, "can_view"%string, 5) ∈
    group_object_permissions sample_auth.
Proof.
  assert (H : ("LAB-ORG_READ"%string, "can_view"%string, 5) ∈
    group_object_permissions
      (organization_post_save sample_slugify sample_org true sample_auth)).
  { vm_compute. left. }
  split; [exact H|].
  exact (proj1 (proj2 (proj2 (proj2 (proj2 (proj2 (proj2
    (organization_post_save_grants sample_slugify sample_org sample_auth)))))))
    "can_view"%string H).
Defined.

(** ** Accounts *)

Local Open Scope list_scope.

Lemma username_taken_true (name : string) (self_id : option nat) (db : Accounts.Table) :
  Accounts.username_taken name self_id db = true <->
  exists r, r ∈ db /\ Accounts.username r = name /\ Accounts.same_row self_id r = false.
Proof.
  unfold Accounts.username_taken. rewrite existsb_exists. split.
  - intros (r & Hin & [Hname Hid]%andb_true_iff). exists r.
    apply list_elem_of_In in Hin. apply String.eqb_eq in Hname.
    by apply negb_true_iff in Hid.
  - intros (r & Hin & Hname & Hid). exists r. split; [by apply list_elem_of_In|].
    apply andb_true_iff. split; [by apply String.eqb_eq|].
    by apply negb_true_iff.
Qed.

Lemma username_taken_false (name : string) (self_id : option nat) (db : Accounts.Table) :
  Accounts.username_taken name self_id db = false <->
  forall r, r ∈ db -> Accounts.username r = name -> Accounts.same_row self_id r = true.
Proof.
  rewrite <- not_true_iff_false, username_taken_true. split.
  - intros Hno r Hin Hname.
    destruct (Accounts.same_row self_id r) eqn:Hsame; [done|].
    destruct Hno. by exists r.
  - intros Hall (r & Hin & Hname & Hid). rewrite (Hall r Hin Hname) in Hid. done.
Qed.

Lemma foldr_max_ge (l : list nat) (x : nat) : x ∈ l -> x <= foldr Nat.max 0 l.
Proof.
  induction l as [|y l IHl]; intros Hx; [by apply elem_of_nil in Hx|].
  apply elem_of_cons in Hx as [->|Hx]; simpl; [lia|]. specialize (IHl Hx). lia.
Qed.

(** The key of the next row is the key of no stored row. *)
Lemma next_id_fresh (db : Accounts.Table) (r : Accounts.UserRow) :
  r ∈ db -> Accounts.id r <> Some (Accounts.next_id db).
Proof.
  intros Hin Hid. unfold Accounts.next_id in Hid.
  assert (Accounts.next_id db ∈ omap Accounts.id db) as Hmem.
  { apply list_elem_of_omap. exists r. split; [done|]. by rewrite Hid. }
  apply foldr_max_ge in Hmem. unfold Accounts.next_id in Hmem. lia.
Qed.

Section ManagerFacts.

Variable normalize_email : string -> string.
Variable make_password : option string -> string.

Abbreviation create_user := (Accounts.create_user normalize_email make_password).
Abbreviation create_superuser := (Accounts.create_superuser normalize_email make_password).

Lemma create_user_named fresh (n : string) raw (db : Accounts.Table) :
  n <> EmptyString ->
  create_user fresh (Some n) raw db =
    Accounts.save
      (Accounts.set_password make_password raw
         (Accounts.new_user fresh (normalize_email n))) db.
Proof. intros Hn. by destruct n. Qed.

Lemma create_user_cases fresh (n : string) raw (db : Accounts.Table) :
  n <> EmptyString ->
  ((exists r, r ∈ db /\ Accounts.username r = normalize_email n) /\
   create_user fresh (Some n) raw db = Accounts.Err Accounts.IntegrityError) \/
  ((forall r, r ∈ db -> Accounts.username r <> normalize_email n) /\
   exists u,
     create_user fresh (Some n) raw db = Accounts.Ok (u, db ++ [u]) /\
     u = Accounts.with_id (Accounts.next_id db)
           (Accounts.set_password make_password raw
              (Accounts.new_user fresh (normalize_email n)))).
Proof.
  intros Hn. rewrite create_user_named by done. unfold Accounts.save. simpl.
  destruct (Accounts.username_taken (normalize_email n) None db) eqn:Htaken.
  - left. split; [|done].
    apply username_taken_true in Htaken as (r & Hin & Hname & _). by exists r.
  - right. split; [|by eexists].
    intros r Hin Hname.
    by pose proof (proj1 (username_taken_false _ _ _) Htaken r Hin Hname).
Qed.

Lemma same_row_fresh (db : Accounts.Table) (r : Accounts.UserRow) :
  r ∈ db -> Accounts.same_row (Some (Accounts.next_id db)) r = false.
Proof.
  intros Hin. apply bool_decide_eq_false. by apply next_id_fresh.
Qed.

(** Saving again the row that was just inserted replaces that row and no
    other. *)
Lemma save_again (db : Accounts.Table) (u v : Accounts.UserRow) :
  Accounts.id u = Some (Accounts.next_id db) ->
  Accounts.id v = Accounts.id u -> Accounts.username v = Accounts.username u ->
  (forall r, r ∈ db -> Accounts.username r <> Accounts.username u) ->
  Accounts.save v (db ++ [u]) = Accounts.Ok (v, db ++ [v]).
Proof.
  intros Hid Hv Hname Hfree. unfold Accounts.save.
  assert (Accounts.username_taken (Accounts.username v) (Accounts.id v) (db ++ [u])
          = false) as ->.
  { apply username_taken_false. intros r [Hr | ->%list_elem_of_singleton]%elem_of_app Hn.
    - destruct (Hfree r Hr). congruence.
    - rewrite Hv, Hid. by apply bool_decide_eq_true. }
  rewrite Hv, Hid.
  assert (Accounts.same_row (Some (Accounts.next_id db)) u = true) as Hu
    by (by apply bool_decide_eq_true).
  assert (Hdb : forall l, (forall x, x ∈ l ->
      Accounts.same_row (Some (Accounts.next_id db)) x = false) ->
      map (fun r => if Accounts.same_row (Some (Accounts.next_id db)) r
                    then v else r) l = l).
  { induction l as [|x l IHl]; intros Hl; [done|]. cbn [map].
    rewrite (Hl x) by (by left). f_equal. apply IHl. intros y Hy. apply Hl. by right. }
  rewrite existsb_app, map_app. cbn [existsb map].
  rewrite Hu, orb_true_l, orb_true_r. cbn iota.
  rewrite Hdb; [done|]. intros x Hx. by apply same_row_fresh.
Qed.

Lemma create_superuser_cases fresh (name : option string) raw (db : Accounts.Table) :
  match create_user fresh name (Some raw) db with
  | Accounts.Err e => create_superuser fresh name raw db = Accounts.Err e
  | Accounts.Ok (u, _) =>
      create_superuser fresh name raw db =
        Accounts.Ok (Accounts.make_superuser u, db ++ [Accounts.make_superuser u])
  end.
Proof.
  unfold Accounts.create_superuser.
  destruct name as [n|]; [|done].
  destruct (decide (n = EmptyString)) as [->|Hn]; [done|].
  destruct (create_user_cases fresh n (Some raw) db Hn)
    as [[_ ->] | [Hfree (u & -> & Hu)]]; [done|].
  apply save_again; [by rewrite Hu | done | done |].
  intros r Hr. rewrite Hu. simpl. by apply Hfree.
Qed.

End ManagerFacts.

Section AccountTheorems.

Variable normalize_email : string -> string.
Variable make_password : option string -> string.

(** X6: [create_user] refuses a missing or empty username with
    [ValueError]; otherwise it stores exactly one new row, under a key no
    stored row has, with the normalized address as username, the hashed
    password, active, neither staff nor superuser; and it fails with
    [IntegrityError] exactly when a stored row already has that normalized
    address. *)
Theorem create_user_checks_username fresh raw (db : Accounts.Table) :
  Accounts.create_user normalize_email make_password fresh None raw db =
    Accounts.Err (Accounts.ValueError "Users must have a username") /\
  Accounts.create_user normalize_email make_password fresh (Some EmptyString) raw db =
    Accounts.Err (Accounts.ValueError "Users must have a username") /\
  forall n : string, n <> EmptyString ->
    ((exists r, r ∈ db /\ Accounts.username r = normalize_email n) ->
     Accounts.create_user normalize_email make_password fresh (Some n) raw db =
       Accounts.Err Accounts.IntegrityError) /\
    ((forall r, r ∈ db -> Accounts.username r <> normalize_email n) ->
     exists u,
       Accounts.create_user normalize_email make_password fresh (Some n) raw db =
         Accounts.Ok (u, db ++ [u]) /\
       Accounts.id u = Some (Accounts.next_id db) /\
       (forall r, r ∈ db -> Accounts.id r <> Accounts.id u) /\
       Accounts.username u = normalize_email n /\
       Accounts.password u = make_password raw /\
       Accounts.uuid u = fresh /\
       Accounts.is_active u = true /\
       Accounts.is_staff u = false /\
       Accounts.is_superuser u = false).
Proof.
  split; [reflexivity|]. split; [reflexivity|].
  intros n Hn.
  destruct (create_user_cases normalize_email make_password fresh n raw db Hn)
    as [[(r & Hr & Hname) Herr] | [Hfree (u & Hok & Hu)]].
  - split; [done|]. intros Hfree. by destruct (Hfree r Hr).
  - split; [intros (r & Hr & Hname); by destruct (Hfree r Hr)|].
    intros _. exists u. split; [done|]. subst u. simpl.
    repeat split; try done. intros r Hr. by apply next_id_fresh.
Qed.

(** X7: [create_superuser] fails exactly as [create_user] does; when
    [create_user] succeeds, the second [save] rewrites the row just inserted,
    so the table gains one row, not two, and that row is a superuser, staff
    and active, with the key, username, password and UUID [create_user] gave
    it. *)
Theorem create_superuser_one_row fresh name raw (db : Accounts.Table) :
  (forall e,
      Accounts.create_user normalize_email make_password fresh name (Some raw) db =
        Accounts.Err e ->
      Accounts.create_superuser normalize_email make_password fresh name raw db =
        Accounts.Err e) /\
  (forall u db',
      Accounts.create_user normalize_email make_password fresh name (Some raw) db =
        Accounts.Ok (u, db') ->
      exists su,
        Accounts.create_superuser normalize_email make_password fresh name raw db =
          Accounts.Ok (su, db ++ [su]) /\
        length (db ++ [su]) = S (length db) /\
        Accounts.is_superuser su = true /\
        Accounts.is_staff su = true /\
        Accounts.is_active su = true /\
        Accounts.id su = Accounts.id u /\
        Accounts.username su = Accounts.username u /\
        Accounts.password su = Accounts.password u /\
        Accounts.uuid su = Accounts.uuid u).
Proof.
  pose proof (create_superuser_cases normalize_email make_password fresh name raw db)
    as Hcases.
  split.
  - intros e He. by rewrite He in Hcases.
  - intros u db' Hok. rewrite Hok in Hcases.
    exists (Accounts.make_superuser u). split; [done|].
    split; [rewrite length_app; simpl; lia|]. by repeat split.
Qed.

End AccountTheorems.

Lemma create_user_checks_username_witness :
  "alice@example.org"%string <> EmptyString /\
  (forall r, r ∈ sample_table ->
             Accounts.username r <> sample_normalize_email "alice@example.org") /\
  exists u,
    Accounts.create_user sample_normalize_email sample_make_password
      (mkUUID 7) (Some "alice@example.org"%string) None sample_table =
      Accounts.Ok (u, sample_table ++ [u]) /\
    Accounts.id u = Some 2.
Proof.
  assert (Hn : "alice@example.org"%string <> EmptyString) by discriminate.
  assert (Hfree : forall r, r ∈ sample_table ->
             Accounts.username r <> sample_normalize_email "alice@example.org").
  { intros r ->%list_elem_of_singleton. discriminate. }
  split; [exact Hn|]. split; [exact Hfree|].
  destruct (proj2 (proj2 (proj2 (create_user_checks_username sample_normalize_email sample_make_password
              (mkUUID 7) None sample_table))
              "alice@example.org"%string Hn) Hfree) as (u & Hok & Hid & _).
  exists u. split; [exact Hok | exact Hid].
Defined.

Lemma create_superuser_one_row_witness :
  exists u su,
    Accounts.create_user sample_normalize_email sample_make_password
      (mkUUID 7) (Some "alice@example.org"%string) (Some "secret"%string) sample_table =
      Accounts.Ok (u, sample_table ++ [u]) /\
    Accounts.create_superuser sample_normalize_email sample_make_password
      (mkUUID 7) (Some "alice@example.org"%string) "secret" sample_table =
      Accounts.Ok (su, sample_table ++ [su]) /\
    Accounts.is_superuser su = true.
Proof.
  eexists. 
  destruct (proj2 (create_superuser_one_row sample_normalize_email sample_make_password (mkUUID 7)
              (Some "alice@example.org"%string) "secret"%string sample_table)
              _ _ eq_refl) as (su & Hsu & _ & Hflag & _).
  exists su. split; [reflexivity|]. split; [exact Hsu | exact Hflag].
Defined.


Lemma save_keeps_columns (self self' : Accounts.UserRow) (db db' : Accounts.Table) :
  Accounts.save self db = Accounts.Ok (self', db') ->
  Accounts._identicon self' = Accounts._identicon self /\
  Accounts.uuid self' = Accounts.uuid self /\
  Accounts.username self' = Accounts.username self /\
  is_Some (Accounts.id self') /\ self' ∈ db'.
Proof.
  unfold Accounts.save.
  destruct (Accounts.username_taken _ _ _); [discriminate|].
  destruct (Accounts.id self) as [i|] eqn:Hid.
  - destruct (existsb (Accounts.same_row (Some i)) db) eqn:Hex;
      intros [= <- <-]; (repeat split; [by rewrite Hid|]).
    + apply existsb_exists in Hex as (r & Hr & Hsame).
      apply list_elem_of_In in Hr.
      change (map ?f ?l) with (f <$> l). apply list_elem_of_fmap.
      exists r. split; [|done].
      change (bool_decide (Accounts.id r = Some i)) with (Accounts.same_row (Some i) r).
      by rewrite Hsame.
    + apply elem_of_app. right. by left.
  - intros [= <- <-]. repeat split; [by eexists|].
    apply elem_of_app. right. by left.
Qed.

(** X8: [identicon] returns what the instance holds once the access is
    over, never the empty text.  An instance without identicon gets
    "data:image/png;base64," followed by the image drawn from the rainbow
    and the dashed UUID text, and is saved; an instance that has one is
    returned as it is, with no write.  So a second access returns the same
    value and writes nothing. *)
Theorem identicon_generated_once (png : list string -> string -> string)
    (self self' : Accounts.UserRow) (db db' : Accounts.Table) (value : string) :
  Accounts.identicon png self db = Accounts.Ok (value, self', db') ->
  value = Accounts._identicon self' /\
  value <> EmptyString /\
  (Accounts._identicon self = EmptyString ->
   value = ("data:image/png;base64," ++
            png _make_rainbow (uuid_str (Accounts.uuid self)))%string /\
   Accounts.save
     (Accounts.with_identicon value self) db = Accounts.Ok (self', db')) /\
  (Accounts._identicon self <> EmptyString ->
   value = Accounts._identicon self /\ self' = self /\ db' = db) /\
  Accounts.identicon png self' db' = Accounts.Ok (value, self', db').
Proof.
  unfold Accounts.identicon at 1.
  destruct (Accounts._identicon self) as [|c data] eqn:Hcached.
  - destruct (Accounts.save _ db) as [[u t]|e] eqn:Hsave; [|discriminate].
    intros [= <- <- <-].
    destruct (save_keeps_columns _ _ _ _ Hsave) as (Hicon & _).
    simpl in Hicon.
    split; [done|]. split; [by rewrite Hicon|].
    split; [intros _; split; [done | by rewrite Hicon]|].
    split; [done|].
    unfold Accounts.identicon. by rewrite Hicon.
  - intros [= <- <- <-].
    split; [done|]. split; [done|]. split; [done|]. split; [done|].
    unfold Accounts.identicon. by rewrite Hcached.
Qed.

Lemma identicon_generated_once_witness :
  exists value self' db',
    Accounts.identicon sample_identicon_png sample_row sample_table =
      Accounts.Ok (value, self', db') /\
    value = "data:image/png;base64,00000000-0000-0000-0000-0000000000ff"%string /\
    Accounts.identicon sample_identicon_png self' db' =
      Accounts.Ok (value, self', db').
Proof.
  eexists. eexists. eexists.
  assert (H : Accounts.identicon sample_identicon_png sample_row sample_table =
    Accounts.Ok ("data:image/png;base64,00000000-0000-0000-0000-0000000000ff"%string,
                 Accounts.with_identicon
                   "data:image/png;base64,00000000-0000-0000-0000-0000000000ff"
                   sample_row,
                 [Accounts.with_identicon
                   "data:image/png;base64,00000000-0000-0000-0000-0000000000ff"
                   sample_row])) by reflexivity.
  split; [exact H|]. split; [reflexivity|].
  exact (proj2 (proj2 (proj2 (proj2
    (identicon_generated_once sample_identicon_png _ _ _ _ _ H))))).
Defined.

(** ** Columns, keys and timestamps *)

Local Open Scope list_scope.

(** X9: every code of every catalog fits the [max_length] of its column,
    and each column is exactly as wide as its longest code; the [gender]
    column of [Profile] in migration 0009 has the choices of
    [DemographicData.GENDER_CHOICES] and the same width. *)
Theorem catalog_codes_fit_columns :
  Forall (fun f =>
            Forall (fun code => String.length code <= max_length f) (codes (catalog f)) /\
            Exists (fun code => String.length code = max_length f) (codes (catalog f)))
         coded_fields /\
  (forall f, f ∈ coded_fields) /\
  Profile_gender_choices = GENDER_CHOICES /\
  Profile_gender_max_length = max_length Gender.
Proof.
  split; [|split; [|split; reflexivity]].
  - apply Forall_forall. intros f _. destruct f; split; compute_done.
  - intros f. destruct f; compute_done.
Qed.

Lemma labels_NoDup (f : CodedField) : NoDup (labels (catalog f)).
Proof. destruct f; compute_done. Qed.

Lemma pair_of_label {A B} (l : list (A * B)) (a b : A) (x : B) :
  NoDup l.*2 -> (a, x) ∈ l -> (b, x) ∈ l -> a = b.
Proof.
  induction l as [|[a' x'] l IHl]; intros Hnd Ha Hb; [by apply elem_of_nil in Ha|].
  rewrite fmap_cons in Hnd. apply NoDup_cons in Hnd as [Hx' Hnd].
  apply elem_of_cons in Ha as [Ha|Ha], Hb as [Hb|Hb].
  - congruence.
  - injection Ha as -> ->. destruct Hx'.
    apply list_elem_of_fmap. by exists (b, x').
  - injection Hb as -> ->. destruct Hx'.
    apply list_elem_of_fmap. by exists (a, x').
  - by apply IHl.
Qed.

(** X10: within a catalog no two codes share a label, so the label shown
    for a listed code tells which code is stored.  The fallback for unlisted
    codes breaks this: the unlisted gender code "male" is shown like "m". *)
Theorem display_identifies_listed_code (f : CodedField) (c1 c2 : string) :
  NoDup (labels (catalog f)) /\
  (c1 ∈ codes (catalog f) -> c2 ∈ codes (catalog f) ->
   get_FIELD_display (catalog f) c1 = get_FIELD_display (catalog f) c2 ->
   c1 = c2) /\
  ("male"%string ∉ codes GENDER_CHOICES) /\
  get_FIELD_display GENDER_CHOICES "male" = get_FIELD_display GENDER_CHOICES "m".
Proof.
  split; [apply labels_NoDup|]. split; [|split; [compute_done | reflexivity]].
  intros H1 H2 Heq.
  destruct (get_FIELD_display_cases (catalog f) c1) as [(l1 & Hl1 & E1) | [Hno _]];
    [|done].
  destruct (get_FIELD_display_cases (catalog f) c2) as [(l2 & Hl2 & E2) | [Hno _]];
    [|done].
  rewrite E1, E2 in Heq. subst l2.
  exact (pair_of_label _ _ _ _ (labels_NoDup f) Hl1 Hl2).
Qed.

Lemma display_identifies_listed_code_witness :
  "m"%string ∈ codes (catalog Gender) /\
  get_FIELD_display (catalog Gender) "m" = get_FIELD_display (catalog Gender) "m" /\
  "m"%string = "m"%string.
Proof.
  assert (H : "m"%string ∈ codes (catalog Gender)) by (by left).
  split; [exact H|]. split; [reflexivity|].
  exact (proj1 (proj2 (display_identifies_listed_code Gender "m" "m")) H H eq_refl).
Defined.

Lemma to_display_items_keys ST (r : DemographicData) :
  (to_display_items ST r).*1 = to_display_keys.
Proof. reflexivity. Qed.

(** X11: the dict [to_display] returns has the same 19 keys for every row,
    each with a value, and no other key: the row's primary key and its
    [previous] reference are not in it. *)
Theorem to_display_key_set ST (r : DemographicData) (key : string) :
  (is_Some (to_display ST r !! key) <-> key ∈ to_display_keys) /\
  length to_display_keys = 19 /\ NoDup to_display_keys /\
  to_display ST r !! "previous"%string = None /\
  to_display ST r !! "id"%string = None /\
  to_display ST r !! "pk"%string = None.
Proof.
  split; [|split; [reflexivity | split; [compute_done | by repeat split]]].
  rewrite <- (to_display_items_keys ST r). unfold to_display.
  rewrite <- not_eq_None_Some, dict_of_None. split.
  - intros Hnn. by apply dec_stable.
  - intros Hin Hnot. done.
Qed.

Lemma to_display_key_set_witness :
  "gender"%string ∈ to_display_keys /\
  is_Some (to_display Sample.states Sample.record !! "gender"%string).
Proof.
  assert (H : "gender"%string ∈ to_display_keys) by compute_done.
  split; [exact H|].
  exact (proj2 (proj1 (to_display_key_set Sample.states Sample.record "gender")) H).
Defined.

Local Open Scope string_scope.

Lemma format_time_length (hh mm ss us : Z) :
  (0 <= hh <= 23)%Z -> (0 <= mm <= 59)%Z -> (0 <= ss <= 59)%Z ->
  (0 <= us <= 999999)%Z ->
  String.length (format_time hh mm ss us) =
    (8 + if (us =? 0)%Z then 0 else 7)%nat.
Proof.
  intros Hh Hm Hs Hus. unfold format_time.
  rewrite !length_append, !length_format_d by (simpl; lia).
  destruct (us =? 0)%Z; [reflexivity|].
  rewrite length_append, length_format_d by (simpl; lia). reflexivity.
Qed.

(** X12: the "created_at" entry is [isoformat()] of the timestamp: 19
    characters for date, 'T' and time, 7 more for the microseconds unless
    they are zero, and 6 more for the zone offset of an aware value; so one
    column gives texts of 19, 25, 26 or 32 characters, with 'T' always the
    eleventh. *)
Theorem created_at_text_length ST (r : DemographicData) :
  datetime_in_range (created_at r) ->
  exists text,
    to_display ST r !! "created_at" = Some (PyStr text) /\
    text = datetime_isoformat (created_at r) /\
    String.length text =
      (19 + (if (microsecond (created_at r) =? 0)%Z then 0 else 7) +
       match utcoffset (created_at r) with Some _ => 6 | None => 0 end)%nat /\
    String.get 10 text = Some "T"%char.
Proof.
  intros (Hdate & Hh & Hm & Hs & Hus & Hoff).
  exists (datetime_isoformat (created_at r)).
  split; [reflexivity|]. split; [reflexivity|].
  destruct (date_isoformat_parts _ Hdate) as (Hy & Hmo & Hd).
  pose proof (date_isoformat_length _ Hdate) as Hlen.
  unfold datetime_isoformat. split.
  - rewrite !length_append, Hlen, format_time_length by done.
    destruct (utcoffset (created_at r)) as [off|]; [|simpl; lia].
    rewrite !length_append.
    rewrite !length_format_d.
    + destruct (off <? 0)%Z, (microsecond (created_at r) =? 0)%Z; reflexivity.
    + lia.
    + split; [apply Z.mod_pos_bound; lia|].
      pose proof (Z.mod_pos_bound (Z.abs off) 60). simpl. lia.
    + lia.
    + split; [apply Z.div_pos; lia|].
      assert (Z.abs off / 60 < 24)%Z by (apply Z.div_lt_upper_bound; lia).
      simpl. lia.
  - generalize (format_time (hour (created_at r)) (minute (created_at r))
                  (second (created_at r)) (microsecond (created_at r)) ++
                match utcoffset (created_at r) with
                | Some off =>
                    (if (off <? 0)%Z then "-" else "+") ++
                    PyFormat.format_d 2 (Z.abs off / 60) ++ ":" ++
                    PyFormat.format_d 2 (Z.abs off mod 60)
                | None => EmptyString
                end).
    intros rest.
    destruct (date_isoformat (dt_date (created_at r)))
      as [|c0 [|c1 [|c2 [|c3 [|c4 [|c5 [|c6 [|c7 [|c8 [|c9 [|c10 d]]]]]]]]]]];
      try discriminate Hlen.
    reflexivity.
Qed.

Lemma created_at_text_length_witness :
  datetime_in_range (created_at Sample.record) /\
  to_display Sample.states Sample.record !! "created_at" =
    Some (PyStr "2017-05-24T14:36:00+00:00").
Proof.
  assert (H : datetime_in_range (created_at Sample.record)).
  { repeat split; simpl; lia. }
  split; [exact H|].
  destruct (created_at_text_length Sample.states Sample.record H)
    as (text & Hshow & -> & _).
  exact Hshow.
Defined.


(** ** The routes *)

Local Open Scope string_scope.
Import Urls.

Lemma run_Seq r1 r2 s g k :
  run (Seq r1 r2) s g k = run r1 s g (fun s' g' => run r2 s' g' k).
Proof. reflexivity. Qed.

Lemma run_Rep_S n r s g k :
  run (Rep (S n) r) s g k = run r s g (fun s' g' => run (Rep n r) s' g' k).
Proof. reflexivity. Qed.

Lemma run_Group name r s g k :
  run (Group name r) s g k =
    run r s g (fun s' g' => k s' ((name, consumed s s') :: g')).
Proof. reflexivity. Qed.

Lemma run_lit_app w rest g k : run (lit w) (w ++ rest) g k = k rest g.
Proof.
  induction w as [|c w IH]; [reflexivity|].
  rewrite append_cons. cbn [lit]. rewrite run_Seq. cbn [run].
  rewrite Ascii.eqb_refl. apply IH.
Qed.

Lemma run_lit_Some w s g k m :
  run (lit w) s g k = Some m -> exists rest, s = w ++ rest /\ k rest g = Some m.
Proof.
  revert s. induction w as [|c w IH]; intros s H.
  - exists s. split; [reflexivity | exact H].
  - cbn [lit] in H. rewrite run_Seq in H. cbn [run] in H.
    destruct s as [|c' s']; [discriminate|].
    destruct (Ascii.eqb_spec c' c) as [->|]; [|discriminate].
    apply IH in H as (rest & -> & H). exists rest.
    by rewrite append_cons.
Qed.

Lemma run_rep_class_app p n a rest g k :
  String.length a = n -> PyRead.all_chars p a = true ->
  run (Rep n (Class p)) (a ++ rest) g k = k rest g.
Proof.
  revert a. induction n as [|n IH]; intros a Hlen Hp.
  - destruct a; [reflexivity | discriminate].
  - destruct a as [|c a]; [discriminate|].
    cbn in Hp. apply andb_true_iff in Hp as [Hc Hp].
    rewrite append_cons, run_Rep_S. cbn [run]. rewrite Hc.
    apply IH; [by injection Hlen | exact Hp].
Qed.

Lemma run_rep_class_Some p n s g k m :
  run (Rep n (Class p)) s g k = Some m ->
  exists a rest, s = a ++ rest /\ String.length a = n /\
    PyRead.all_chars p a = true /\ k rest g = Some m.
Proof.
  revert s. induction n as [|n IH]; intros s H.
  - exists EmptyString, s. by repeat split.
  - rewrite run_Rep_S in H. cbn [run] in H.
    destruct s as [|c s]; [discriminate|].
    destruct (p c) eqn:Hc; [|discriminate].
    apply IH in H as (a & rest & -> & Hlen & Hp & H).
    exists (String c a), rest. rewrite append_cons. cbn.
    rewrite Hc, Hp, Hlen. by repeat split.
Qed.

Lemma run_Chr_Some c s g k m :
  run (Chr c) s g k = Some m -> exists rest, s = String c rest /\ k rest g = Some m.
Proof.
  cbn [run]. destruct s as [|c' s]; [discriminate|].
  destruct (Ascii.eqb_spec c' c) as [->|]; [|discriminate]. eauto.
Qed.

Lemma run_Class_Some p s g k m :
  run (Class p) s g k = Some m ->
  exists c rest, s = String c rest /\ p c = true /\ k rest g = Some m.
Proof.
  cbn [run]. destruct s as [|c' s]; [discriminate|].
  destruct (p c') eqn:Hc; [|discriminate]. eauto.
Qed.

Lemma run_Dollar_Some s g k m :
  run Dollar s g k = Some m -> (s = EmptyString \/ s = newline) /\ k s g = Some m.
Proof.
  cbn [run]. destruct s as [|c [|c' s]]; [auto | | discriminate].
  destruct (Ascii.eqb_spec c "010"%char) as [->|]; [|discriminate]. auto.
Qed.

Lemma consumed_append (a rest : string) : consumed (a ++ rest) rest = a.
Proof.
  unfold consumed. rewrite length_append.
  replace (String.length a + String.length rest - String.length rest)
    with (String.length a) by lia.
  apply substring_append_l.
Qed.

(** X13: a route written [^word/?$] matches exactly four paths: the word,
    the word with one trailing slash, and either of them followed by one
    line feed, which [$] lets through and hands on as the unmatched rest.
    It captures no group. *)
Theorem optional_slash_paths (word path : string) (g : Groups) (rest : string) :
  search (optional_slash word) path = Some (g, rest) <->
  g = [] /\ (rest = EmptyString \/ rest = newline) /\
  (path = word ++ rest \/ path = word ++ "/" ++ rest).
Proof.
  unfold search, optional_slash. rewrite run_Seq. split.
  - intros H. apply run_lit_Some in H as (r1 & -> & H).
    rewrite run_Seq in H. cbn [run] in H.
    destruct r1 as [|c r1].
    + injection H as <- <-. rewrite append_nil_r. auto.
    + destruct (Ascii.eqb_spec c "/"%char) as [->|Hc].
      * destruct r1 as [|c1 r1]; [|destruct r1 as [|c2 r1]]; cbn in H.
        -- injection H as <- <-. auto.
        -- destruct (Ascii.eqb_spec c1 "010"%char) as [Heq|]; [subst c1|discriminate].
           injection H as <- <-. unfold newline. auto.
        -- discriminate.
      * destruct r1 as [|c' r1]; [|discriminate].
        destruct (Ascii.eqb_spec c "010"%char) as [Heq|]; [subst c|discriminate].
        injection H as <- <-. unfold newline. auto.
  - intros (-> & Hrest & [-> | ->]); rewrite run_lit_app;
      destruct Hrest as [-> | ->]; reflexivity.
Qed.

Lemma optional_slash_paths_witness :
  search (optional_slash "signup") "signup/" = Some ([], EmptyString).
Proof. apply optional_slash_paths. repeat split; auto. Defined.

Lemma run_Chr_app c s g k : run (Chr c) (String c s) g k = k s g.
Proof. cbn [run]. by rewrite Ascii.eqb_refl. Qed.

Lemma run_Class_app p c s g k :
  run (Class p) (String c s) g k = if p c then k s g else None.
Proof. reflexivity. Qed.

Lemma dash_append (s : string) : "-" ++ s = String "-" s.
Proof. reflexivity. Qed.

Lemma run_uuid_regex_app (a b c d e : string) (v w : ascii) rest g k :
  String.length a = 8 -> String.length b = 4 -> String.length c = 3 ->
  String.length d = 3 -> String.length e = 12 ->
  PyRead.all_chars hex a = true -> PyRead.all_chars hex b = true ->
  PyRead.all_chars hex c = true -> PyRead.all_chars hex d = true ->
  PyRead.all_chars hex e = true ->
  run uuid_regex
    ((a ++ "-" ++ b ++ "-" ++ String v c ++ "-" ++ String w d ++ "-" ++ e) ++ rest) g k =
  if one_to_five v && variant w then k rest g else None.
Proof.
  intros La Lb Lc Ld Le Ha Hb Hc Hd He.
  rewrite !append_assoc, !dash_append, !append_cons.
  unfold uuid_regex.
  rewrite run_Seq, (run_rep_class_app _ _ a) by done.
  rewrite run_Seq, run_Chr_app.
  rewrite run_Seq, (run_rep_class_app _ _ b) by done.
  rewrite run_Seq, run_Chr_app.
  rewrite run_Seq, run_Class_app.
  destruct (one_to_five v); [|reflexivity].
  rewrite run_Seq, (run_rep_class_app _ _ c) by done.
  rewrite run_Seq, run_Chr_app.
  rewrite run_Seq, run_Class_app.
  destruct (variant w); [|reflexivity].
  rewrite run_Seq, (run_rep_class_app _ _ d) by done.
  rewrite run_Seq, run_Chr_app.
  by rewrite (run_rep_class_app _ _ e) by done.
Qed.

Lemma run_uuid_regex_Some s g k m :
  run uuid_regex s g k = Some m ->
  exists a b c d e v w rest,
    s = (a ++ "-" ++ b ++ "-" ++ String v c ++ "-" ++ String w d ++ "-" ++ e) ++ rest /\
    (String.length a = 8 /\ String.length b = 4 /\ String.length c = 3 /\
     String.length d = 3 /\ String.length e = 12) /\
    (PyRead.all_chars hex a = true /\ PyRead.all_chars hex b = true /\
     PyRead.all_chars hex c = true /\ PyRead.all_chars hex d = true /\
     PyRead.all_chars hex e = true) /\
    one_to_five v = true /\ variant w = true /\
    k rest g = Some m.
Proof.
  unfold uuid_regex. intros H.
  rewrite run_Seq in H. apply run_rep_class_Some in H as (a & r & -> & La & Ha & H).
  rewrite run_Seq in H. apply run_Chr_Some in H as (r' & -> & H).
  rewrite run_Seq in H. apply run_rep_class_Some in H as (b & r & -> & Lb & Hb & H).
  rewrite run_Seq in H. apply run_Chr_Some in H as (r' & -> & H).
  rewrite run_Seq in H. apply run_Class_Some in H as (v & r & -> & Hv & H).
  rewrite run_Seq in H. apply run_rep_class_Some in H as (c & r' & -> & Lc & Hc & H).
  rewrite run_Seq in H. apply run_Chr_Some in H as (r & -> & H).
  rewrite run_Seq in H. apply run_Class_Some in H as (w & r' & -> & Hw & H).
  rewrite run_Seq in H. apply run_rep_class_Some in H as (d & r & -> & Ld & Hd & H).
  rewrite run_Seq in H. apply run_Chr_Some in H as (r' & -> & H).
  apply run_rep_class_Some in H as (e & r & -> & Le & He & H).
  exists a, b, c, d, e, v, w, r.
  split; [|done].
  by rewrite !append_assoc, !dash_append, !append_cons.
Qed.

Lemma search_study_detail_text (a b c d e : string) (v w : ascii) tail :
  String.length a = 8 -> String.length b = 4 -> String.length c = 3 ->
  String.length d = 3 -> String.length e = 12 ->
  PyRead.all_chars hex a = true -> PyRead.all_chars hex b = true ->
  PyRead.all_chars hex c = true -> PyRead.all_chars hex d = true ->
  PyRead.all_chars hex e = true ->
  let t := a ++ "-" ++ b ++ "-" ++ String v c ++ "-" ++ String w d ++ "-" ++ e in
  search study_detail_regex ("studies/" ++ t ++ tail) =
    if one_to_five v && variant w
    then run (Seq (Chr "/") Dollar) tail [("uuid", t)] (fun rest g => Some (g, rest))
    else None.
Proof.
  intros La Lb Lc Ld Le Ha Hb Hc Hd He t.
  unfold search, study_detail_regex.
  rewrite run_Seq, run_lit_app, run_Seq, run_Group.
  unfold t at 1. rewrite run_uuid_regex_app by done.
  destruct (one_to_five v && variant w); [|reflexivity].
  by rewrite consumed_append.
Qed.

Lemma search_study_detail_Some path g rest :
  search study_detail_regex path = Some (g, rest) ->
  exists a b c d e v w,
    let t := a ++ "-" ++ b ++ "-" ++ String v c ++ "-" ++ String w d ++ "-" ++ e in
    path = "studies/" ++ t ++ "/" ++ rest /\ g = [("uuid", t)] /\
    (rest = EmptyString \/ rest = newline) /\
    (String.length a = 8 /\ String.length b = 4 /\ String.length c = 3 /\
     String.length d = 3 /\ String.length e = 12) /\
    (PyRead.all_chars hex a = true /\ PyRead.all_chars hex b = true /\
     PyRead.all_chars hex c = true /\ PyRead.all_chars hex d = true /\
     PyRead.all_chars hex e = true) /\
    one_to_five v = true /\ variant w = true.
Proof.
  unfold search, study_detail_regex. intros H.
  rewrite run_Seq in H. apply run_lit_Some in H as (r & -> & H).
  rewrite run_Seq, run_Group in H.
  apply run_uuid_regex_Some in H
    as (a & b & c & d & e & v & w & r' & -> & Hlen & Hhex & Hv & Hw & H).
  rewrite consumed_append, run_Seq in H.
  apply run_Chr_Some in H as (r & -> & H).
  apply run_Dollar_Some in H as [Hrest H]. injection H as <- <-.
  exists a, b, c, d, e, v, w. cbv zeta.
  split; [reflexivity|]. split; [reflexivity|]. auto.
Qed.

Lemma read_from_value (base acc : N) (s : string) (x : N) :
  PyRead.read_from base acc s = Some x ->
  exists r, (x = acc * base ^ N.of_nat (String.length s) + r /\
             r < base ^ N.of_nat (String.length s))%N.
Proof.
  revert acc. induction s as [|c s IH]; intros acc H.
  - injection H as <-. exists 0%N. cbn. lia.
  - cbn [PyRead.read_from] in H.
    destruct (PyRead.digit_of c) as [d|]; [|discriminate].
    destruct (N.ltb_spec d base) as [Hd|]; [|discriminate].
    apply IH in H as (r & -> & Hr).
    exists (d * base ^ N.of_nat (String.length s) + r)%N.
    cbn [String.length]. rewrite Nat2N.inj_succ, N.pow_succ_r'. nia.
Qed.

Lemma hex_digit_at (a b : string) (v : ascii) (n : N) :
  PyRead.read 16 (a ++ String v b) = Some n ->
  PyRead.digit_of v = Some ((n / 16 ^ N.of_nat (String.length b)) mod 16)%N.
Proof.
  unfold PyRead.read. rewrite read_from_append.
  destruct (PyRead.read_from 16 0 a) as [x|]; [|discriminate].
  cbn [mbind option_bind PyRead.read_from].
  destruct (PyRead.digit_of v) as [d|]; [|discriminate].
  destruct (N.ltb_spec d 16) as [Hd|]; [|discriminate].
  intros H. apply read_from_value in H as (r & -> & Hr). f_equal.
  set (B := (16 ^ N.of_nat (String.length b))%N) in *.
  rewrite N.div_add_l by lia. rewrite (N.div_small r B) by exact Hr.
  rewrite N.add_0_r, N.add_comm, N.Div0.mod_add. symmetry. by apply N.mod_small.
Qed.

Lemma uuid_bits_digit (u : UUID) (k : nat) :
  uuid_bits u (4 * N.of_nat k) = ((uuid_int u / 16 ^ N.of_nat k) mod 16)%N.
Proof.
  unfold uuid_bits. change 15%N with (N.ones 4).
  rewrite N.land_ones, N.shiftr_div_pow2, N.pow_mul_r. reflexivity.
Qed.

Lemma N_lt_16_cases (d : N) :
  (d < 16)%N ->
  In d [0; 1; 2; 3; 4; 5; 6; 7; 8; 9; 10; 11; 12; 13; 14; 15]%N.
Proof.
  intros H. rewrite <- (N2Nat.id d).
  assert (N.to_nat d < 16)%nat as Hn by lia.
  revert Hn. generalize (N.to_nat d). intros n Hn.
  do 16 (destruct n as [|n]; [cbn; tauto|]). lia.
Qed.

Lemma digit_of_inv (c : ascii) (d : N) :
  PyRead.digit_of c = Some d -> c = PyFormat.digit_char d /\ (d < 16)%N.
Proof.
  destruct c as [[] [] [] [] [] [] [] []]; vm_compute; intros H;
    try discriminate; injection H as <-; split; reflexivity.
Qed.

Lemma digit_classes (d : N) :
  (d < 16)%N ->
  let c := PyFormat.digit_char d in
  hex c = true /\ hex (ascii_upper c) = true /\
  one_to_five c = (1 <=? d)%N && (d <=? 5)%N /\
  one_to_five (ascii_upper c) = (1 <=? d)%N && (d <=? 5)%N /\
  variant c = (8 <=? d)%N && (d <=? 11)%N /\
  variant (ascii_upper c) = (8 <=? d)%N && (d <=? 9)%N.
Proof.
  intros H. apply N_lt_16_cases in H. cbn [In] in H.
  repeat (destruct H as [<- | H]; [vm_compute; tauto|]). destruct H.
Qed.

Lemma all_chars_impl (p q : ascii -> bool) (s : string) :
  (forall c, p c = true -> q c = true) ->
  PyRead.all_chars p s = true -> PyRead.all_chars q s = true.
Proof.
  intros Hpq. induction s as [|c s IH]; [done|]. cbn.
  rewrite !andb_true_iff. intros [Hc Hs]. auto.
Qed.

Lemma hex_digit_is_hex (c : ascii) : PyRead.is_hex_digit c = true -> hex c = true.
Proof.
  unfold PyRead.is_hex_digit. destruct (PyRead.digit_of c) as [d|] eqn:Hd; [|done].
  intros _. apply digit_of_inv in Hd as [-> Hd]. by apply digit_classes.
Qed.

Lemma hex_digit_upper_is_hex (c : ascii) :
  PyRead.is_hex_digit c = true -> hex (ascii_upper c) = true.
Proof.
  unfold PyRead.is_hex_digit. destruct (PyRead.digit_of c) as [d|] eqn:Hd; [|done].
  intros _. apply digit_of_inv in Hd as [-> Hd]. by apply digit_classes.
Qed.

Lemma all_chars_py_upper (s : string) :
  PyRead.all_chars PyRead.is_hex_digit s = true ->
  PyRead.all_chars hex (py_upper s) = true.
Proof.
  induction s as [|c s IH]; [done|]. cbn.
  rewrite !andb_true_iff. intros [Hc Hs]. auto using hex_digit_upper_is_hex.
Qed.

Lemma length_py_upper (s : string) : String.length (py_upper s) = String.length s.
Proof. induction s as [|c s IH]; [done|]. cbn. by rewrite IH. Qed.

Lemma string_at (s : string) (i : nat) :
  i < String.length s ->
  exists c, s = substring 0 i s ++ String c (substring (S i) (String.length s - S i) s) /\
            substring i 1 s = String c EmptyString.
Proof.
  revert i. induction s as [|c s IH]; intros i Hi; [cbn in Hi; lia|].
  destruct i as [|i].
  - exists c. cbn [String.length].
    replace (S (String.length s) - 1) with (String.length s) by lia.
    cbn [substring]. rewrite substring_all.
    split; [reflexivity|]. by destruct s.
  - cbn [String.length] in Hi. destruct (IH i) as (c' & Heq & Hone); [lia|].
    exists c'. cbn [String.length substring]. rewrite append_cons.
    replace (S (String.length s) - S (S i)) with (String.length s - S i) by lia.
    by rewrite <- Heq.
Qed.

(** The text of a 128-bit UUID: five groups of hex digits, with the digit
    that holds bits 76..79 at the head of the third and the digit that
    holds bits 60..63 at the head of the fourth. *)
Lemma uuid_str_parts (u : UUID) :
  (uuid_int u < 2 ^ 128)%N ->
  exists a b c d e v w,
    uuid_str u = a ++ "-" ++ b ++ "-" ++ String v c ++ "-" ++ String w d ++ "-" ++ e /\
    (String.length a = 8 /\ String.length b = 4 /\ String.length c = 3 /\
     String.length d = 3 /\ String.length e = 12) /\
    (PyRead.all_chars PyRead.is_hex_digit a = true /\
     PyRead.all_chars PyRead.is_hex_digit b = true /\
     PyRead.all_chars PyRead.is_hex_digit c = true /\
     PyRead.all_chars PyRead.is_hex_digit d = true /\
     PyRead.all_chars PyRead.is_hex_digit e = true) /\
    PyRead.digit_of v = Some (uuid_bits u 76) /\
    PyRead.digit_of w = Some (uuid_bits u 60).
Proof.
  intros Hu. pose proof (uuid_hex_length u Hu) as Hlen.
  pose proof (uuid_hex_digits u) as Hhex.
  pose proof (uuid_hex_read u) as Hread.
  destruct (string_at (uuid_hex u) 12) as (v & Hv & Hv1); [lia|].
  destruct (string_at (uuid_hex u) 16) as (w & Hw & Hw1); [lia|].
  exists (substring 0 8 (uuid_hex u)), (substring 8 4 (uuid_hex u)),
    (substring 13 3 (uuid_hex u)), (substring 17 3 (uuid_hex u)),
    (substring 20 12 (uuid_hex u)), v, w.
  split; [|split; [|split; [|split]]].
  - unfold uuid_str. cbv zeta. rewrite Hlen.
    rewrite <- (substring_split _ 12 1 3), <- (substring_split _ 16 1 3), Hv1, Hw1.
    reflexivity.
  - rewrite !length_substring by lia. done.
  - by rewrite !all_chars_substring.
  - change 76%N with (4 * N.of_nat 19)%N. rewrite uuid_bits_digit.
    rewrite Hv in Hread. apply hex_digit_at in Hread.
    rewrite length_substring in Hread by lia. by rewrite Hlen in Hread.
  - change 60%N with (4 * N.of_nat 15)%N. rewrite uuid_bits_digit.
    rewrite Hw in Hread. apply hex_digit_at in Hread.
    rewrite length_substring in Hread by lia. by rewrite Hlen in Hread.
Qed.

Section ResolverFacts.

Variable auth_urls : string -> option ResolverMatch.

Lemma resolve_in_skip p ps path :
  search (regex p) path = None ->
  resolve_in auth_urls (p :: ps) path = resolve_in auth_urls ps path.
Proof. intros H. cbn [resolve_in]. by rewrite H. Qed.

Lemma resolve_in_view p ps path g rest v :
  search (regex p) path = Some (g, rest) -> target p = View v ->
  resolve_in auth_urls (p :: ps) path =
    Some (mkResolverMatch v (dict_of (rev g ++ default_args p)%list) (url_name p)).
Proof. intros H Hv. cbn [resolve_in]. by rewrite H, Hv. Qed.

(** A path that goes on after ["studies/"] with two more characters is
    matched by none of the three routes before the detail route. *)
Lemma resolve_studies_longer (c1 c2 : ascii) (s : string) :
  resolve auth_urls ("studies/" ++ String c1 (String c2 s)) =
  resolve_in auth_urls (drop 3 urlpatterns) ("studies/" ++ String c1 (String c2 s)).
Proof.
  unfold resolve, urlpatterns. by rewrite !resolve_in_skip by reflexivity.
Qed.

End ResolverFacts.

Lemma string_length_2 (a : string) :
  2 <= String.length a -> exists c1 c2 a', a = String c1 (String c2 a').
Proof. destruct a as [|c1 [|c2 a]]; cbn; intros; try lia. eauto. Qed.

(** X14: the text [str(u)] of a 128-bit UUID whose version is 1 to 5 and
    whose variant bits are [10] is routed to the study detail view, with the
    text as the [uuid] argument, when a slash follows it; without the slash
    the path is left to the included auth routes.  In upper case the text is
    matched only when the variant digit is [8] or [9], because the class
    [[89ab]] has no upper-case letters. *)
Theorem study_detail_resolves_uuid (auth_urls : string -> option ResolverMatch)
    (u : UUID) :
  (uuid_int u < 2 ^ 128)%N ->
  (1 <= uuid_bits u 76 <= 5)%N ->
  (8 <= uuid_bits u 60 <= 11)%N ->
  resolve auth_urls ("studies/" ++ uuid_str u ++ "/") =
    Some (mkResolverMatch "StudyDetailView" {[ "uuid" := uuid_str u ]}
            (Some "public-study-detail")) /\
  resolve auth_urls ("studies/" ++ uuid_str u) = auth_urls ("studies/" ++ uuid_str u) /\
  search study_detail_regex ("studies/" ++ py_upper (uuid_str u) ++ "/") =
    if (uuid_bits u 60 <=? 9)%N
    then Some ([("uuid", py_upper (uuid_str u))], EmptyString)
    else None.
Proof.
  intros Hu Hversion Hvariant.
  destruct (uuid_str_parts u Hu)
    as (a & b & c & d & e & v & w & Ht & (La & Lb & Lc & Ld & Le) &
        (Ha & Hb & Hc & Hd & He) & Hv & Hw).
  apply digit_of_inv in Hv as [-> Hv], Hw as [-> Hw].
  destruct (digit_classes _ Hv) as (_ & _ & Hv5 & Hv5' & _ & _).
  destruct (digit_classes _ Hw) as (_ & _ & _ & _ & Hw8 & Hw8').
  cbv zeta in Hv5, Hv5', Hw8, Hw8'.
  assert (Hone : ((1 <=? uuid_bits u 76)%N && (uuid_bits u 76 <=? 5)%N) = true).
  { apply andb_true_iff. split; apply N.leb_le; lia. }
  assert (Hvar : ((8 <=? uuid_bits u 60)%N && (uuid_bits u 60 <=? 11)%N) = true).
  { apply andb_true_iff. split; apply N.leb_le; lia. }
  rewrite Hone in Hv5, Hv5'. rewrite Hvar in Hw8.
  destruct (string_length_2 a) as (c1 & c2 & a' & Ea); [lia|].
  assert (Hsearch : forall tail,
    search study_detail_regex ("studies/" ++ uuid_str u ++ tail) =
    run (Seq (Chr "/") Dollar) tail [("uuid", uuid_str u)]
      (fun rest g => Some (g, rest))).
  { intros tail. rewrite Ht.
    rewrite search_study_detail_text by eauto using all_chars_impl, hex_digit_is_hex.
    by rewrite Hv5, Hw8. }
  split; [|split].
  - assert (Hshape : exists s, uuid_str u ++ "/" = String c1 (String c2 s)).
    { rewrite Ht, Ea, !append_cons. eauto. }
    destruct Hshape as (s & Hs). rewrite Hs, resolve_studies_longer, <- Hs.
    assert (Hslash : search study_detail_regex ("studies/" ++ uuid_str u ++ "/") =
                     Some ([("uuid", uuid_str u)], EmptyString))
      by (by rewrite Hsearch).
    unfold urlpatterns. cbn [drop].
    erewrite resolve_in_view; [| exact Hslash | reflexivity].
    cbn [rev app default_args url_name]. unfold dict_of. cbn [fold_left fst snd].
    by rewrite insert_empty.
  - assert (Hshape : exists s, uuid_str u = String c1 (String c2 s)).
    { rewrite Ht, Ea, !append_cons. eauto. }
    pose proof (Hsearch EmptyString) as Hnone. rewrite append_nil_r in Hnone.
    destruct Hshape as (s & Hs). rewrite Hs in Hnone |- *.
    rewrite resolve_studies_longer. unfold urlpatterns. cbn [drop].
    rewrite resolve_in_skip by exact Hnone.
    rewrite !resolve_in_skip by reflexivity.
    cbn [resolve_in regex target search run].
    by destruct (auth_urls _).
  - rewrite Ht, !py_upper_append. cbn [py_upper].
    change (ascii_upper "-") with "-"%char.
    rewrite search_study_detail_text
      by (rewrite ?length_py_upper; eauto using all_chars_py_upper).
    rewrite Hv5', Hw8'.
    destruct (8 <=? uuid_bits u 60)%N; [|discriminate].
    by destruct (uuid_bits u 60 <=? 9)%N.
Qed.

Lemma study_detail_resolves_uuid_witness :
  resolve (fun _ => None)
    ("studies/" ++ uuid_str (mkUUID 0x1234567812344234a234123456789012) ++ "/") =
    Some (mkResolverMatch "StudyDetailView"
            {[ "uuid" := uuid_str (mkUUID 0x1234567812344234a234123456789012) ]}
            (Some "public-study-detail")).
Proof.
  apply (study_detail_resolves_uuid (fun _ => None)
           (mkUUID 0x1234567812344234a234123456789012));
    cbn [uuid_int]; vm_compute; try split; congruence.
Defined.

Lemma lookup_lt_8_cases {A} (l : list A) (i : nat) (x : A) (P : nat -> A -> Prop) :
  i < 8 -> l !! i = Some x ->
  (forall y, l !! 0 = Some y -> P 0 y) -> (forall y, l !! 1 = Some y -> P 1 y) ->
  (forall y, l !! 2 = Some y -> P 2 y) -> (forall y, l !! 3 = Some y -> P 3 y) ->
  (forall y, l !! 4 = Some y -> P 4 y) -> (forall y, l !! 5 = Some y -> P 5 y) ->
  (forall y, l !! 6 = Some y -> P 6 y) -> (forall y, l !! 7 = Some y -> P 7 y) ->
  P i x.
Proof.
  intros Hi Hx H0 H1 H2 H3 H4 H5 H6 H7.
  do 8 (destruct i as [|i]; [auto|]). lia.
Qed.

(** X15: the eight routes listed before the include never compete: a path
    matched by one of them is matched by no other of them, and it resolves
    to that route's view with the route's name, the captured groups and the
    route's own arguments, whatever the included auth routes would do with
    it. *)
Theorem routes_before_include_exclusive (auth_urls : string -> option ResolverMatch)
    (i : nat) (p : Pattern) (path : string) (g : Groups) (rest : string) :
  i < 8 -> urlpatterns !! i = Some p ->
  search (regex p) path = Some (g, rest) ->
  (forall j q, j < 8 -> urlpatterns !! j = Some q -> j <> i ->
     search (regex q) path = None) /\
  exists v, target p = View v /\
    resolve auth_urls path =
      Some (mkResolverMatch v (dict_of (rev g ++ default_args p)%list) (url_name p)).
Proof.
  intros Hi Hp Hsearch.
  destruct i as [|[|[|[|[|[|[|[|i]]]]]]]]; [..|lia];
    injection Hp as <-; cbn [regex] in Hsearch.
  4: {
    apply search_study_detail_Some in Hsearch
      as (a & b & c & d & e & v & w & Hpath & -> & Hrest & (La & Lb & Lc & Ld & Le) &
          Hhex & Hv & Hw).
    cbv zeta in Hpath.
    destruct (string_length_2 a) as (c1 & c2 & a' & ->); [lia|].
    assert (Hshape : exists s, path = "studies/" ++ String c1 (String c2 s)).
    { rewrite Hpath, !append_cons. eauto. }
    destruct Hshape as (s & Hs).
    assert (Hagain : search study_detail_regex path =
      Some ([("uuid", String c1 (String c2 a') ++ "-" ++ b ++ "-" ++ String v c ++ "-"
                        ++ String w d ++ "-" ++ e)], rest)).
    { rewrite Hpath. destruct Hhex as (Ha & Hb & Hc & Hd & He).
      rewrite search_study_detail_text by done. rewrite Hv, Hw.
      by destruct Hrest as [-> | ->]. }
    split.
    - intros j q Hj Hq Hne.
      destruct j as [|[|[|[|[|[|[|[|j]]]]]]]]; [..|lia];
        first [congruence | injection Hq as <-; rewrite Hs; reflexivity].
    - eexists. split; [reflexivity|]. rewrite Hs, resolve_studies_longer, <- Hs.
      unfold urlpatterns. cbn [drop].
      erewrite resolve_in_view; [reflexivity | exact Hagain | reflexivity]. }
  all: apply optional_slash_paths in Hsearch as (-> & Hrest & Hpath).
  all: split;
    [ intros j q Hj Hq Hne;
      destruct j as [|[|[|[|[|[|[|[|j]]]]]]]]; [..|lia];
        first [ congruence
              | injection Hq as <-;
                destruct Hrest as [-> | ->], Hpath as [-> | ->]; reflexivity ]
    | eexists; split; [reflexivity|];
      destruct Hrest as [-> | ->], Hpath as [-> | ->]; reflexivity ].
Qed.

Lemma routes_before_include_exclusive_witness :
  resolve (fun _ => None) "faq/" =
    Some (mkResolverMatch "flatpage" (dict_of [("url", "/faq/")]) (Some "faq")).
Proof.
  destruct (routes_before_include_exclusive (fun _ => None) 4
              (mkPattern (optional_slash "faq") (View "flatpage") [("url", "/faq/")]
                 (Some "faq"))
              "faq/" [] EmptyString) as [_ (v & Hv & Hres)];
    [lia | reflexivity | reflexivity |].
  injection Hv as <-. exact Hres.
Defined.

(** X16: a path matched by none of the eight routes before the include is
    handed whole to the included auth routes; only when they do not resolve
    it is the home route tried, which takes the empty path (and a lone line
    feed) and nothing else. *)
Theorem include_before_home (auth_urls : string -> option ResolverMatch)
    (path : string) :
  (forall i p, i < 8 -> urlpatterns !! i = Some p -> search (regex p) path = None) ->
  resolve auth_urls path =
    match auth_urls path with
    | Some m => Some m
    | None =>
        if String.eqb path EmptyString || String.eqb path newline
        then Some (mkResolverMatch "flatpage" {[ "url" := "/" ]} (Some "home"))
        else None
    end.
Proof.
  intros H. unfold resolve, urlpatterns.
  rewrite (resolve_in_skip _ _ _ _ (H 0 _ ltac:(lia) eq_refl)).
  rewrite (resolve_in_skip _ _ _ _ (H 1 _ ltac:(lia) eq_refl)).
  rewrite (resolve_in_skip _ _ _ _ (H 2 _ ltac:(lia) eq_refl)).
  rewrite (resolve_in_skip _ _ _ _ (H 3 _ ltac:(lia) eq_refl)).
  rewrite (resolve_in_skip _ _ _ _ (H 4 _ ltac:(lia) eq_refl)).
  rewrite (resolve_in_skip _ _ _ _ (H 5 _ ltac:(lia) eq_refl)).
  rewrite (resolve_in_skip _ _ _ _ (H 6 _ ltac:(lia) eq_refl)).
  rewrite (resolve_in_skip _ _ _ _ (H 7 _ ltac:(lia) eq_refl)).
  cbn [resolve_in regex target search run].
  destruct (auth_urls path); [reflexivity|].
  destruct path as [|c [|c' path]]; [reflexivity|..];
    cbn [String.eqb orb newline];
    destruct (Ascii.eqb c "010"%char); reflexivity.
Qed.

Lemma include_before_home_witness :
  resolve (fun _ => None) EmptyString =
    Some (mkResolverMatch "flatpage" {[ "url" := "/" ]} (Some "home")).
Proof.
  rewrite (include_before_home (fun _ => None) EmptyString); [reflexivity|].
  intros i p Hi Hp.
  do 8 (destruct i as [|i]; [injection Hp as <-; reflexivity|]). lia.
Defined.

Lemma read_from_total (acc : N) (s : string) :
  PyRead.all_chars PyRead.is_hex_digit s = true ->
  exists n, PyRead.read_from 16 acc s = Some n.
Proof.
  revert acc. induction s as [|c s IH]; intros acc H; [by eexists|].
  cbn in H. apply andb_true_iff in H as [Hc Hs].
  unfold PyRead.is_hex_digit in Hc. cbn [PyRead.read_from].
  destruct (PyRead.digit_of c) as [d|] eqn:Hd; [|discriminate].
  apply digit_of_inv in Hd as [_ Hd].
  destruct (N.ltb_spec d 16); [|lia]. by apply IH.
Qed.

Lemma read_from_inj_length (acc : N) (s1 s2 : string) (x : N) :
  PyRead.read_from 16 acc s1 = Some x -> PyRead.read_from 16 acc s2 = Some x ->
  String.length s1 = String.length s2 -> s1 = s2.
Proof.
  revert acc s2. induction s1 as [|c1 s1 IH]; intros acc [|c2 s2] H1 H2 Hlen;
    try discriminate; [reflexivity|].
  cbn [PyRead.read_from] in H1, H2. injection Hlen as Hlen.
  destruct (PyRead.digit_of c1) as [d1|] eqn:Hd1; [|discriminate].
  destruct (PyRead.digit_of c2) as [d2|] eqn:Hd2; [|discriminate].
  destruct (N.ltb_spec d1 16); [|discriminate].
  destruct (N.ltb_spec d2 16); [|discriminate].
  destruct (read_from_value _ _ _ _ H1) as (r1 & E1 & Hr1).
  destruct (read_from_value _ _ _ _ H2) as (r2 & E2 & Hr2).
  rewrite Hlen in E1, Hr1.
  set (B := (16 ^ N.of_nat (String.length s2))%N) in *.
  assert (d1 = d2) as <- by nia.
  apply digit_of_inv in Hd1 as [-> _], Hd2 as [-> _].
  f_equal. by eapply IH.
Qed.

Lemma lower_classes (c : ascii) :
  (hex c = true -> PyRead.is_hex_digit (ascii_lower c) = true) /\
  (one_to_five c = true ->
     ascii_lower c = c /\
     exists d, PyRead.digit_of c = Some d /\ ((1 <=? d) && (d <=? 5))%N = true) /\
  (variant c = true ->
     ascii_lower c = c /\
     exists d, PyRead.digit_of c = Some d /\ ((8 <=? d) && (d <=? 11))%N = true).
Proof.
  destruct c as [[] [] [] [] [] [] [] []]; vm_compute;
    (split; [|split]); intros H; try discriminate H; try reflexivity;
    (split; [reflexivity | eexists; split; reflexivity]).
Qed.

Lemma py_lower_append (a b : string) : py_lower (a ++ b) = py_lower a ++ py_lower b.
Proof.
  induction a as [|c a IH]; [done|]. rewrite append_cons. cbn.
  by rewrite IH, append_cons.
Qed.

Lemma length_py_lower (s : string) : String.length (py_lower s) = String.length s.
Proof. induction s as [|c s IH]; [done|]. cbn. by rewrite IH. Qed.

Lemma all_chars_py_lower (s : string) :
  PyRead.all_chars hex s = true ->
  PyRead.all_chars PyRead.is_hex_digit (py_lower s) = true.
Proof.
  induction s as [|c s IH]; [done|]. cbn.
  rewrite !andb_true_iff. intros [Hc Hs]. split; [by apply lower_classes | auto].
Qed.

Lemma substring_tail (x y : string) n m :
  String.length x = n -> String.length y = m -> substring n m (x ++ y) = y.
Proof. intros <- <-. rewrite substring_append_r. apply substring_all. Qed.

Lemma substring_parts (x y z : string) n m :
  String.length x = n -> String.length y = m -> substring n m (x ++ y ++ z) = y.
Proof. intros <- <-. rewrite substring_append_r. apply substring_append_l. Qed.

(** The text of a UUID whose 32 hex digits are known in five groups. *)
Lemma uuid_str_of_parts (u : UUID) (A B C D E : string) :
  uuid_hex u = A ++ B ++ C ++ D ++ E ->
  String.length A = 8 -> String.length B = 4 -> String.length C = 4 ->
  String.length D = 4 -> String.length E = 12 ->
  uuid_str u = A ++ "-" ++ B ++ "-" ++ C ++ "-" ++ D ++ "-" ++ E.
Proof.
  intros Hhex La Lb Lc Ld Le. unfold uuid_str. cbv zeta.
  assert (String.length (uuid_hex u) = 32) as ->
    by (rewrite Hhex, !length_append; lia).
  assert (substring 0 8 (uuid_hex u) = A) as ->.
  { rewrite Hhex. by apply (substring_parts EmptyString A). }
  assert (substring 8 4 (uuid_hex u) = B) as ->.
  { rewrite Hhex. by apply substring_parts. }
  assert (substring 12 4 (uuid_hex u) = C) as ->.
  { rewrite Hhex, <- (append_assoc A B).
    apply substring_parts; [rewrite length_append; lia | done]. }
  assert (substring 16 4 (uuid_hex u) = D) as ->.
  { rewrite Hhex, <- (append_assoc A B), <- (append_assoc (A ++ B) C).
    apply substring_parts; [rewrite !length_append; lia | done]. }
  assert (substring 20 (32 - 20) (uuid_hex u) = E) as ->.
  { rewrite Hhex, <- (append_assoc A B), <- (append_assoc (A ++ B) C),
      <- (append_assoc ((A ++ B) ++ C) D).
    apply substring_tail; [rewrite !length_append; lia | done]. }
  reflexivity.
Qed.

(** X17: whatever the study detail route accepts is ["studies/"], a text
    and a slash (a line feed may follow); the text is handed over as the
    [uuid] argument and is, up to the case of its letters, the text of a
    128-bit UUID with a version from 1 to 5 and variant bits [10]. *)
Theorem study_detail_captures_uuid (path : string) (g : Groups) (rest : string) :
  search study_detail_regex path = Some (g, rest) ->
  exists (t : string) (u : UUID),
    path = "studies/" ++ t ++ "/" ++ rest /\
    (rest = EmptyString \/ rest = newline) /\
    g = [("uuid", t)] /\
    py_lower t = uuid_str u /\
    (uuid_int u < 2 ^ 128)%N /\
    (1 <= uuid_bits u 76 <= 5)%N /\ (8 <= uuid_bits u 60 <= 11)%N.
Proof.
  intros H. apply search_study_detail_Some in H
    as (a & b & c & d & e & v & w & Hpath & Hg & Hrest & (La & Lb & Lc & Ld & Le) &
        (Ha & Hb & Hc & Hd & He) & Hv & Hw).
  cbv zeta in Hpath, Hg.
  destruct (lower_classes v) as (_ & Hv' & _). destruct (Hv' Hv) as (Elv & dv & Hdv & Hdv5).
  destruct (lower_classes w) as (_ & _ & Hw'). destruct (Hw' Hw) as (Elw & dw & Hdw & Hdw8).
  clear Hv' Hw'.
  set (A := py_lower a). set (B := py_lower b). set (C := String v (py_lower c)).
  set (D := String w (py_lower d)). set (E := py_lower e).
  assert (Hdigits : PyRead.all_chars PyRead.is_hex_digit (A ++ B ++ C ++ D ++ E) = true).
  { rewrite !all_chars_append. unfold A, B, C, D, E. cbn [PyRead.all_chars].
    rewrite !all_chars_py_lower by done.
    unfold PyRead.is_hex_digit. by rewrite Hdv, Hdw. }
  assert (LA : String.length A = 8) by (unfold A; by rewrite length_py_lower).
  assert (LB : String.length B = 4) by (unfold B; by rewrite length_py_lower).
  assert (LC : String.length C = 4) by (unfold C; cbn; by rewrite length_py_lower, Lc).
  assert (LD : String.length D = 4) by (unfold D; cbn; by rewrite length_py_lower, Ld).
  assert (LE : String.length E = 12) by (unfold E; by rewrite length_py_lower).
  destruct (read_from_total 0 _ Hdigits) as (n & Hn).
  destruct (read_from_value _ _ _ _ Hn) as (r & En & Hr).
  assert (Hlen : String.length (A ++ B ++ C ++ D ++ E) = 32)
    by (rewrite !length_append; lia).
  rewrite Hlen in En, Hr.
  assert (Hn128 : (n < 2 ^ 128)%N).
  { change (2 ^ 128)%N with (16 ^ N.of_nat 32)%N. lia. }
  set (u := mkUUID n).
  assert (Hhex : uuid_hex u = A ++ B ++ C ++ D ++ E).
  { eapply (read_from_inj_length 0); [apply uuid_hex_read | exact Hn |].
    rewrite Hlen. by apply uuid_hex_length. }
  exists (a ++ "-" ++ b ++ "-" ++ String v c ++ "-" ++ String w d ++ "-" ++ e), u.
  split; [exact Hpath|]. split; [exact Hrest|]. split; [exact Hg|].
  split; [|split; [exact Hn128|split]].
  - rewrite (uuid_str_of_parts u A B C D E) by done.
    rewrite !py_lower_append. cbn [py_lower].
    change (ascii_lower "-") with "-"%char. by rewrite Elv, Elw.
  - change 76%N with (4 * N.of_nat 19)%N. rewrite uuid_bits_digit.
    pose proof (uuid_hex_read u) as Hread.
    rewrite Hhex, <- (append_assoc A B) in Hread. unfold C in Hread.
    rewrite append_cons in Hread. apply hex_digit_at in Hread.
    rewrite !length_append, length_py_lower, Lc, LD, LE in Hread.
    unfold u in Hread |- *. cbn [uuid_int] in Hread |- *. change (3 + (4 + 12)) with 19 in Hread.
    assert (dv = (n / 16 ^ N.of_nat 19) mod 16)%N as <- by congruence.
    apply andb_true_iff in Hdv5 as [?%N.leb_le ?%N.leb_le]. lia.
  - change 60%N with (4 * N.of_nat 15)%N. rewrite uuid_bits_digit.
    pose proof (uuid_hex_read u) as Hread.
    rewrite Hhex, <- (append_assoc A B), <- (append_assoc (A ++ B) C) in Hread.
    unfold D in Hread.
    rewrite append_cons in Hread. apply hex_digit_at in Hread.
    rewrite !length_append, length_py_lower, Ld, LE in Hread.
    unfold u in Hread |- *. cbn [uuid_int] in Hread |- *. change (3 + 12) with 15 in Hread.
    assert (dw = (n / 16 ^ N.of_nat 15) mod 16)%N as <- by congruence.
    apply andb_true_iff in Hdw8 as [?%N.leb_le ?%N.leb_le]. lia.
Qed.

Lemma study_detail_captures_uuid_witness :
  exists (t : string) (u : UUID),
    "studies/ABCDEF78-1234-4234-a234-123456789012/" = "studies/" ++ t ++ "/" ++ EmptyString /\
    (EmptyString = EmptyString \/ EmptyString = newline) /\
    [("uuid", "ABCDEF78-1234-4234-a234-123456789012")] = [("uuid", t)] /\
    py_lower t = uuid_str u /\
    (uuid_int u < 2 ^ 128)%N /\
    (1 <= uuid_bits u 76 <= 5)%N /\ (8 <= uuid_bits u 60 <= 11)%N.
Proof.
  apply (study_detail_captures_uuid "studies/ABCDEF78-1234-4234-a234-123456789012/"
           [("uuid", "ABCDEF78-1234-4234-a234-123456789012")] EmptyString).
  reflexivity.
Defined.


(** ** The owner entry *)

(** C6: the owner is rendered under "user" as the hex form of the owner's
    UUID: the text that reads back in base 16 as the UUID's integer, written
    with the digits 0-9a-f only and, for a 128-bit UUID, with exactly 32 of
    them, zeros in front where needed; no other text of 32 characters reads
    as that integer.  The dict is the same whatever the primary keys of the
    row, of its owner and of the row it refers to, and has no entry for
    them. *)
Theorem owner_rendered_as_uuid_hex ST (r : DemographicData) :
  (exists h,
     to_display ST r !! "user" = Some (PyStr h) /\
     h = uuid_hex (uuid (user r)) /\
     PyRead.read 16 h = Some (uuid_int (uuid (user r))) /\
     PyRead.all_chars PyRead.is_hex_digit h = true /\
     ((uuid_int (uuid (user r)) < 2 ^ 128)%N ->
      String.length h = 32 /\
      forall h', String.length h' = 32 ->
                 PyRead.read 16 h' = Some (uuid_int (uuid (user r))) -> h' = h)) /\
  to_display ST Sample.record !! "user" =
    Some (PyStr "12345678123456781234567812345678") /\
  uuid_hex (mkUUID 255) = "000000000000000000000000000000ff" /\
  (forall (record_pk owner_pk : nat) (prev : option nat),
     to_display ST (with_internal_ids record_pk owner_pk prev r) = to_display ST r) /\
  to_display ST r !! "id" = None /\
  to_display ST r !! "pk" = None /\
  to_display ST r !! "user_id" = None /\
  to_display ST r !! "previous" = None /\
  to_display ST r !! "previous_id" = None.
Proof.
  split; [|by repeat split].
  exists (uuid_hex (uuid (user r))).
  split; [reflexivity|]. split; [reflexivity|].
  split; [apply uuid_hex_read|]. split; [apply uuid_hex_digits|].
  intros Hu. pose proof (uuid_hex_length _ Hu) as Hlen. split; [exact Hlen|].
  intros h' Hlen' Hread.
  eapply (read_from_inj_length 0); [exact Hread | apply uuid_hex_read | congruence].
Qed.
